(** * gpass: the PGP engine (package encrypt) and the repository layer
      (package git), embedded from src/encrypt/encrypt.go.

    Go values are modelled as the code has them: [[]byte] as [list byte],
    [string] as [string], an [error] as the text it carries ([nil] is
    [None]), a pointer that may be [nil] as an [option], and a run-time
    panic (nil dereference) as an explicit outcome.  The two packages keep
    their own name spaces, [Encrypt] and [Git]. *)

From Stdlib Require Import NArith ZArith.
From Stdlib.Strings Require Import Byte Ascii.
From stdpp Require Import base strings list gmap pretty.


(** ** Go basics shared by both packages *)

Definition bytes := list byte.

#[global] Instance byte_eq_decision : EqDecision byte.
Proof.
  intros x y. destruct (Byte.eqb x y) eqn:E.
  - left. now apply Byte.byte_dec_bl.
  - right. now apply Byte.eqb_false.
Defined.

(** A Go [error] value: the message it prints. *)
Definition error := string.

(** The pair [(value, err)] a fallible Go call returns. *)
Inductive result (A : Type) : Type :=
| Ok (a : A)
| Fail (e : error).
Arguments Ok {A} a.
Arguments Fail {A} e.

(** [fmt.Errorf(format + "%s", err)] with a non-nil [err]. *)
Definition Errorf (prefix : string) (err : error) : error := prefix +:+ err.

(** What [fmt] prints for the [%s] verb applied to a nil [error]. *)
Definition nil_verb_s : string := "%!s(<nil>)".

(** A Go call, run from a state [S], either returns (with the state it
    leaves) or panics. *)
Inductive Res (S A : Type) : Type :=
| Ret (a : A) (s : S)
| Crash (s : S).
Arguments Ret {S A} a s.
Arguments Crash {S A} s.

Definition GoM (S A : Type) : Type := S -> Res S A.

Definition ret {S A} (a : A) : GoM S A := fun s => Ret a s.
Definition bind {S A B} (c : GoM S A) (k : A -> GoM S B) : GoM S B :=
  fun s => match c s with
           | Ret a s' => k a s'
           | Crash s' => Crash s'
           end.
Definition panic {S A} : GoM S A := fun s => Crash s.
Definition get {S} : GoM S S := fun s => Ret s s.
Definition put {S} (s' : S) : GoM S unit := fun _ => Ret tt s'.

Notation "x <- c ;; k" := (bind c (fun x => k))
  (at level 100, c at next level, right associativity).
Notation "c ;;; k" := (bind c (fun _ => k))
  (at level 100, right associativity).

Module Encrypt.

(** *** OpenPGP data (golang.org/x/crypto/openpgp), as far as the code
    inspects it *)

(** [packet.PrivateKey]: the code reads its [Encrypted] flag and calls [Decrypt].
    [pk_lock] stands for the passphrase the key material is protected
    with. *)
Record packet_PrivateKey := {
  pk_KeyId : N;
  pk_Encrypted : bool;
  pk_lock : bytes;
}.

(** [openpgp.Subkey]; its [PrivateKey] is a pointer and may be nil. *)
Record Subkey := {
  sub_PrivateKey : option packet_PrivateKey;
}.

(** [openpgp.Entity]: primary private key (a pointer) and subkeys. *)
Record Entity := {
  ent_PrivateKey : option packet_PrivateKey;
  ent_Subkeys : list Subkey;
}.

(** [armor.Block]. *)
Record Block := {
  Type_ : string;
  Body : bytes;
}.

(** [openpgp.PrivateKeyType]. *)
Definition PrivateKeyType : string := "PGP PRIVATE KEY BLOCK".

(** [Decrypt] of [packet.PrivateKey]: a key that is not encrypted is left
    alone and reports no error; otherwise the passphrase must be the one
    the key is locked with, and success clears the flag. *)
Definition PrivateKey_Decrypt (pk : packet_PrivateKey) (passphrase : bytes)
  : packet_PrivateKey * option error :=
  if negb (pk_Encrypted pk) then (pk, None)
  else if decide (passphrase = pk_lock pk)
       then ({| pk_KeyId := pk_KeyId pk; pk_Encrypted := false;
                pk_lock := pk_lock pk |}, None)
       else (pk, Some "openpgp: invalid data: private key checksum failure").

(** *** The world the package runs in *)

(** The controlling terminal: what each coming [terminal.ReadPassword]
    call will return, and what has been printed so far. *)
Record Terminal := {
  stdin : list (bytes * option error);
  stdout : list string;
}.

(** A file on disk: permission bits and content. *)
Record File := {
  perm : N;
  content : bytes;
}.

(** The file system.  [nocreate] are the paths at which creation fails
    (missing or read-only directory), [nochmod] and [nospace] make
    [Chmod] and [Write] fail. *)
Record FS := {
  files : gmap string File;
  umask : N;
  nocreate : gset string;
  nochmod : bool;
  nospace : bool;
}.

(** Process state: the package-level [entityList], the terminal and the
    disk. *)
Record Env := {
  entityList : list Entity;
  tty : Terminal;
  disk : FS;
}.

Definition set_entityList (l : list Entity) (e : Env) : Env :=
  {| entityList := l; tty := tty e; disk := disk e |}.
Definition set_tty (t : Terminal) (e : Env) : Env :=
  {| entityList := entityList e; tty := t; disk := disk e |}.
Definition set_disk (d : FS) (e : Env) : Env :=
  {| entityList := entityList e; tty := tty e; disk := d |}.

Definition M (A : Type) : Type := GoM Env A.

(** [fmt.Print] on the terminal. *)
Definition Print (s : string) : M unit :=
  fun e => Ret tt (set_tty {| stdin := stdin (tty e);
                              stdout := stdout (tty e) ++ [s] |} e).

(** [terminal.ReadPassword(int(syscall.Stdin))]: the next line typed, or
    an error once the input is exhausted. *)
Definition ReadPassword : M (bytes * option error) :=
  fun e => match stdin (tty e) with
           | [] => Ret ([], Some "EOF") e
           | r :: rest =>
               Ret r (set_tty {| stdin := rest; stdout := stdout (tty e) |} e)
           end.

(** [shellPrompt] (encrypt.go:43). *)
Definition shellPrompt : M bytes :=
  Print "Enter passphrase: " ;;;
  r <- ReadPassword ;;
  let '(passphraseByte, err) := r in
  (if err is None then Print (String "010"%char "") else ret tt) ;;;
  ret passphraseByte.

(** [openpgp.Key] as handed to a prompt function: its [PrivateKey] points
    into the session keyring, at the primary key of entity [key_entity]
    or at one of its subkeys. *)
Record Key := {
  key_entity : nat;
  key_subkey : option nat;
}.

(** [openpgp.PromptFunction]. *)
Definition PromptFunction : Type := list Key -> bool -> M (bytes * option error).

(** [PGP] (encrypt.go:18). *)
Record PGP := {
  PrivateKey : bytes;
  Passphrase : PromptFunction;
  Message : bytes;
  Encrypted : bool;
}.

(** The library calls the package makes.  [armor_Encode] is the armoring
    of a whole body into a [bytes.Buffer], which cannot fail;
    [openpgp_Encrypt] hands back a plaintext writer, [wr_Write] reports
    the byte count with its error, and [wr_Close] yields the packets that
    reached the armor writer.  [md_ReadAll] is [ioutil.ReadAll] on
    [md.UnverifiedBody]. *)
Class OpenPGP := {
  armor_Decode : bytes -> result Block;
  armor_Encode : string -> bytes -> bytes;
  openpgp_ReadEntity : bytes -> result Entity;
  Writer : Type;
  openpgp_Encrypt : list Entity -> result Writer;
  wr_Write : Writer -> bytes -> Z * result Writer;
  wr_Close : Writer -> result bytes;
  MessageDetails : Type;
  openpgp_ReadMessage : bytes -> list Entity -> PromptFunction -> M (result MessageDetails);
  md_ReadAll : MessageDetails -> result bytes;
}.

(** [path.Join] of the standard library. *)
Class PathLib := {
  path_Join : string -> string -> string;
}.

(** *** The [os] calls of [WriteFile] *)

Definition set_files (m : gmap string File) (d : FS) : FS :=
  {| files := m; umask := umask d; nocreate := nocreate d;
     nochmod := nochmod d; nospace := nospace d |}.

(** Permission bits: 0400 is bit 8 (owner may read), 0200 bit 7 (owner
    may write). *)
Definition mode_0600 : N := 6 * 64.
Definition mode_0666 : N := 6 * 64 + 6 * 8 + 6.
Definition owner_r (f : File) : bool := N.testbit (perm f) 8.
Definition owner_w (f : File) : bool := N.testbit (perm f) 7.

(** [os.Open(p)], kept to its error: opening for reading succeeds on a
    file that exists and that its owner may read. *)
Definition os_Open (p : string) : M (option error) :=
  fun e => match files (disk e) !! p with
           | Some f =>
               if owner_r f then Ret None e
               else Ret (Some ("open " +:+ p +:+ ": permission denied")) e
           | None =>
               Ret (Some ("open " +:+ p +:+ ": no such file or directory")) e
           end.

(** [os.Create(p)]: open read-write, create with mode 0666 less the umask,
    truncate.  The descriptor is the path. *)
Definition os_Create (p : string) : M (result string) :=
  fun e =>
    let d := disk e in
    match files d !! p with
    | Some f =>
        if owner_r f && owner_w f
        then Ret (Ok p)
               (set_disk (set_files (<[p := {| perm := perm f; content := [] |}]> (files d)) d) e)
        else Ret (Fail ("open " +:+ p +:+ ": permission denied")) e
    | None =>
        if decide (p ∈ nocreate d)
        then Ret (Fail ("open " +:+ p +:+ ": no such file or directory")) e
        else Ret (Ok p)
               (set_disk (set_files (<[p := {| perm := N.ldiff mode_0666 (umask d);
                                               content := [] |}]> (files d)) d) e)
    end.

(** [Chmod] on an open file. *)
Definition File_Chmod (fd : string) (mode : N) : M (option error) :=
  fun e =>
    let d := disk e in
    if nochmod d then Ret (Some ("chmod " +:+ fd +:+ ": operation not permitted")) e
    else Ret None
           (set_disk (set_files
              (alter (fun f => {| perm := mode; content := content f |}) fd (files d)) d) e).

(** [Write] on an open file. *)
Definition File_Write (fd : string) (b : bytes) : M (option error) :=
  fun e =>
    let d := disk e in
    if nospace d then Ret (Some ("write " +:+ fd +:+ ": no space left on device")) e
    else Ret None
           (set_disk (set_files
              (alter (fun f => {| perm := perm f; content := content f ++ b |}) fd (files d)) d) e).

(** *** Keys reached through a prompt *)

Definition Key_PrivateKey (k : Key) (l : list Entity) : option packet_PrivateKey :=
  match l !! key_entity k with
  | None => None
  | Some ent =>
      match key_subkey k with
      | None => ent_PrivateKey ent
      | Some i =>
          match ent_Subkeys ent !! i with
          | None => None
          | Some s => sub_PrivateKey s
          end
      end
  end.

Definition Key_store (k : Key) (pk : packet_PrivateKey) (l : list Entity) : list Entity :=
  alter (fun ent =>
           match key_subkey k with
           | None => {| ent_PrivateKey := Some pk; ent_Subkeys := ent_Subkeys ent |}
           | Some i =>
               {| ent_PrivateKey := ent_PrivateKey ent;
                  ent_Subkeys := <[i := {| sub_PrivateKey := Some pk |}]> (ent_Subkeys ent) |}
           end) (key_entity k) l.

(** [k.PrivateKey.Decrypt(passphrase)] through the pointer held by [k]:
    the key in the keyring is the one that changes. *)
Definition Key_Decrypt (k : Key) (passphrase : bytes) : M (option error) :=
  fun e => match Key_PrivateKey k (entityList e) with
           | None => Crash e
           | Some pk =>
               let '(pk', err) := PrivateKey_Decrypt pk passphrase in
               Ret err (set_entityList (Key_store k pk' (entityList e)) e)
           end.

(** The closure built by [passPrompt] (encrypt.go:53).  The [err] it
    returns after the loop is its named result, which nothing assigns. *)
Fixpoint passPrompt_f (keys : list Key) (symmetric : bool) : M (bytes * option error) :=
  match keys with
  | [] => ret ([], None)
  | k :: keys' =>
      passphrase <- shellPrompt ;;
      err <- Key_Decrypt k passphrase ;;
      if err is Some _ then passPrompt_f keys' symmetric
      else ret (passphrase, None)
  end.

Definition passPrompt : PromptFunction := passPrompt_f.

(** [NewPGP] (encrypt.go:27). *)
Definition NewPGP (k : bytes) (p : option PromptFunction) (m : bytes) (e : bool) : PGP :=
  {| PrivateKey := k;
     Passphrase := match p with Some p' => p' | None => passPrompt end;
     Message := m;
     Encrypted := e |}.

Definition set_Message (m : bytes) (e : bool) (f : PGP) : PGP :=
  {| PrivateKey := PrivateKey f; Passphrase := Passphrase f;
     Message := m; Encrypted := e |}.

Section Engine.
Context {pgp : OpenPGP} {pathlib : PathLib}.

(** [WriteFile] (encrypt.go:73). *)
Definition WriteFile (f : PGP) (repoPath filename : string) : M (option error) :=
  if decide (length (Message f) = 0)
  then ret (Some "The message content has not been loaded")
  else if negb (Encrypted f)
  then ret (Some "Not allowed to write unencrypted content to a file")
  else
    let p := path_Join repoPath filename in
    err <- os_Open p ;;
    if err is None then ret (Some "File already exists")
    else
      r <- os_Create p ;;
      match r with
      | Fail err => ret (Some (Errorf "Unable to create the file: " err))
      | Ok d =>
          err <- File_Chmod d mode_0600 ;;
          if err is Some err
          then ret (Some (Errorf "Unable to change permissions on file to 0600: " err))
          else
            err <- File_Write d (Message f) ;;
            if err is Some err
            then ret (Some (Errorf "Unable to write to file: " err))
            else ret None
      end.

(** The loop over [entity.Subkeys] in [Keyring]: every subkey's private
    key is offered the passphrase and the error is dropped; a subkey
    without a private key is a nil dereference ([None]). *)
Fixpoint decryptSubkeys (subkeys : list Subkey) (passphraseByte : bytes)
  : option (list Subkey) :=
  match subkeys with
  | [] => Some []
  | subkey :: rest =>
      match sub_PrivateKey subkey with
      | None => None
      | Some pk =>
          match decryptSubkeys rest passphraseByte with
          | None => None
          | Some rest' =>
              Some ({| sub_PrivateKey := Some (fst (PrivateKey_Decrypt pk passphraseByte)) |}
                      :: rest')
          end
      end
  end.

(** The guarded decryption of the primary key in [Keyring]. *)
Definition decryptMain (entity : Entity) (passphraseByte : bytes)
  : result (option packet_PrivateKey) :=
  match ent_PrivateKey entity with
  | Some pk =>
      if pk_Encrypted pk then
        match PrivateKey_Decrypt pk passphraseByte with
        | (_, Some err) => Fail (Errorf "Failed to decrypt main private key: " err)
        | (pk', None) => Ok (Some pk')
        end
      else Ok (Some pk)
  | None => Ok None
  end.

(** [Keyring] (encrypt.go:108). *)
Definition Keyring (f : PGP) : M (option error) :=
  passphraseByte <- shellPrompt ;;
  match armor_Decode (PrivateKey f) with
  | Fail err => ret (Some (Errorf "Not an armor encoded PGP private key: " err))
  | Ok block =>
      if negb (String.eqb (Type_ block) PrivateKeyType)
      then ret (Some (Errorf "Not a OpenPGP private key: " nil_verb_s))
      else
        match openpgp_ReadEntity (Body block) with
        | Fail err => ret (Some (Errorf "Unable to read armor decoded key: " err))
        | Ok entity =>
            match decryptMain entity passphraseByte with
            | Fail err => ret (Some err)
            | Ok main =>
                match decryptSubkeys (ent_Subkeys entity) passphraseByte with
                | None => panic
                | Some subkeys =>
                    e <- get ;;
                    put (set_entityList
                           (entityList e ++ [ {| ent_PrivateKey := main;
                                                 ent_Subkeys := subkeys |} ]) e) ;;;
                    ret None
                end
            end
        end
  end.

(** [Decrypt] (encrypt.go:141); the receiver is returned with the error. *)
Definition Decrypt (f : PGP) : M (PGP * option error) :=
  if negb (Encrypted f) then ret (f, Some "The message is not encrypted")
  else
    match armor_Decode (Message f) with
    | Fail err => ret (f, Some (Errorf "Invalid PGP message or not armor encoded: " err))
    | Ok block =>
        if negb (String.eqb (Type_ block) "PGP MESSAGE")
        then ret (f, Some (Errorf "This file is not a PGP message: " nil_verb_s))
        else
          e <- get ;;
          md <- openpgp_ReadMessage (Body block) (entityList e) (Passphrase f) ;;
          match md with
          | Fail err => ret (f, Some (Errorf "Unable to decrypt the message: " err))
          | Ok md =>
              match md_ReadAll md with
              | Fail err =>
                  ret (f, Some (Errorf
                         "Unable to convert the decrypted message to a string: " err))
              | Ok message => ret (set_Message message false f, None)
              end
          end
    end.

(** [Encrypt] (encrypt.go:171).  The armor writer sits on a
    [bytes.Buffer], so opening it, closing it and reading the buffer back
    do not fail. *)
Definition Encrypt (f : PGP) : M (PGP * option error) :=
  if Encrypted f then ret (f, Some "The message is encrypted already")
  else
    env <- get ;;
    match openpgp_Encrypt (entityList env) with
    | Fail err => ret (f, Some (Errorf "Unable to load keyring for encryption: " err))
    | Ok e =>
        match wr_Write e (Message f) with
        | (v, Fail err) => ret (f, Some (err +:+ ", ints buffered: " +:+ pretty v))
        | (_, Ok e') =>
            match wr_Close e' with
            | Fail err => ret (f, Some err)
            | Ok packets =>
                ret (set_Message (armor_Encode "PGP MESSAGE" packets) true f, None)
            end
        end
    end.

End Engine.

End Encrypt.

Module Git.

(** *** go-git data (gopkg.in/src-d/go-git.v4), as far as the code uses it *)

(** [plumbing.Hash], twenty bytes read as a number; [ZeroHash] is all
    zeroes. *)
Definition Hash := N.
Definition ZeroHash : Hash := 0%N.
Definition IsZero (h : Hash) : bool := N.eqb h ZeroHash.

Inductive ReferenceType := InvalidReference | HashReference | SymbolicReference.

#[global] Instance ReferenceType_eq_dec : EqDecision ReferenceType.
Proof. solve_decision. Defined.

(** [plumbing.Reference]. *)
Record Reference := {
  ref_Type : ReferenceType;
  ref_Name : string;
  ref_Hash : Hash;
  ref_Target : string;
}.

Definition NewHashReference (n : string) (h : Hash) : Reference :=
  {| ref_Type := HashReference; ref_Name := n; ref_Hash := h; ref_Target := "" |}.
Definition NewSymbolicReference (n target : string) : Reference :=
  {| ref_Type := SymbolicReference; ref_Name := n; ref_Hash := ZeroHash;
     ref_Target := target |}.

(** [ReferenceName.IsBranch] and [IsTag]. *)
Definition IsBranch (n : string) : bool := String.prefix "refs/heads/" n.
Definition IsTag (n : string) : bool := String.prefix "refs/tags/" n.

(** [plumbing.RefRevParseRules], each format split at its [%s]. *)
Definition RefRevParseRules : list (string * string) :=
  [ ("refs/", ""); ("refs/tags/", ""); ("refs/heads/", "");
    ("refs/remotes/", ""); ("refs/remotes/", "/HEAD") ].

(** What [fmt.Sscanf(s, format, &res)] leaves in [res] for a format
    [before%safter]: the text before the verb has to match the input;
    then white space is skipped and the run of characters up to the next
    white space, which must not be empty, is stored.  A mismatch, also one
    after the verb, is an error, which [Short] ignores: [res] keeps what
    it holds by then. *)
Definition is_space (c : ascii) : bool :=
  let n := Ascii.nat_of_ascii c in
  (Nat.leb 9 n && Nat.leb n 13) || Nat.eqb n 32.

Fixpoint strip_prefix (p s : string) : option string :=
  match p with
  | EmptyString => Some s
  | String a p' =>
      match s with
      | EmptyString => None
      | String b s' => if Ascii.eqb a b then strip_prefix p' s' else None
      end
  end.

Fixpoint skip_space (s : string) : string :=
  match s with
  | EmptyString => EmptyString
  | String c s' => if is_space c then skip_space s' else s
  end.

Fixpoint token (s : string) : string :=
  match s with
  | EmptyString => EmptyString
  | String c s' => if is_space c then EmptyString else String c (token s')
  end.

Definition Sscanf_s (s : string) (format : string * string) (res : string) : string :=
  match strip_prefix (fst format) s with
  | None => res
  | Some rest =>
      match token (skip_space rest) with
      | EmptyString => res
      | tok => tok
      end
  end.

(** [ReferenceName.Short]: the name run through every rule in turn, the
    last rule that scans something deciding. *)
Definition Short (n : string) : string :=
  foldl (fun res format => Sscanf_s n format res) n RefRevParseRules.
Arguments Short : simpl never.

(** [object.Signature], [object.Commit]; the tree is kept as the paths
    and contents it records. *)
Record Signature := {
  sig_Name : string;
  sig_Email : string;
  sig_When : N;
}.

Record object_Commit := {
  Author : Signature;
  Committer : Signature;
  Message : string;
  Tree : gmap string bytes;
  ParentHashes : list Hash;
}.

(** The state behind a [*git.Repository]: reference and object storage,
    index and worktree files.  [bare] repositories have no worktree,
    [readonly] storage rejects writes, [refs_unreadable] makes listing the
    references fail. *)
Record git_Repository := {
  refs : gmap string Reference;
  objects : gmap Hash object_Commit;
  index : gmap string bytes;
  files : gmap string bytes;
  bare : bool;
  readonly : bool;
  refs_unreadable : bool;
}.

Definition set_refs (m : gmap string Reference) (g : git_Repository) : git_Repository :=
  {| refs := m; objects := objects g; index := index g; files := files g;
     bare := bare g; readonly := readonly g; refs_unreadable := refs_unreadable g |}.
Definition set_objects (m : gmap Hash object_Commit) (g : git_Repository) : git_Repository :=
  {| refs := refs g; objects := m; index := index g; files := files g;
     bare := bare g; readonly := readonly g; refs_unreadable := refs_unreadable g |}.
Definition set_index (m : gmap string bytes) (g : git_Repository) : git_Repository :=
  {| refs := refs g; objects := objects g; index := m; files := files g;
     bare := bare g; readonly := readonly g; refs_unreadable := refs_unreadable g |}.
Definition set_worktree (m : gmap string bytes) (g : git_Repository) : git_Repository :=
  {| refs := refs g; objects := objects g; index := index g; files := m;
     bare := bare g; readonly := readonly g; refs_unreadable := refs_unreadable g |}.

Definition ErrReferenceNotFound : error := "reference not found".
Definition ErrObjectNotFound : error := "object not found".
Definition ErrMaxResolveRecursion : error := "max. recursion level reached".
Definition ErrIsBareRepository : error := "worktree not available in a bare repository".
Definition ErrBranchHashExclusive : error := "Branch and Hash are mutually exclusive".
Definition ErrUnstagedChanges : error := "worktree contains unstaged changes".
Definition ErrMissingAuthor : error := "author field is required".
Definition ErrReadOnly : error := "read-only file system".
Definition HEAD : string := "HEAD".
Definition Master : string := "refs/heads/master".
Definition MaxResolveRecursion : nat := 1024.

(** [Storer.Reference]. *)
Definition Storer_Reference (g : git_Repository) (n : string) : result Reference :=
  match refs g !! n with
  | Some r => Ok r
  | None => Fail ErrReferenceNotFound
  end.

(** [storer.ResolveReference]: follow symbolic references. *)
Fixpoint resolveReference (fuel : nat) (g : git_Repository) (r : Reference)
  : result Reference :=
  if decide (ref_Type r = SymbolicReference) then
    match fuel with
    | O => Fail ErrMaxResolveRecursion
    | S fuel' =>
        match Storer_Reference g (ref_Target r) with
        | Fail err => Fail err
        | Ok t => resolveReference fuel' g t
        end
    end
  else Ok r.

(** [Repository.Reference(name, resolved)]. *)
Definition Repository_Reference (g : git_Repository) (n : string) (resolved : bool)
  : result Reference :=
  match Storer_Reference g n with
  | Fail err => Fail err
  | Ok r => if resolved then resolveReference (S MaxResolveRecursion) g r else Ok r
  end.

(** [Repository.Head]. *)
Definition Repository_Head (g : git_Repository) : result Reference :=
  Repository_Reference g HEAD true.

(** [Repository.CommitObject(h)]: the commit, whose [Hash] field is [h]. *)
Definition Repository_CommitObject (g : git_Repository) (h : Hash)
  : result (Hash * object_Commit) :=
  match objects g !! h with
  | Some c => Ok (h, c)
  | None => Fail ErrObjectNotFound
  end.

(** [Storer.SetReference], [Storer.RemoveReference]. *)
Definition Storer_SetReference (r : Reference) (g : git_Repository)
  : option error * git_Repository :=
  if readonly g then (Some ErrReadOnly, g)
  else (None, set_refs (<[ref_Name r := r]> (refs g)) g).

Definition Storer_RemoveReference (n : string) (g : git_Repository)
  : option error * git_Repository :=
  if readonly g then (Some ErrReadOnly, g)
  else (None, set_refs (delete n (refs g)) g).

(** [Repository.Worktree]. *)
Definition Repository_Worktree (g : git_Repository) : result unit :=
  if bare g then Fail ErrIsBareRepository else Ok tt.

(** [Repository.References]: the iterator over all references, in no
    particular order, or [(nil, err)] when the storage cannot list
    them. *)
Definition Repository_References (g : git_Repository)
  : option (list Reference) * option error :=
  if refs_unreadable g then (None, Some "open refs: input/output error")
  else (Some (snd <$> map_to_list (refs g)), None).

(** [CheckoutOptions] and its [Validate]. *)
Record CheckoutOptions := {
  co_Hash : Hash;
  co_Branch : string;
  co_Create : bool;
  co_Force : bool;
}.

Definition CheckoutOptions_Validate (o : CheckoutOptions) : result CheckoutOptions :=
  if negb (co_Create o) && negb (IsZero (co_Hash o)) && negb (String.eqb (co_Branch o) "")
  then Fail ErrBranchHashExclusive
  else Ok {| co_Hash := co_Hash o;
             co_Branch := if String.eqb (co_Branch o) "" then Master else co_Branch o;
             co_Create := co_Create o; co_Force := co_Force o |}.

Definition quote : string := String (Ascii.ascii_of_nat 34) "".

(** [Worktree.createBranch]: the branch must be new; it starts at
    [opts.Hash], which defaults to the hash of HEAD. *)
Definition createBranch (o : CheckoutOptions) (g : git_Repository)
  : result CheckoutOptions * git_Repository :=
  match Storer_Reference g (co_Branch o) with
  | Ok _ =>
      (Fail ("a branch named " +:+ quote +:+ co_Branch o +:+ quote +:+ " already exists"), g)
  | Fail _ =>
      let start :=
        if IsZero (co_Hash o) then
          match Repository_Head g with
          | Fail err => Fail err
          | Ok ref => Ok (ref_Hash ref)
          end
        else Ok (co_Hash o) in
      match start with
      | Fail err => (Fail err, g)
      | Ok h =>
          match Storer_SetReference (NewHashReference (co_Branch o) h) g with
          | (Some err, g') => (Fail err, g')
          | (None, g') =>
              (Ok {| co_Hash := h; co_Branch := co_Branch o;
                     co_Create := co_Create o; co_Force := co_Force o |}, g')
          end
      end
  end.

(** [Worktree.getCommitFromCheckoutOptions]; a tag reference is peeled
    through the object store. *)
Definition getCommitFromCheckoutOptions (o : CheckoutOptions) (g : git_Repository)
  : result Hash :=
  if negb (IsZero (co_Hash o)) then Ok (co_Hash o)
  else
    match Repository_Reference g (co_Branch o) true with
    | Fail err => Fail err
    | Ok b =>
        if negb (IsTag (ref_Name b)) then Ok (ref_Hash b)
        else match Repository_CommitObject g (ref_Hash b) with
             | Fail err => Fail err
             | Ok (h, _) => Ok h
             end
    end.

Definition setHEADToCommit (commit : Hash) (g : git_Repository)
  : option error * git_Repository :=
  Storer_SetReference (NewHashReference HEAD commit) g.

Definition setHEADToBranch (branch : string) (commit : Hash) (g : git_Repository)
  : option error * git_Repository :=
  match Storer_Reference g branch with
  | Fail err => (Some err, g)
  | Ok target =>
      if IsBranch (ref_Name target)
      then Storer_SetReference (NewSymbolicReference HEAD (ref_Name target)) g
      else Storer_SetReference (NewHashReference HEAD commit) g
  end.

(** A tracked path whose file differs from the index or is gone;
    untracked files do not count. *)
Definition containsUnstagedChanges (g : git_Repository) : bool :=
  negb (bool_decide (map_Forall (fun p b => files g !! p = Some b) (index g))).

Definition setHEADCommit (commit : Hash) (g : git_Repository)
  : option error * git_Repository :=
  match Repository_Reference g HEAD false with
  | Fail err => (Some err, g)
  | Ok head =>
      if decide (ref_Type head = HashReference)
      then Storer_SetReference (NewHashReference HEAD commit) g
      else
        match Repository_Reference g (ref_Target head) false with
        | Fail err => (Some err, g)
        | Ok branch =>
            if negb (IsBranch (ref_Name branch))
            then (Some "invalid HEAD target should be a branch", g)
            else Storer_SetReference (NewHashReference (ref_Name branch) commit) g
        end
  end.

(** [Worktree.Reset] in merge mode: refuse unstaged changes, move HEAD's
    commit, then load the commit's tree into the index and the worktree
    (untracked files stay). *)
Definition Worktree_Reset (commit : Hash) (g : git_Repository)
  : option error * git_Repository :=
  if containsUnstagedChanges g then (Some ErrUnstagedChanges, g)
  else
    match setHEADCommit commit g with
    | (Some err, g') => (Some err, g')
    | (None, g') =>
        match Repository_CommitObject g' commit with
        | Fail err => (Some err, g')
        | Ok (_, c) =>
            (None,
             set_worktree
               (Tree c ∪ filter (fun kv => index g' !! kv.1 = None) (files g'))
               (set_index (Tree c) g'))
        end
    end.

(** [Worktree.Checkout]. *)
Definition Worktree_Checkout (opts : CheckoutOptions) (g : git_Repository)
  : option error * git_Repository :=
  match CheckoutOptions_Validate opts with
  | Fail err => (Some err, g)
  | Ok o =>
      match (if co_Create o then createBranch o g else (Ok o, g)) with
      | (Fail err, g1) => (Some err, g1)
      | (Ok o, g1) =>
          match getCommitFromCheckoutOptions o g1 with
          | Fail err => (Some err, g1)
          | Ok c =>
              match (if negb (IsZero (co_Hash o)) && negb (co_Create o)
                     then setHEADToCommit (co_Hash o) g1
                     else setHEADToBranch (co_Branch o) c g1) with
              | (Some err, g2) => (Some err, g2)
              | (None, g2) => Worktree_Reset c g2
              end
          end
      end
  end.

(** [CommitOptions]. *)
Record CommitOptions := {
  cm_All : bool;
  cm_Author : option Signature;
  cm_Committer : option Signature;
  cm_Parents : list Hash;
}.

(** The hash go-git gives a commit object. *)
Class ObjectHasher := {
  hashCommit : object_Commit -> Hash;
}.

(** [CommitOptions.Validate]: an author is required, the committer
    defaults to the author, and when [len(Parents)] is zero the hash of
    HEAD, if HEAD resolves, becomes the only parent. *)
Definition CommitOptions_Validate (o : CommitOptions) (g : git_Repository)
  : result (Signature * Signature * list Hash) :=
  match cm_Author o with
  | None => Fail ErrMissingAuthor
  | Some author =>
      let committer := match cm_Committer o with Some c => c | None => author end in
      if decide (length (cm_Parents o) = 0) then
        match Repository_Head g with
        | Ok head => Ok (author, committer, [ref_Hash head])
        | Fail err =>
            if String.eqb err ErrReferenceNotFound
            then Ok (author, committer, cm_Parents o)
            else Fail err
        end
      else Ok (author, committer, cm_Parents o)
  end.

(** [Worktree.autoAddModifiedAndDeleted]: every tracked path takes the
    content of its file, or leaves the index when the file is gone. *)
Definition autoAddModifiedAndDeleted (g : git_Repository) : git_Repository :=
  set_index (map_imap (fun p _ => files g !! p) (index g)) g.

(** [Worktree.updateHEAD]: the branch HEAD points at (or HEAD itself when
    detached) moves to the new commit. *)
Definition updateHEAD (commit : Hash) (g : git_Repository)
  : option error * git_Repository :=
  match Storer_Reference g HEAD with
  | Fail err => (Some err, g)
  | Ok head =>
      let name := if decide (ref_Type head = HashReference) then HEAD
                  else ref_Target head in
      Storer_SetReference (NewHashReference name commit) g
  end.

Section Commits.
Context {hasher : ObjectHasher}.

(** [Worktree.Commit]. *)
Definition Worktree_Commit (msg : string) (opts : CommitOptions) (g : git_Repository)
  : result Hash * git_Repository :=
  match CommitOptions_Validate opts g with
  | Fail err => (Fail err, g)
  | Ok (author, committer, parents) =>
      let g1 := if cm_All opts then autoAddModifiedAndDeleted g else g in
      let c := {| Author := author; Committer := committer; Message := msg;
                  Tree := index g1; ParentHashes := parents |} in
      if readonly g1 then (Fail ErrReadOnly, g1)
      else
        let commit := hashCommit c in
        let g2 := set_objects (<[commit := c]> (objects g1)) g1 in
        match updateHEAD commit g2 with
        | (Some err, g3) => (Fail err, g3)
        | (None, g3) => (Ok commit, g3)
        end
  end.

End Commits.

(** *** Package git of gpass *)

(** [Repository] (encrypt.go:228); [root] is nil until [Load]. *)
Record Repository := {
  Path : string;
  root : option git_Repository;
}.

(** [User] (encrypt.go:235). *)
Record User := {
  Name : string;
  Email : string;
  HomeFolder : string;
}.

(** What a method of [*Repository] runs in: the receiver and the clock
    [time.Now] reads. *)
Record World := {
  this : Repository;
  clock : N;
}.

Definition G (A : Type) : Type := GoM World A.

(** Dereferencing [r.root] for a method call: a nil [root] panics. *)
Definition root_ : G git_Repository :=
  fun w => match root (this w) with
           | None => Crash w
           | Some g => Ret g w
           end.

(** A go-git call that changes the repository behind [r.root]. *)
Definition on_root {A} (f : git_Repository -> A * git_Repository) : G A :=
  fun w => match root (this w) with
           | None => Crash w
           | Some g =>
               let '(a, g') := f g in
               Ret a {| this := {| Path := Path (this w); root := Some g' |};
                        clock := clock w |}
           end.

Definition time_Now : G N := fun w => Ret (clock w) w.

Section Operations.
Context {hasher : ObjectHasher}.

(** [CreateBranch] (encrypt.go:314). *)
Definition CreateBranch (origin new : string) : G (option error) :=
  let origin := "refs/heads/" +:+ origin in
  let new := "refs/heads/" +:+ new in
  g <- root_ ;;
  match Repository_Worktree g with
  | Fail err => ret (Some (Errorf "Unable to load the work tree: " err))
  | Ok _ =>
      match Repository_Reference g origin false with
      | Fail err => ret (Some err)
      | Ok ref =>
          let o := {| co_Hash := ref_Hash ref; co_Branch := new;
                      co_Create := true; co_Force := false |} in
          err <- on_root (Worktree_Checkout o) ;;
          if err is Some err
          then ret (Some (Errorf "Unable to create a new branch: " err))
          else ret None
      end
  end.

(** [CreateOrphanBranch] (encrypt.go:341). *)
Definition CreateOrphanBranch (u : User) (s : string) : G (option error) :=
  let name := "refs/heads/" +:+ s in
  g <- root_ ;;
  match Repository_Worktree g with
  | Fail err => ret (Some (Errorf "Unable to load the work tree: " err))
  | Ok _ =>
      let o := {| co_Hash := ZeroHash; co_Branch := name;
                  co_Create := true; co_Force := false |} in
      err <- on_root (Worktree_Checkout o) ;;
      if err is Some err
      then ret (Some (Errorf "Unable to create a new branch: " err))
      else
        let h : list Hash := [] in
        let msg := "creating branch for: " +:+ s in
        now <- time_Now ;;
        r <- on_root (Worktree_Commit msg
                        {| cm_All := false;
                           cm_Author := Some {| sig_Name := Name u; sig_Email := Email u;
                                                sig_When := now |};
                           cm_Committer := None;
                           cm_Parents := h |}) ;;
        match r with
        | Fail err => ret (Some (Errorf "Unable to make the initial commit: " err))
        | Ok _ => ret None
        end
  end.

(** [CheckoutBranch] (encrypt.go:376). *)
Definition CheckoutBranch (s : string) : G (option error) :=
  let name := "refs/heads/" +:+ s in
  g <- root_ ;;
  match Repository_Worktree g with
  | Fail err => ret (Some (Errorf "Unable to load the work tree: " err))
  | Ok _ =>
      let o := {| co_Hash := ZeroHash; co_Branch := name;
                  co_Create := false; co_Force := false |} in
      err <- on_root (Worktree_Checkout o) ;;
      if err is Some err
      then ret (Some (Errorf "Unable to checkout branch: " err))
      else ret None
  end.

(** [AddTagBranch] (encrypt.go:396). *)
Definition AddTagBranch (tag s : string) : G (option error) :=
  let name := "refs/heads/" +:+ s in
  g <- root_ ;;
  match Repository_Reference g name false with
  | Fail err => ret (Some err)
  | Ok ref =>
      match Repository_CommitObject g (ref_Hash ref) with
      | Fail err => ret (Some err)
      | Ok (commit_Hash, _) =>
          let tr := NewHashReference tag commit_Hash in
          err <- on_root (Storer_SetReference tr) ;;
          if err is Some err then ret (Some err) else ret None
      end
  end.

(** [TagBranch] (encrypt.go:419). *)
Definition TagBranch (s : string) (create : bool) : G (option error) :=
  let tag := "refs/tags/" +:+ s in
  let name := "refs/heads/" +:+ s in
  g <- root_ ;;
  match Repository_Reference g tag false with
  | Fail err => ret (Some err)
  | Ok ref =>
      match Repository_Worktree g with
      | Fail err => ret (Some (Errorf "Unable to load the work tree: " err))
      | Ok _ =>
          let o := {| co_Hash := ref_Hash ref; co_Branch := name;
                      co_Create := create; co_Force := false |} in
          err <- on_root (Worktree_Checkout o) ;;
          if err is Some err
          then ret (Some (Errorf "Unable to create a new branch: " err))
          else ret None
      end
  end.

(** [Commit] (encrypt.go:476). *)
Definition Commit (u : User) (filename : string) (msg : string) : G (option error) :=
  g <- root_ ;;
  match Repository_Worktree g with
  | Fail err => ret (Some (Errorf "Unable to load the work tree: " err))
  | Ok _ =>
      now <- time_Now ;;
      r <- on_root (Worktree_Commit msg
                      {| cm_All := true;
                         cm_Author := Some {| sig_Name := Name u; sig_Email := Email u;
                                              sig_When := now |};
                         cm_Committer := None;
                         cm_Parents := [] |}) ;;
      match r with
      | Fail err => ret (Some (Errorf "Unable to commit: " err))
      | Ok _ => ret None
      end
  end.

(** The iterator [refs] returned by [r.root.References()] with its error
    dropped, then [refs.ForEach(cb)]: a nil iterator panics. *)
Definition References_ForEach {A} (cb : A -> Reference -> A) (init : A) : G A :=
  g <- root_ ;;
  let '(refs, _) := Repository_References g in
  match refs with
  | None => panic
  | Some it => ret (foldl cb init it)
  end.

(** [ListBranches] (encrypt.go:500). *)
Definition ListBranches : G (list string) :=
  References_ForEach
    (fun b ref =>
       if decide (ref_Type ref = HashReference) then
         if IsBranch (ref_Name ref) then b ++ [Short (ref_Name ref)] else b
       else b) [].

(** [BranchExists] (encrypt.go:518). *)
Definition BranchExists (n : string) : G bool :=
  References_ForEach
    (fun b ref =>
       if decide (ref_Type ref = HashReference) then
         if IsBranch (ref_Name ref) && String.eqb (Short (ref_Name ref)) n then true else b
       else b) false.

(** [RemoveBranch] (encrypt.go:534). *)
Definition RemoveBranch (n : string) : G (option error) :=
  err <- on_root (Storer_RemoveReference ("refs/heads/" +:+ n)) ;;
  if err is Some err then ret (Some err) else ret None.

(** [TagExists] (encrypt.go:544). *)
Definition TagExists (n : string) : G bool :=
  References_ForEach
    (fun b ref =>
       if decide (ref_Type ref = HashReference) then
         if IsTag (ref_Name ref) && String.eqb (Short (ref_Name ref)) n then true else b
       else b) false.

End Operations.

End Git.

(** ** Reference instances and sample states

    A small in-memory OpenPGP, a path joiner and an object hasher, used to
    run the embedding on concrete inputs. *)

Module Sample.
Import Encrypt.

Definition header (t : string) : bytes := String.list_byte_of_string t ++ [x0a].

(** Armor: the type, a newline, then the body. *)
Fixpoint split_line (acc : bytes) (b : bytes) : option (bytes * bytes) :=
  match b with
  | [] => None
  | c :: rest =>
      if decide (c = x0a) then Some (acc, rest) else split_line (acc ++ [c]) rest
  end.

Definition sample_Decode (b : bytes) : result Block :=
  match split_line [] b with
  | None => Fail "EOF"
  | Some (t, body) => Ok {| Type_ := String.string_of_list_byte t; Body := body |}
  end.

(** A key file body is the passphrase that locks its primary key and its
    one subkey. *)
Definition sample_ReadEntity (body : bytes) : result Entity :=
  match body with
  | [] => Fail "openpgp: invalid data: no packets"
  | _ =>
      Ok {| ent_PrivateKey :=
              Some {| pk_KeyId := 1; pk_Encrypted := true; pk_lock := body |};
            ent_Subkeys :=
              [ {| sub_PrivateKey :=
                     Some {| pk_KeyId := 2; pk_Encrypted := true; pk_lock := body |} |} ] |}
  end.

Definition key_open (pk : option packet_PrivateKey) : bool :=
  match pk with
  | Some k => negb (pk_Encrypted k)
  | None => false
  end.

Definition usable (ent : Entity) : bool :=
  key_open (ent_PrivateKey ent)
  && forallb (fun s => key_open (sub_PrivateKey s)) (ent_Subkeys ent).

(** The cipher reverses the plaintext; any usable key of the keyring
    reads it back. *)
#[global] Instance sample_pgp : OpenPGP := {|
  armor_Decode := sample_Decode;
  armor_Encode := fun t body => header t ++ body;
  openpgp_ReadEntity := sample_ReadEntity;
  Writer := bytes;
  openpgp_Encrypt := fun to =>
    match to with
    | [] => Fail "openpgp: invalid argument: no recipients"
    | _ => if forallb usable to then Ok []
           else Fail "openpgp: invalid argument: cannot encrypt to a locked key"
    end;
  wr_Write := fun w b => (Z.of_nat (length b), Ok (w ++ b));
  wr_Close := fun w => Ok (rev w);
  MessageDetails := bytes;
  openpgp_ReadMessage := fun packets keyring prompt =>
    if existsb usable keyring then ret (Ok (rev packets))
    else ret (Fail "openpgp: incorrect key");
  md_ReadAll := fun md => Ok md;
|}.

#[global] Instance sample_path : PathLib := {|
  path_Join := fun a b => a +:+ "/" +:+ b;
|}.

Definition quiet_tty : Terminal := {| stdin := []; stdout := [] |}.

Definition empty_disk : FS :=
  {| files := ∅; umask := 2 * 8 + 2; nocreate := ∅; nochmod := false; nospace := false |}.

Definition no_prompt : PromptFunction := fun _ _ => ret ([], None).

Definition good : bytes := String.list_byte_of_string "right".
Definition bad : bytes := String.list_byte_of_string "wrong".

(** A private key file locked with [good]. *)
Definition key_file : PGP :=
  NewPGP (header PrivateKeyType ++ good) None [] true.

(** A terminal on which a wrong passphrase is typed before the right
    one. *)
Definition two_tries : Env :=
  {| entityList := [];
     tty := {| stdin := [(bad, None); (good, None)]; stdout := [] |};
     disk := empty_disk |}.

(** A terminal on which the right passphrase is typed first. *)
Definition right_first : Env :=
  {| entityList := [];
     tty := {| stdin := [(good, None); (bad, None)]; stdout := [] |};
     disk := empty_disk |}.

Definition open_entity : Entity :=
  {| ent_PrivateKey := Some {| pk_KeyId := 1; pk_Encrypted := false; pk_lock := good |};
     ent_Subkeys :=
       [ {| sub_PrivateKey :=
              Some {| pk_KeyId := 2; pk_Encrypted := false; pk_lock := good |} |} ] |}.

Definition session : Env :=
  {| entityList := [open_entity]; tty := quiet_tty; disk := empty_disk |}.

Definition secret : bytes := String.list_byte_of_string "hunter2".

Definition plain_msg : PGP := NewPGP [] (Some no_prompt) secret false.
Definition empty_plain : PGP := NewPGP [] (Some no_prompt) [] false.
Definition cipher_msg : PGP := NewPGP [] (Some no_prompt) (header "PGP MESSAGE" ++ rev secret) true.

(** Git side: a hasher and a repository with one commit on "main". *)
#[global] Instance sample_hasher : Git.ObjectHasher := {|
  Git.hashCommit := fun c =>
    (100 + 2 * Git.sig_When (Git.Author c)
     + N.of_nat (length (Git.ParentHashes c)))%N;
|}.

Definition readme : gmap string bytes :=
  {[ "README" := String.list_byte_of_string "secrets live here" ]}.

Definition alice : Git.User :=
  {| Git.Name := "Alice"; Git.Email := "alice@example.org"; Git.HomeFolder := "/home/alice" |}.

Definition first_commit : Git.object_Commit :=
  {| Git.Author := {| Git.sig_Name := "Alice"; Git.sig_Email := "alice@example.org";
                      Git.sig_When := 1 |};
     Git.Committer := {| Git.sig_Name := "Alice"; Git.sig_Email := "alice@example.org";
                         Git.sig_When := 1 |};
     Git.Message := "initial";
     Git.Tree := readme;
     Git.ParentHashes := [] |}.

Definition C : Git.Hash := 7%N.

Definition repo_main : Git.git_Repository :=
  {| Git.refs :=
       {[ "HEAD" := Git.NewSymbolicReference "HEAD" "refs/heads/main";
          "refs/heads/main" := Git.NewHashReference "refs/heads/main" C ]};
     Git.objects := {[ C := first_commit ]};
     Git.index := readme;
     Git.files := readme;
     Git.bare := false;
     Git.readonly := false;
     Git.refs_unreadable := false |}.

(** The same with a branch "alpha" at [C]. *)
Definition repo_alpha : Git.git_Repository :=
  Git.set_refs
    (<["refs/heads/alpha" := Git.NewHashReference "refs/heads/alpha" C]>
       (Git.refs repo_main)) repo_main.

(** The same repository on storage that cannot list its references. *)
Definition repo_broken : Git.git_Repository :=
  {| Git.refs := Git.refs repo_main; Git.objects := Git.objects repo_main;
     Git.index := readme; Git.files := readme; Git.bare := false;
     Git.readonly := false; Git.refs_unreadable := true |}.

(** The same with the tracked file edited and a new, untracked file in
    the worktree. *)
Definition repo_edited : Git.git_Repository :=
  Git.set_worktree
    (<["new.gpg" := String.list_byte_of_string "-----BEGIN PGP MESSAGE-----"]>
       (<["README" := String.list_byte_of_string "secrets moved"]> readme))
    repo_main.

Definition world_of (g : Git.git_Repository) : Git.World :=
  {| Git.this := {| Git.Path := "/srv/secrets"; Git.root := Some g |};
     Git.clock := 50 |}.

End Sample.

(** ** Properties of package encrypt *)

Module EncryptFacts.
Import Encrypt.

(** The state a call ends in, whether it returned or panicked. *)
Definition final {S A} (r : Res S A) : S :=
  match r with
  | Ret _ s => s
  | Crash s => s
  end.

(** What the next [ReadPassword] yields. *)
Definition next_read (t : Terminal) : bytes * option error :=
  match stdin t with
  | [] => ([], Some "EOF")
  | r :: _ => r
  end.

(** The terminal after exactly one prompt. *)
Definition prompted_once (t : Terminal) : Terminal :=
  {| stdin := tail (stdin t);
     stdout := stdout t ++ "Enter passphrase: "
                 :: (if snd (next_read t) is None then [String "010"%char ""] else []) |}.

(** One passphrase offered to the primary key and to every subkey. *)
Definition offer (p : bytes) (pk : packet_PrivateKey) : packet_PrivateKey :=
  fst (PrivateKey_Decrypt pk p).

Definition offer_all (p : bytes) (entity : Entity) : Entity :=
  {| ent_PrivateKey := offer p <$> ent_PrivateKey entity;
     ent_Subkeys :=
       (fun s => {| sub_PrivateKey := offer p <$> sub_PrivateKey s |})
         <$> ent_Subkeys entity |}.

(** The two refusals of [WriteFile] and its write-once error. *)
Definition EmptyMessage : error := "The message content has not been loaded".
Definition RefusePlaintextWrite : error :=
  "Not allowed to write unencrypted content to a file".
Definition FileExists : error := "File already exists".

(** What the package relies on from the OpenPGP library for a round
    trip: armoring a "PGP MESSAGE" body decodes to that body, and for an
    entity the library accepts as a working key pair ([good_pair]),
    encryption to it goes through and the packets it produces are read
    back to the plaintext with that entity as keyring, with no prompt and
    so no change of state. *)
Class OpenPGPLaws (pgp : OpenPGP) := {
  good_pair : Entity -> Prop;
  armor_round : forall packets,
    armor_Decode (armor_Encode "PGP MESSAGE" packets)
    = Ok {| Type_ := "PGP MESSAGE"; Body := packets |};
  encrypt_opens : forall ent,
    good_pair ent -> exists w, openpgp_Encrypt [ent] = Ok w;
  encrypt_reads_back : forall ent w m,
    good_pair ent -> openpgp_Encrypt [ent] = Ok w ->
    exists n w' packets,
      wr_Write w m = (n, Ok w')
      /\ wr_Close w' = Ok packets
      /\ forall prompt env, exists md,
           openpgp_ReadMessage packets [ent] prompt env = Ret (Ok md) env
           /\ md_ReadAll md = Ok m;
}.

Lemma shellPrompt_run (env : Env) :
  shellPrompt env = Ret (fst (next_read (tty env))) (set_tty (prompted_once (tty env)) env).
Proof.
  unfold shellPrompt, bind, Print, ReadPassword, next_read, prompted_once, set_tty, ret.
  destruct env as [kr [inp out] d]; simpl.
  destruct inp as [|[p [e|]] rest]; simpl; try reflexivity.
  now rewrite <- app_assoc.
Qed.

Lemma decryptSubkeys_offer (p : bytes) (subkeys l : list Subkey) :
  decryptSubkeys subkeys p = Some l ->
  l = (fun s => {| sub_PrivateKey := offer p <$> sub_PrivateKey s |}) <$> subkeys.
Proof.
  revert l. induction subkeys as [|s rest IH]; intros l H; simpl in H.
  - now inversion H.
  - destruct (sub_PrivateKey s) as [pk|] eqn:Hs; [|discriminate].
    destruct (decryptSubkeys rest p) as [rest'|]; [|discriminate].
    inversion H; subst. simpl. rewrite Hs. simpl. f_equal. now apply IH.
Qed.

(** [decryptSubkeys] goes through exactly when no subkey lacks its
    private key. *)
Lemma decryptSubkeys_total (p : bytes) (subkeys : list Subkey) :
  Forall (fun s => is_Some (sub_PrivateKey s)) subkeys ->
  decryptSubkeys subkeys p
  = Some ((fun s => {| sub_PrivateKey := offer p <$> sub_PrivateKey s |}) <$> subkeys).
Proof.
  induction 1 as [|s rest [pk Hs] _ IH]; [reflexivity|].
  simpl. rewrite Hs, IH. reflexivity.
Qed.

Lemma decryptMain_offer (p : bytes) (entity : Entity) (main : option packet_PrivateKey) :
  decryptMain entity p = Ok main -> main = offer p <$> ent_PrivateKey entity.
Proof.
  unfold decryptMain, offer.
  destruct (ent_PrivateKey entity) as [pk|]; simpl; [|now inversion 1].
  destruct (pk_Encrypted pk) eqn:He.
  - destruct (PrivateKey_Decrypt pk p) as [pk' [err|]]; [discriminate|now inversion 1].
  - unfold PrivateKey_Decrypt. rewrite He. simpl. now inversion 1.
Qed.

Section WithLibraries.
Context {pgp : OpenPGP} {pathlib : PathLib}.

(** [Keyring] after its prompt, as a function of the passphrase read. *)
Lemma Keyring_run (f : PGP) (env : Env) :
  Keyring f env =
  (let passphraseByte := fst (next_read (tty env)) in
   let env0 := set_tty (prompted_once (tty env)) env in
   match armor_Decode (PrivateKey f) with
   | Fail err => Ret (Some (Errorf "Not an armor encoded PGP private key: " err)) env0
   | Ok block =>
       if negb (String.eqb (Type_ block) PrivateKeyType)
       then Ret (Some (Errorf "Not a OpenPGP private key: " nil_verb_s)) env0
       else
         match openpgp_ReadEntity (Body block) with
         | Fail err => Ret (Some (Errorf "Unable to read armor decoded key: " err)) env0
         | Ok entity =>
             match decryptMain entity passphraseByte with
             | Fail err => Ret (Some err) env0
             | Ok main =>
                 match decryptSubkeys (ent_Subkeys entity) passphraseByte with
                 | None => Crash env0
                 | Some subkeys =>
                     Ret None
                       (set_entityList
                          (entityList env0 ++ [ {| ent_PrivateKey := main;
                                                   ent_Subkeys := subkeys |} ]) env0)
                 end
             end
         end
   end).
Proof.
  unfold Keyring, bind at 1. rewrite shellPrompt_run. cbv zeta.
  destruct (armor_Decode (PrivateKey f)) as [block|err]; [|reflexivity].
  destruct (negb (String.eqb (Type_ block) PrivateKeyType)); [reflexivity|].
  destruct (openpgp_ReadEntity (Body block)) as [entity|err]; [|reflexivity].
  destruct (decryptMain entity _) as [main|err]; [|reflexivity].
  destruct (decryptSubkeys _ _); reflexivity.
Qed.

(** C8. Keyring build atomicity: a call to [Keyring] that returns an
    error (invalid armor, wrong block type, unreadable entity, failed
    primary-key decryption) leaves the session keyring [entityList] as it
    was, and so does a call that panics; a call that returns without error
    has appended exactly one entity. *)
Theorem Keyring_atomic (f : PGP) (env : Env) :
  match Keyring f env with
  | Ret (Some _) env' => entityList env' = entityList env
  | Ret None env' => exists entity, entityList env' = entityList env ++ [entity]
  | Crash env' => entityList env' = entityList env
  end.
Proof.
  rewrite Keyring_run. cbv zeta.
  destruct (armor_Decode (PrivateKey f)) as [block|err]; [|reflexivity].
  destruct (negb (String.eqb (Type_ block) PrivateKeyType)); [reflexivity|].
  destruct (openpgp_ReadEntity (Body block)) as [entity|err]; [|reflexivity].
  destruct (decryptMain entity _) as [main|err]; [|reflexivity].
  destruct (decryptSubkeys _ _) as [subkeys|]; [|reflexivity].
  simpl. eauto.
Qed.

(** C9. [Keyring] prompts exactly once per call and before it parses
    anything: whatever the key bytes are (not armored, not a private key,
    unreadable, not passphrase-protected) and however the call ends, the
    terminal has gone through one prompt, no more and no less; when the
    call succeeds the entity it appends is the parsed one with that single
    passphrase offered to the primary key and to every subkey; and the
    call does succeed, with exactly that state, for every readable
    private key whose primary key is unprotected or opened by the
    passphrase typed and whose subkeys all carry a private key. *)
Theorem Keyring_prompts_once (f : PGP) (env : Env) :
  tty (final (Keyring f env)) = prompted_once (tty env)
  /\ tty (final (shellPrompt env)) = prompted_once (tty env)
  /\ (forall env', Keyring f env = Ret None env' ->
       exists block entity,
         armor_Decode (PrivateKey f) = Ok block
         /\ openpgp_ReadEntity (Body block) = Ok entity
         /\ entityList env' =
              entityList env ++ [offer_all (fst (next_read (tty env))) entity])
  /\ (forall block entity,
       armor_Decode (PrivateKey f) = Ok block ->
       Type_ block = PrivateKeyType ->
       openpgp_ReadEntity (Body block) = Ok entity ->
       (forall pk, ent_PrivateKey entity = Some pk -> pk_Encrypted pk = true ->
                   fst (next_read (tty env)) = pk_lock pk) ->
       Forall (fun s => is_Some (sub_PrivateKey s)) (ent_Subkeys entity) ->
       Keyring f env
       = Ret None
           (set_entityList
              (entityList env ++ [offer_all (fst (next_read (tty env))) entity])
              (set_tty (prompted_once (tty env)) env))).
Proof.
  rewrite Keyring_run, shellPrompt_run. cbv zeta.
  split; [|split; [reflexivity|split]].
  - destruct (armor_Decode (PrivateKey f)) as [block|err]; [|reflexivity].
    destruct (negb (String.eqb (Type_ block) PrivateKeyType)); [reflexivity|].
    destruct (openpgp_ReadEntity (Body block)) as [entity|err]; [|reflexivity].
    destruct (decryptMain entity _) as [main|err]; [|reflexivity].
    destruct (decryptSubkeys _ _); reflexivity.
  - intros env'.
    destruct (armor_Decode (PrivateKey f)) as [block|err] eqn:Hb; [|discriminate].
    destruct (negb (String.eqb (Type_ block) PrivateKeyType)); [discriminate|].
    destruct (openpgp_ReadEntity (Body block)) as [entity|err] eqn:He; [|discriminate].
    destruct (decryptMain entity _) as [main|err] eqn:Hm; [|discriminate].
    destruct (decryptSubkeys _ _) as [subkeys|] eqn:Hs; [|discriminate].
    intros H; inversion H; subst; clear H. exists block, entity.
    split; [reflexivity|]. split; [exact He|]. simpl.
    apply decryptMain_offer in Hm. apply decryptSubkeys_offer in Hs.
    unfold offer_all. now rewrite <- Hm, <- Hs.
  - intros block entity Hb Ht He Hmain Hsub.
    rewrite Hb, Ht, String.eqb_refl, He. cbn [negb].
    rewrite (decryptSubkeys_total _ _ Hsub).
    assert (Hm : decryptMain entity (fst (next_read (tty env)))
                 = Ok (offer (fst (next_read (tty env))) <$> ent_PrivateKey entity)).
    { unfold decryptMain, offer.
      destruct (ent_PrivateKey entity) as [pk|] eqn:Hpk; [|reflexivity].
      cbn [fmap option_fmap option_map].
      destruct (pk_Encrypted pk) eqn:Henc.
      - unfold PrivateKey_Decrypt. rewrite Henc. cbn [negb].
        rewrite (Hmain pk eq_refl Henc).
        destruct (decide (pk_lock pk = pk_lock pk)); [reflexivity|contradiction].
      - unfold PrivateKey_Decrypt. rewrite Henc. reflexivity. }
    rewrite Hm. reflexivity.
Qed.

(** C4 (as amended). Given a passphrase-protected main key, [Keyring]
    prompts the passphrase source exactly once and tries that one
    passphrase: when it does not open the key the call returns an error at
    once, whatever else the source could still supply, and the keyring is
    unchanged; only when it opens the key is the entity appended. *)
Theorem Keyring_single_attempt (f : PGP) (env : Env) (block : Block)
    (entity : Entity) (pk : packet_PrivateKey) :
  armor_Decode (PrivateKey f) = Ok block ->
  Type_ block = PrivateKeyType ->
  openpgp_ReadEntity (Body block) = Ok entity ->
  ent_PrivateKey entity = Some pk ->
  pk_Encrypted pk = true ->
  tty (final (Keyring f env)) = prompted_once (tty env)
  /\ match Keyring f env with
     | Ret None env' =>
         fst (next_read (tty env)) = pk_lock pk
         /\ entityList env' =
              entityList env ++ [offer_all (fst (next_read (tty env))) entity]
     | Ret (Some _) env' =>
         fst (next_read (tty env)) <> pk_lock pk
         /\ entityList env' = entityList env
     | Crash env' =>
         fst (next_read (tty env)) = pk_lock pk
         /\ entityList env' = entityList env
     end.
Proof.
  intros Hb Ht He Hpk Henc.
  rewrite Keyring_run. cbv zeta. rewrite Hb, Ht, String.eqb_refl, He. simpl.
  set (p := fst (next_read (tty env))).
  assert (Hm : decryptMain entity p =
               if decide (p = pk_lock pk)
               then Ok (Some (offer p pk))
               else Fail (Errorf "Failed to decrypt main private key: "
                            "openpgp: invalid data: private key checksum failure")).
  { unfold decryptMain, offer, PrivateKey_Decrypt. rewrite Hpk, Henc. simpl.
    destruct (decide (p = pk_lock pk)); reflexivity. }
  rewrite Hm. destruct (decide (p = pk_lock pk)) as [Hp|Hp].
  - destruct (decryptSubkeys (ent_Subkeys entity) p) as [subkeys|] eqn:Hs.
    + simpl. split; [reflexivity|]. split; [exact Hp|].
      apply decryptSubkeys_offer in Hs. unfold offer_all.
      now rewrite Hpk, <- Hs.
    + simpl. auto.
  - simpl. auto.
Qed.

(** C5 (as amended). For every message with [Encrypted = false] and every
    path, [WriteFile] fails and touches nothing, the disk included; the
    error is the plaintext refusal when the message is non-empty and the
    empty-message error when it is empty, that check coming first. *)
Theorem WriteFile_plaintext_refused (f : PGP) (repoPath filename : string) (env : Env) :
  Encrypted f = false ->
  WriteFile f repoPath filename env
  = Ret (Some (if decide (length (Message f) = 0) then EmptyMessage
               else RefusePlaintextWrite)) env.
Proof.
  intros H. unfold WriteFile. rewrite H.
  destruct (decide (length (Message f) = 0)); reflexivity.
Qed.

(** C6. Write-once: with a path at which nothing exists yet and a disk
    that accepts the creation, the permission change and the write, the
    first [WriteFile] of non-empty encrypted content succeeds and leaves
    that content under mode 0600; a second call on the same path, with any
    valid content, fails with the file-exists error and leaves the state,
    hence the file's content, exactly as the first call left it. *)
Theorem WriteFile_write_once (f f' : PGP) (repoPath filename : string) (env : Env) :
  Message f <> [] -> Encrypted f = true ->
  Message f' <> [] -> Encrypted f' = true ->
  files (disk env) !! path_Join repoPath filename = None ->
  path_Join repoPath filename ∉ nocreate (disk env) ->
  nochmod (disk env) = false ->
  nospace (disk env) = false ->
  exists env1,
    WriteFile f repoPath filename env = Ret None env1
    /\ files (disk env1) !! path_Join repoPath filename
       = Some {| perm := mode_0600; content := Message f |}
    /\ WriteFile f' repoPath filename env1 = Ret (Some FileExists) env1.
Proof.
  intros Hm He Hm' He' Hfresh Hdir Hch Hsp.
  set (p := path_Join repoPath filename) in *.
  unfold WriteFile. fold p.
  destruct (decide (length (Message f) = 0)) as [E|_];
    [now apply length_zero_iff_nil in E|].
  destruct (decide (length (Message f') = 0)) as [E|_];
    [now apply length_zero_iff_nil in E|].
  rewrite He, He'. cbn [negb].
  unfold bind at 1. unfold os_Open at 1. rewrite Hfresh.
  unfold bind at 1. unfold os_Create. rewrite Hfresh.
  destruct (decide (p ∈ nocreate (disk env))) as [Hin|_]; [contradiction|].
  unfold bind at 1. unfold File_Chmod at 1.
  cbn [disk files set_disk set_files nochmod nospace]. rewrite Hch.
  unfold bind at 1. unfold File_Write at 1.
  cbn [disk files set_disk set_files nochmod nospace]. rewrite Hsp.
  eexists. split; [reflexivity|].
  cbn [disk files set_disk set_files nochmod nospace].
  assert (Hlook :
    alter (fun f0 : File => {| perm := perm f0; content := content f0 ++ Message f |}) p
      (alter (fun f0 : File => {| perm := mode_0600; content := content f0 |}) p
         (<[p := {| perm := N.ldiff mode_0666 (umask (disk env)); content := [] |}]>
            (files (disk env)))) !! p
    = Some {| perm := mode_0600; content := Message f |}).
  { rewrite !lookup_alter_eq, lookup_insert_eq. reflexivity. }
  split; [exact Hlook|].
  unfold bind, os_Open. cbn [disk files set_disk set_files].
  rewrite Hlook. reflexivity.
Qed.

Section RoundTrip.
Context {laws : OpenPGPLaws pgp}.

(** C3. Round trip: with a keyring holding one working key pair,
    [Encrypt] on a plaintext message succeeds and sets the flag, [Decrypt]
    on the result succeeds, clears the flag and yields exactly the
    original payload; the [Encrypted] flag goes false, true, false. *)
Theorem Encrypt_Decrypt_roundtrip (f : PGP) (ent : Entity) (env : Env) :
  good_pair ent ->
  entityList env = [ent] ->
  Encrypted f = false ->
  exists f1 f2,
    Encrypt f env = Ret (f1, None) env
    /\ Encrypted f1 = true
    /\ Decrypt f1 env = Ret (f2, None) env
    /\ Encrypted f2 = false
    /\ Message f2 = Message f.
Proof.
  intros Hgood Hkr Hplain.
  destruct (encrypt_opens ent Hgood) as [w Hw].
  destruct (encrypt_reads_back ent w (Message f) Hgood Hw)
    as (n & w' & packets & Hwr & Hcl & Hread).
  destruct (Hread (Passphrase f) env) as (md & Hmd & Hall).
  exists (set_Message (armor_Encode "PGP MESSAGE" packets) true f),
         (set_Message (Message f) false f).
  split.
  { unfold Encrypt. rewrite Hplain. unfold bind, get. rewrite Hkr, Hw, Hwr, Hcl.
    reflexivity. }
  split; [reflexivity|]. split; [|split; reflexivity].
  unfold Decrypt. simpl. rewrite armor_round. simpl.
  unfold bind, get. rewrite Hkr, Hmd, Hall. reflexivity.
Qed.

End RoundTrip.

End WithLibraries.

(** The sample library satisfies the laws, with the usable entities as
    its working key pairs. *)
#[global] Instance sample_laws : OpenPGPLaws Sample.sample_pgp.
Proof.
  refine {| good_pair := fun ent => Sample.usable ent = true |}.
  - intros packets. reflexivity.
  - intros ent H. exists []. simpl. now rewrite H.
  - intros ent w m H Hw. exists (Z.of_nat (length m)), (w ++ m), (rev (w ++ m)).
    simpl in Hw. rewrite H in Hw. simpl in Hw. inversion Hw; subst w.
    split; [reflexivity|]. split; [reflexivity|].
    intros prompt env. exists m. simpl. rewrite H. simpl.
    rewrite rev_involutive. split; reflexivity.
Defined.

Lemma Encrypt_Decrypt_roundtrip_witness :
  Sample.usable Sample.open_entity = true
  /\ entityList Sample.session = [Sample.open_entity]
  /\ Encrypted Sample.plain_msg = false
  /\ exists f1 f2,
       Encrypt Sample.plain_msg Sample.session = Ret (f1, None) Sample.session
       /\ Encrypted f1 = true
       /\ Decrypt f1 Sample.session = Ret (f2, None) Sample.session
       /\ Encrypted f2 = false
       /\ Message f2 = Message Sample.plain_msg.
Proof.
  split; [reflexivity|]. split; [reflexivity|]. split; [reflexivity|].
  apply (Encrypt_Decrypt_roundtrip (laws := sample_laws)
           Sample.plain_msg Sample.open_entity Sample.session); reflexivity.
Defined.

(** C4, the claim as written fails: a wrong passphrase is typed first and
    the right one is still waiting on the terminal, yet [Keyring] returns
    the decryption error after its single prompt, with the keyring empty
    and the right passphrase unread; a second call, which reads it,
    succeeds. *)
Lemma Keyring_does_not_retry :
  exists env1 env2,
    Keyring Sample.key_file Sample.two_tries
    = Ret (Some (Errorf "Failed to decrypt main private key: "
                   "openpgp: invalid data: private key checksum failure")) env1
    /\ entityList env1 = []
    /\ stdin (tty env1) = [(Sample.good, None)]
    /\ Keyring Sample.key_file env1 = Ret None env2
    /\ entityList env2 = [Sample.open_entity].
Proof.
  eexists. eexists. split; [vm_compute; reflexivity|].
  split; [reflexivity|]. split; [reflexivity|].
  split; [vm_compute; reflexivity|]. reflexivity.
Qed.

Lemma Keyring_single_attempt_witness :
  tty (final (Keyring Sample.key_file Sample.two_tries))
  = prompted_once (tty Sample.two_tries)
  /\ match Keyring Sample.key_file Sample.two_tries with
     | Ret None env' =>
         fst (next_read (tty Sample.two_tries)) = Sample.good
         /\ entityList env' =
              entityList Sample.two_tries
                ++ [offer_all (fst (next_read (tty Sample.two_tries)))
                      {| ent_PrivateKey :=
                           Some {| pk_KeyId := 1; pk_Encrypted := true;
                                   pk_lock := Sample.good |};
                         ent_Subkeys :=
                           [ {| sub_PrivateKey :=
                                  Some {| pk_KeyId := 2; pk_Encrypted := true;
                                          pk_lock := Sample.good |} |} ] |}]
     | Ret (Some _) env' =>
         fst (next_read (tty Sample.two_tries)) <> Sample.good
         /\ entityList env' = entityList Sample.two_tries
     | Crash env' =>
         fst (next_read (tty Sample.two_tries)) = Sample.good
         /\ entityList env' = entityList Sample.two_tries
     end.
Proof.
  apply (Keyring_single_attempt Sample.key_file Sample.two_tries
           {| Type_ := PrivateKeyType; Body := Sample.good |}
           _ {| pk_KeyId := 1; pk_Encrypted := true; pk_lock := Sample.good |});
    reflexivity.
Defined.

Lemma Keyring_prompts_once_witness :
  tty (final (Keyring Sample.key_file Sample.right_first))
  = prompted_once (tty Sample.right_first)
  /\ Keyring Sample.key_file Sample.right_first
     = Ret None
         {| entityList :=
              [ {| ent_PrivateKey :=
                     Some {| pk_KeyId := 1; pk_Encrypted := false;
                             pk_lock := Sample.good |};
                   ent_Subkeys :=
                     [ {| sub_PrivateKey :=
                            Some {| pk_KeyId := 2; pk_Encrypted := false;
                                    pk_lock := Sample.good |} |} ] |} ];
            tty := {| stdin := [(Sample.bad, None)];
                      stdout := ["Enter passphrase: "; String "010"%char ""] |};
            disk := Sample.empty_disk |}.
Proof.
  destruct (Keyring_prompts_once Sample.key_file Sample.right_first)
    as (Htty & _ & _ & Hrun).
  split; [exact Htty|].
  rewrite (Hrun {| Type_ := PrivateKeyType; Body := Sample.good |}
             {| ent_PrivateKey :=
                  Some {| pk_KeyId := 1; pk_Encrypted := true; pk_lock := Sample.good |};
                ent_Subkeys :=
                  [ {| sub_PrivateKey :=
                         Some {| pk_KeyId := 2; pk_Encrypted := true;
                                 pk_lock := Sample.good |} |} ] |}
             eq_refl eq_refl eq_refl).
  - reflexivity.
  - intros pk Hpk _. inversion Hpk. reflexivity.
  - repeat constructor; eexists; reflexivity.
Defined.

(** C5, the claim as written fails: an empty plaintext message is turned
    away by the empty-message check, which comes first, so the error is
    not the plaintext refusal. *)
Lemma WriteFile_empty_plaintext :
  Encrypted Sample.empty_plain = false
  /\ WriteFile Sample.empty_plain "repo" "secret.gpg" Sample.session
     = Ret (Some EmptyMessage) Sample.session
  /\ EmptyMessage <> RefusePlaintextWrite.
Proof.
  split; [reflexivity|]. split; [reflexivity|]. discriminate.
Qed.

Lemma WriteFile_plaintext_refused_witness :
  Encrypted Sample.plain_msg = false
  /\ WriteFile Sample.plain_msg "repo" "secret.gpg" Sample.session
     = Ret (Some RefusePlaintextWrite) Sample.session.
Proof.
  split; [reflexivity|].
  apply (WriteFile_plaintext_refused Sample.plain_msg "repo" "secret.gpg" Sample.session).
  reflexivity.
Defined.

Lemma WriteFile_write_once_witness :
  exists env1,
    WriteFile Sample.cipher_msg "repo" "secret.gpg" Sample.session = Ret None env1
    /\ files (disk env1) !! path_Join "repo" "secret.gpg"
       = Some {| perm := mode_0600; content := Message Sample.cipher_msg |}
    /\ WriteFile Sample.cipher_msg "repo" "secret.gpg" env1
       = Ret (Some FileExists) env1.
Proof.
  apply (WriteFile_write_once Sample.cipher_msg Sample.cipher_msg
           "repo" "secret.gpg" Sample.session);
    try reflexivity; try discriminate.
Defined.

End EncryptFacts.

(** ** Properties of package git *)

Module GitFacts.
Import Git.

(** The test [BranchExists n] applies to each reference. *)
Definition branch_hit (n : string) (ref : Reference) : bool :=
  bool_decide (ref_Type ref = HashReference)
  && IsBranch (ref_Name ref) && String.eqb (Short (ref_Name ref)) n.

Lemma AddTagBranch_run (tag s : string) (w : World) (g : git_Repository)
    (ref : Reference) (c : object_Commit) :
  root (this w) = Some g ->
  refs g !! ("refs/heads/" +:+ s) = Some ref ->
  objects g !! ref_Hash ref = Some c ->
  readonly g = false ->
  AddTagBranch tag s w
  = Ret None {| this := {| Path := Path (this w);
                           root := Some (set_refs
                                           (<[tag := NewHashReference tag (ref_Hash ref)]>
                                              (refs g)) g) |};
                clock := clock w |}.
Proof.
  intros Hroot Href Hobj Hrw.
  unfold AddTagBranch, bind, root_, on_root, Repository_Reference, Storer_Reference,
    Repository_CommitObject, Storer_SetReference.
  rewrite Hroot, Href, Hobj, Hroot, Hrw. reflexivity.
Qed.

(** C1, on the code: with branch "alpha" at a commit [C] and no reference
    "refs/tags/v1" beforehand, [AddTagBranch "v1" "alpha"] succeeds but
    stores the reference under the bare name "v1", not under "refs/tags";
    [TagBranch "v1" true] then looks up "refs/tags/v1", does not find it
    and returns the not-found error, leaving the repository as it was: no
    branch "v1" is created. *)
Theorem AddTagBranch_then_TagBranch_fails (w : World) (g : git_Repository)
    (ref : Reference) (c : object_Commit) :
  root (this w) = Some g ->
  refs g !! "refs/heads/alpha" = Some ref ->
  objects g !! ref_Hash ref = Some c ->
  readonly g = false ->
  refs g !! "refs/tags/v1" = None ->
  exists w1 g1,
    AddTagBranch "v1" "alpha" w = Ret None w1
    /\ root (this w1) = Some g1
    /\ refs g1 !! "v1" = Some (NewHashReference "v1" (ref_Hash ref))
    /\ refs g1 !! "refs/tags/v1" = None
    /\ TagBranch "v1" true w1 = Ret (Some ErrReferenceNotFound) w1
    /\ refs g1 !! "refs/heads/v1" = refs g !! "refs/heads/v1".
Proof.
  intros Hroot Href Hobj Hrw Htag.
  eexists. eexists. split.
  { apply (AddTagBranch_run "v1" "alpha" w g ref c); assumption. }
  cbn [this root refs set_refs].
  split; [reflexivity|].
  split; [apply lookup_insert_eq|].
  assert (Hmiss : <["v1" := NewHashReference "v1" (ref_Hash ref)]> (refs g)
                    !! "refs/tags/v1" = None).
  { rewrite lookup_insert_ne; [exact Htag|discriminate]. }
  split; [exact Hmiss|].
  split.
  - unfold TagBranch, bind, root_, Repository_Reference, Storer_Reference.
    cbn [this root refs set_refs].
    change ("refs/tags/" +:+ "v1") with "refs/tags/v1".
    rewrite Hmiss. reflexivity.
  - cbn [refs set_refs]. rewrite lookup_insert_ne; [reflexivity|discriminate].
Qed.

Lemma AddTagBranch_then_TagBranch_fails_witness :
  exists w1 g1,
    AddTagBranch "v1" "alpha" (Sample.world_of Sample.repo_alpha) = Ret None w1
    /\ root (this w1) = Some g1
    /\ refs g1 !! "v1" = Some (NewHashReference "v1" Sample.C)
    /\ refs g1 !! "refs/tags/v1" = None
    /\ TagBranch "v1" true w1 = Ret (Some ErrReferenceNotFound) w1
    /\ refs g1 !! "refs/heads/v1" = refs Sample.repo_alpha !! "refs/heads/v1".
Proof.
  apply (AddTagBranch_then_TagBranch_fails (Sample.world_of Sample.repo_alpha)
           Sample.repo_alpha (NewHashReference "refs/heads/alpha" Sample.C)
           Sample.first_commit); reflexivity.
Defined.

(** C7, on the code: when the storage cannot list the references,
    [References] hands back a nil iterator with its error; the three
    queries drop the error and call [ForEach] on the nil iterator, so each
    of them panics instead of returning false, false and the empty
    list. *)
Theorem queries_panic_on_listing_failure (w : World) (g : git_Repository) (n : string) :
  root (this w) = Some g ->
  refs_unreadable g = true ->
  ListBranches w = Crash w
  /\ BranchExists n w = Crash w
  /\ TagExists n w = Crash w.
Proof.
  intros Hroot Hbad.
  unfold ListBranches, BranchExists, TagExists, References_ForEach, bind, root_,
    Repository_References.
  rewrite Hroot, Hbad. repeat split.
Qed.

Lemma queries_panic_on_listing_failure_witness :
  ListBranches (Sample.world_of Sample.repo_broken)
  = Crash (Sample.world_of Sample.repo_broken)
  /\ BranchExists "main" (Sample.world_of Sample.repo_broken)
     = Crash (Sample.world_of Sample.repo_broken)
  /\ TagExists "main" (Sample.world_of Sample.repo_broken)
     = Crash (Sample.world_of Sample.repo_broken).
Proof.
  apply (queries_panic_on_listing_failure (Sample.world_of Sample.repo_broken)
           Sample.repo_broken "main"); reflexivity.
Defined.

(** A handle that was never loaded panics as well, and a listing that
    works never does. *)
Lemma queries_panic_on_nil_root (w : World) (n : string) :
  root (this w) = None ->
  ListBranches w = Crash w /\ BranchExists n w = Crash w /\ TagExists n w = Crash w.
Proof.
  intros Hroot.
  unfold ListBranches, BranchExists, TagExists, References_ForEach, bind, root_.
  rewrite Hroot. repeat split.
Qed.

Lemma queries_return_when_listing_works (w : World) (g : git_Repository) (n : string) :
  root (this w) = Some g ->
  refs_unreadable g = false ->
  (exists l, ListBranches w = Ret l w)
  /\ (exists b, BranchExists n w = Ret b w)
  /\ (exists b, TagExists n w = Ret b w).
Proof.
  intros Hroot Hok.
  unfold ListBranches, BranchExists, TagExists, References_ForEach, bind, root_,
    Repository_References, ret.
  rewrite Hroot, Hok. repeat split; eexists; reflexivity.
Qed.

(** Once the flag of [BranchExists] is up no later reference takes it
    down, so a list that holds a matching branch folds to true. *)
Lemma foldl_BranchExists_true (n : string) (l : list Reference) :
  foldl (fun (b : bool) ref =>
           if decide (ref_Type ref = HashReference) then
             if IsBranch (ref_Name ref) && String.eqb (Short (ref_Name ref)) n
             then true else b
           else b) true l = true.
Proof.
  induction l as [|r l IH]; [reflexivity|]. simpl.
  destruct (decide (ref_Type r = HashReference)); [|exact IH].
  destruct (IsBranch (ref_Name r) && String.eqb (Short (ref_Name r)) n); exact IH.
Qed.

Lemma foldl_BranchExists_hit (n : string) (l : list Reference) (ref : Reference) (b : bool) :
  ref ∈ l -> branch_hit n ref = true ->
  foldl (fun (b : bool) ref =>
           if decide (ref_Type ref = HashReference) then
             if IsBranch (ref_Name ref) && String.eqb (Short (ref_Name ref)) n
             then true else b
           else b) b l = true.
Proof.
  intros Hin Hhit. revert b. induction Hin as [ref l|ref r l Hin IH]; intros b; simpl.
  - unfold branch_hit in Hhit.
    apply andb_prop in Hhit as [Hhit Hs]. apply andb_prop in Hhit as [Ht Hb].
    apply bool_decide_eq_true in Ht.
    destruct (decide (ref_Type ref = HashReference)); [|contradiction].
    rewrite Hb, Hs. simpl. apply foldl_BranchExists_true.
  - apply IH. exact Hhit.
Qed.

Lemma BranchExists_hit (w : World) (g : git_Repository) (n key : string) (ref : Reference) :
  root (this w) = Some g ->
  refs_unreadable g = false ->
  refs g !! key = Some ref ->
  branch_hit n ref = true ->
  BranchExists n w = Ret true w.
Proof.
  intros Hroot Hok Hkey Hhit.
  unfold BranchExists, References_ForEach, bind, root_, Repository_References, ret.
  rewrite Hroot, Hok. f_equal.
  apply (foldl_BranchExists_hit n _ ref); [|exact Hhit].
  apply list_elem_of_fmap. exists (key, ref). split; [reflexivity|].
  now apply elem_of_map_to_list.
Qed.

(** The repository after [Checkout] has created "refs/heads/alpha" at
    the commit [c0] of HEAD and moved onto it. *)
Definition on_alpha (c0 : Hash) (first : object_Commit) (g : git_Repository)
  : git_Repository :=
  let g3 :=
    set_refs
      (<["refs/heads/alpha" := NewHashReference "refs/heads/alpha" c0]>
         (<["HEAD" := NewSymbolicReference "HEAD" "refs/heads/alpha"]>
            (<["refs/heads/alpha" := NewHashReference "refs/heads/alpha" c0]> (refs g)))) g in
  set_worktree (Tree first ∪ filter (fun kv => index g3 !! kv.1 = None) (files g3))
    (set_index (Tree first) g3).

Lemma Checkout_creates_at_HEAD (g : git_Repository) (c0 : Hash) (first : object_Commit) :
  readonly g = false ->
  containsUnstagedChanges g = false ->
  refs g !! "HEAD" = Some (NewSymbolicReference "HEAD" "refs/heads/main") ->
  refs g !! "refs/heads/main" = Some (NewHashReference "refs/heads/main" c0) ->
  objects g !! c0 = Some first ->
  refs g !! "refs/heads/alpha" = None ->
  Worktree_Checkout {| co_Hash := ZeroHash; co_Branch := "refs/heads/alpha";
                       co_Create := true; co_Force := false |} g
  = (None, on_alpha c0 first g).
Proof.
  intros Hrw Hclean Hhead Hmain Hobj Hfresh.
  unfold Worktree_Checkout, CheckoutOptions_Validate.
  cbn [co_Create co_Hash co_Branch co_Force negb andb].
  change (String.eqb "refs/heads/alpha" "") with false. cbv iota.
  unfold createBranch. cbn [co_Create co_Hash co_Branch co_Force].
  unfold Storer_Reference at 1. rewrite Hfresh.
  change (IsZero ZeroHash) with true. cbv iota.
  assert (Hres : Repository_Head g = Ok (NewHashReference "refs/heads/main" c0)).
  { unfold Repository_Head, Repository_Reference, Storer_Reference, HEAD.
    rewrite Hhead. unfold MaxResolveRecursion.
    cbn [resolveReference NewSymbolicReference ref_Type ref_Target].
    destruct (decide (SymbolicReference = SymbolicReference)); [|contradiction].
    unfold Storer_Reference. rewrite Hmain.
    cbn [resolveReference NewHashReference ref_Type].
    destruct (decide (HashReference = SymbolicReference)); [discriminate|reflexivity]. }
  rewrite Hres. cbn [NewHashReference ref_Hash].
  unfold Storer_SetReference at 1. rewrite Hrw.
  cbn [ref_Name NewHashReference].
  set (g1 := set_refs (<["refs/heads/alpha" := NewHashReference "refs/heads/alpha" c0]>
                         (refs g)) g).
  assert (Halpha : forall m : gmap string Reference,
            <["refs/heads/alpha" := NewHashReference "refs/heads/alpha" c0]> m
              !! "refs/heads/alpha"
            = Some (NewHashReference "refs/heads/alpha" c0))
    by (intros; apply lookup_insert_eq).
  assert (Hc : getCommitFromCheckoutOptions
                 {| co_Hash := c0; co_Branch := "refs/heads/alpha";
                    co_Create := true; co_Force := false |} g1 = Ok c0).
  { unfold getCommitFromCheckoutOptions. cbn [co_Hash co_Branch].
    destruct (IsZero c0); [|reflexivity]. cbn [negb].
    unfold Repository_Reference, Storer_Reference, g1. cbn [refs set_refs].
    rewrite Halpha. unfold MaxResolveRecursion.
    cbn [resolveReference NewHashReference ref_Type].
    destruct (decide (HashReference = SymbolicReference)); [discriminate|].
    reflexivity. }
  rewrite Hc. cbn [co_Hash co_Branch co_Create negb]. rewrite andb_false_r.
  unfold setHEADToBranch, Storer_Reference. unfold g1 at 1. cbn [refs set_refs].
  rewrite Halpha. cbn [NewHashReference ref_Name].
  change (IsBranch "refs/heads/alpha") with true. cbv iota.
  unfold Storer_SetReference at 1. unfold g1 at 1. cbn [readonly set_refs]. rewrite Hrw.
  cbn [ref_Name NewSymbolicReference HEAD].
  set (g2 := set_refs _ g1).
  unfold Worktree_Reset.
  change (containsUnstagedChanges g2) with (containsUnstagedChanges g). rewrite Hclean.
  unfold setHEADCommit, Repository_Reference, Storer_Reference, HEAD.
  unfold g2 at 1. cbn [refs set_refs]. rewrite lookup_insert_eq.
  cbn [ref_Type ref_Target NewSymbolicReference].
  destruct (decide (SymbolicReference = HashReference)); [discriminate|].
  unfold g2 at 1. cbn [refs set_refs].
  rewrite lookup_insert_ne by discriminate. unfold g1 at 1. cbn [refs set_refs].
  rewrite Halpha. cbn [NewHashReference ref_Name].
  change (IsBranch "refs/heads/alpha") with true. cbn [negb].
  unfold Storer_SetReference. change (readonly g2) with (readonly g). rewrite Hrw.
  cbn [ref_Name]. unfold Repository_CommitObject.
  cbn [objects set_refs]. change (objects g2) with (objects g). rewrite Hobj.
  reflexivity.
Qed.

Section WithHasher.
Context {hasher : ObjectHasher}.

Lemma updateHEAD_objects (h : Hash) (g : git_Repository) :
  objects (snd (updateHEAD h g)) = objects g.
Proof.
  unfold updateHEAD, Storer_SetReference.
  destruct (Storer_Reference g HEAD); [|reflexivity].
  destruct (readonly g); reflexivity.
Qed.

(** What a successful [Commit] records: one commit object is added, and
    its tree holds the tracked paths with the content their files have
    now, nothing for a tracked path whose file is gone and nothing for a
    path the index does not know. *)
Lemma Commit_records_tracked_files (u : User) (filename msg : string)
    (w w1 : World) (g : git_Repository) :
  root (this w) = Some g ->
  Commit u filename msg w = Ret None w1 ->
  exists g1 c,
    root (this w1) = Some g1
    /\ objects g1 = <[hashCommit c := c]> (objects g)
    /\ Message c = msg
    /\ forall p, Tree c !! p = index g !! p ≫= (fun _ => files g !! p).
Proof.
  intros Hroot.
  unfold Commit, bind at 1, root_. rewrite Hroot.
  destruct (Repository_Worktree g); [|discriminate].
  unfold bind at 1, time_Now. unfold bind, on_root. rewrite Hroot.
  unfold Worktree_Commit.
  destruct (CommitOptions_Validate _ g) as [[[author committer] parents]|err];
    [|discriminate].
  cbn [cm_All].
  change (readonly (autoAddModifiedAndDeleted g)) with (readonly g).
  destruct (readonly g); [discriminate|].
  match goal with
  | |- context [updateHEAD (hashCommit ?c) ?g2] =>
      pose proof (updateHEAD_objects (hashCommit c) g2) as Hobj;
      destruct (updateHEAD (hashCommit c) g2) as [[err|] g3]; [discriminate|];
      intros Hret; exists g3, c
  end.
  inversion Hret; subst; clear Hret.
  split; [reflexivity|]. cbn [snd] in Hobj. rewrite Hobj.
  split; [reflexivity|]. split; [reflexivity|].
  intros p. cbn [Tree]. unfold autoAddModifiedAndDeleted. cbn [index set_index].
  apply map_lookup_imap.
Qed.

(** The commit [CreateOrphanBranch] asks for, made on the repository as
    [Checkout] left it: its parent list, handed over empty, is filled with
    the hash of HEAD. *)
Definition branch_commit (a : Signature) (msg : string) (c0 : Hash)
    (first : object_Commit) : object_Commit :=
  {| Author := a; Committer := a; Message := msg; Tree := Tree first;
     ParentHashes := [c0] |}.

Lemma Commit_on_alpha (g : git_Repository) (c0 : Hash) (first : object_Commit)
    (a : Signature) (msg : string) :
  readonly g = false ->
  Worktree_Commit msg {| cm_All := false; cm_Author := Some a;
                         cm_Committer := None; cm_Parents := [] |}
    (on_alpha c0 first g)
  = (Ok (hashCommit (branch_commit a msg c0 first)),
     set_refs
       (<["refs/heads/alpha" :=
            NewHashReference "refs/heads/alpha"
              (hashCommit (branch_commit a msg c0 first))]>
          (refs (on_alpha c0 first g)))
       (set_objects
          (<[hashCommit (branch_commit a msg c0 first) := branch_commit a msg c0 first]>
             (objects g))
          (on_alpha c0 first g))).
Proof.
  intros Hrw.
  assert (Hhead : refs (on_alpha c0 first g) !! "HEAD"
                  = Some (NewSymbolicReference "HEAD" "refs/heads/alpha")).
  { unfold on_alpha. cbn [refs set_refs set_worktree set_index].
    rewrite lookup_insert_ne by discriminate. apply lookup_insert_eq. }
  assert (Halpha : refs (on_alpha c0 first g) !! "refs/heads/alpha"
                   = Some (NewHashReference "refs/heads/alpha" c0)).
  { unfold on_alpha. cbn [refs set_refs set_worktree set_index].
    apply lookup_insert_eq. }
  assert (Hres : Repository_Head (on_alpha c0 first g)
                 = Ok (NewHashReference "refs/heads/alpha" c0)).
  { unfold Repository_Head, Repository_Reference, Storer_Reference, HEAD.
    rewrite Hhead. unfold MaxResolveRecursion.
    cbn [resolveReference NewSymbolicReference ref_Type ref_Target].
    destruct (decide (SymbolicReference = SymbolicReference)); [|contradiction].
    unfold Storer_Reference. rewrite Halpha.
    cbn [resolveReference NewHashReference ref_Type].
    destruct (decide (HashReference = SymbolicReference)); [discriminate|reflexivity]. }
  unfold Worktree_Commit, CommitOptions_Validate.
  cbn [cm_All cm_Author cm_Committer cm_Parents length].
  destruct (decide (0 = 0)); [|contradiction].
  rewrite Hres. cbn [NewHashReference ref_Hash].
  change (readonly (on_alpha c0 first g)) with (readonly g). rewrite Hrw.
  unfold updateHEAD, Storer_Reference, HEAD.
  cbn [refs set_objects]. rewrite Hhead.
  cbn [NewSymbolicReference ref_Type ref_Target].
  destruct (decide (SymbolicReference = HashReference)); [discriminate|].
  unfold Storer_SetReference.
  change (readonly (set_objects _ (on_alpha c0 first g))) with (readonly g).
  rewrite Hrw. reflexivity.
Qed.

(** C2, on the code: in a repository whose HEAD is on branch "main" at
    commit [c0], with a clean worktree and no branch "alpha" yet,
    [CreateOrphanBranch identity "alpha"] succeeds, leaves the tip of
    "main" unchanged and makes [BranchExists "alpha"] true, but the commit
    it puts on "alpha" has [c0] as its parent: [Checkout] starts the new
    branch at HEAD and [Commit] turns the empty parent list into HEAD's
    hash, so the branch is not an orphan. *)
Theorem CreateOrphanBranch_commit_has_parent (u : User) (w : World)
    (g : git_Repository) (c0 : Hash) (first : object_Commit) :
  root (this w) = Some g ->
  bare g = false ->
  readonly g = false ->
  refs_unreadable g = false ->
  containsUnstagedChanges g = false ->
  refs g !! "HEAD" = Some (NewSymbolicReference "HEAD" "refs/heads/main") ->
  refs g !! "refs/heads/main" = Some (NewHashReference "refs/heads/main" c0) ->
  objects g !! c0 = Some first ->
  refs g !! "refs/heads/alpha" = None ->
  exists w1 g1 h c,
    CreateOrphanBranch u "alpha" w = Ret None w1
    /\ root (this w1) = Some g1
    /\ refs g1 !! "refs/heads/alpha" = Some (NewHashReference "refs/heads/alpha" h)
    /\ objects g1 !! h = Some c
    /\ ParentHashes c = [c0]
    /\ refs g1 !! "refs/heads/main" = refs g !! "refs/heads/main"
    /\ BranchExists "alpha" w1 = Ret true w1.
Proof.
  intros Hroot Hbare Hrw Hlist Hclean Hhead Hmain Hobj Hfresh.
  set (a := {| sig_Name := Name u; sig_Email := Email u; sig_When := clock w |}).
  set (msg := "creating branch for: alpha").
  set (c := branch_commit a msg c0 first).
  eexists. exists
    (set_refs
       (<["refs/heads/alpha" := NewHashReference "refs/heads/alpha" (hashCommit c)]>
          (refs (on_alpha c0 first g)))
       (set_objects (<[hashCommit c := c]> (objects g)) (on_alpha c0 first g))),
    (hashCommit c), c.
  split.
  { unfold CreateOrphanBranch.
    change ("refs/heads/" +:+ "alpha") with "refs/heads/alpha".
    unfold bind at 1, root_. rewrite Hroot.
    unfold Repository_Worktree. rewrite Hbare.
    unfold bind at 1, on_root at 1. rewrite Hroot.
    rewrite (Checkout_creates_at_HEAD g c0 first) by assumption.
    unfold bind at 1, time_Now. cbn [clock].
    unfold bind, on_root. cbn [this root].
    change ("creating branch for: " +:+ "alpha") with msg. fold a.
    rewrite (Commit_on_alpha g c0 first a msg Hrw). reflexivity. }
  cbn [this root].
  split; [reflexivity|].
  split; [cbn [refs set_refs]; apply lookup_insert_eq|].
  split; [cbn [objects set_refs set_objects]; apply lookup_insert_eq|].
  split; [reflexivity|].
  split.
  { unfold on_alpha. cbn [refs set_refs set_objects set_worktree set_index].
    rewrite !lookup_insert_ne by discriminate. reflexivity. }
  eapply BranchExists_hit with (key := "refs/heads/alpha").
  - reflexivity.
  - exact Hlist.
  - cbn [refs set_refs]. apply lookup_insert_eq.
  - reflexivity.
Qed.

End WithHasher.

Lemma CreateOrphanBranch_commit_has_parent_witness :
  exists w1 g1 h c,
    CreateOrphanBranch Sample.alice "alpha" (Sample.world_of Sample.repo_main)
    = Ret None w1
    /\ root (this w1) = Some g1
    /\ refs g1 !! "refs/heads/alpha" = Some (NewHashReference "refs/heads/alpha" h)
    /\ objects g1 !! h = Some c
    /\ ParentHashes c = [Sample.C]
    /\ refs g1 !! "refs/heads/main" = refs Sample.repo_main !! "refs/heads/main"
    /\ BranchExists "alpha" w1 = Ret true w1.
Proof.
  apply (CreateOrphanBranch_commit_has_parent Sample.alice
           (Sample.world_of Sample.repo_main) Sample.repo_main Sample.C
           Sample.first_commit); reflexivity.
Defined.

End GitFacts.

(** ** Further properties of package encrypt *)

Module EncryptMore.
Import Encrypt EncryptFacts.

Definition AlreadyEncrypted : error := "The message is encrypted already".
Definition NotEncrypted : error := "The message is not encrypted".

Section WithLibraries.
Context {pgp : OpenPGP} {pathlib : PathLib}.

(** X1. [Encrypt] returns, in the state it started from; on an error the
    message it hands back is the one it was given. *)
Theorem Encrypt_leaves_state (f : PGP) (env : Env) :
  exists f' err,
    Encrypt f env = Ret (f', err) env
    /\ (err <> None -> f' = f)
    /\ PrivateKey f' = PrivateKey f.
Proof.
  unfold Encrypt. destruct (Encrypted f).
  { eexists _, _. split; [reflexivity|]. split; [reflexivity|reflexivity]. }
  unfold bind, get.
  destruct (openpgp_Encrypt (entityList env)) as [w|err].
  2: { eexists _, _. split; [reflexivity|]. split; reflexivity. }
  destruct (wr_Write w (Message f)) as [v [w'|err]].
  2: { eexists _, _. split; [reflexivity|]. split; reflexivity. }
  destruct (wr_Close w') as [packets|err].
  2: { eexists _, _. split; [reflexivity|]. split; reflexivity. }
  eexists _, _. split; [reflexivity|]. split; [intros H; now elim H|reflexivity].
Qed.

(** X2. A message that [Encrypt] has just encrypted is refused by a second
    [Encrypt], which changes neither the message nor the state. *)
Theorem Encrypt_again_rejected (f f1 : PGP) (env env1 : Env) :
  Encrypt f env = Ret (f1, None) env1 ->
  Encrypted f = false
  /\ Encrypted f1 = true
  /\ Encrypt f1 env1 = Ret (f1, Some AlreadyEncrypted) env1.
Proof.
  unfold Encrypt at 1. destruct (Encrypted f) eqn:He; [discriminate|].
  unfold bind, get.
  destruct (openpgp_Encrypt (entityList env)) as [w|err]; [|discriminate].
  destruct (wr_Write w (Message f)) as [v [w'|err]]; [|discriminate].
  destruct (wr_Close w') as [packets|err]; [|discriminate].
  intros H. inversion H; subst; clear H.
  split; [reflexivity|]. split; [reflexivity|]. reflexivity.
Qed.

(** X3. [Decrypt] hands the message back untouched whenever it reports an
    error; when it succeeds only the payload and the flag change, and a
    second [Decrypt] of the result is refused without any effect. *)
Theorem Decrypt_outcomes (f : PGP) (env : Env) :
  match Decrypt f env with
  | Ret (f', Some _) _ => f' = f
  | Ret (f', None) env' =>
      Encrypted f = true
      /\ Encrypted f' = false
      /\ PrivateKey f' = PrivateKey f
      /\ Decrypt f' env' = Ret (f', Some NotEncrypted) env'
  | Crash _ => True
  end.
Proof.
  unfold Decrypt at 1. destruct (Encrypted f) eqn:He; [|reflexivity]. cbn [negb].
  destruct (armor_Decode (Message f)) as [block|err]; [|reflexivity].
  destruct (negb (String.eqb (Type_ block) "PGP MESSAGE")); [reflexivity|].
  unfold bind, get.
  destruct (openpgp_ReadMessage _ _ _ env) as [[md|err] env'|env']; [|reflexivity|exact I].
  destruct (md_ReadAll md) as [message|err]; [|reflexivity].
  simpl. repeat split.
Qed.

(** Every run of [WriteFile], step by step. *)
Lemma WriteFile_run (f : PGP) (repoPath filename : string) (env : Env) :
  WriteFile f repoPath filename env =
  (let p := path_Join repoPath filename in
   let d := disk env in
   if decide (length (Message f) = 0) then Ret (Some EmptyMessage) env
   else if negb (Encrypted f) then Ret (Some RefusePlaintextWrite) env
   else match files d !! p with
        | Some file =>
            if owner_r file then Ret (Some FileExists) env
            else Ret (Some (Errorf "Unable to create the file: "
                              ("open " +:+ p +:+ ": permission denied"))) env
        | None =>
            if decide (p ∈ nocreate d)
            then Ret (Some (Errorf "Unable to create the file: "
                              ("open " +:+ p +:+ ": no such file or directory"))) env
            else
              let created :=
                <[p := {| perm := N.ldiff mode_0666 (umask d); content := [] |}]> (files d) in
              if nochmod d
              then Ret (Some (Errorf "Unable to change permissions on file to 0600: "
                                ("chmod " +:+ p +:+ ": operation not permitted")))
                     (set_disk (set_files created d) env)
              else
                let locked := <[p := {| perm := mode_0600; content := [] |}]> (files d) in
                if nospace d
                then Ret (Some (Errorf "Unable to write to file: "
                                  ("write " +:+ p +:+ ": no space left on device")))
                       (set_disk (set_files locked d) env)
                else Ret None
                       (set_disk
                          (set_files (<[p := {| perm := mode_0600; content := Message f |}]>
                                        (files d)) d) env)
        end).
Proof.
  cbv zeta. unfold WriteFile.
  destruct (decide (length (Message f) = 0)); [reflexivity|].
  destruct (negb (Encrypted f)); [reflexivity|].
  set (p := path_Join repoPath filename).
  unfold bind at 1. unfold os_Open.
  destruct (files (disk env) !! p) as [file|] eqn:Hp.
  - destruct (owner_r file) eqn:Hr; [reflexivity|].
    unfold bind, os_Create. rewrite Hp, Hr. reflexivity.
  - unfold bind at 1. unfold os_Create. rewrite Hp.
    destruct (decide (p ∈ nocreate (disk env))); [reflexivity|].
    unfold bind at 1. unfold File_Chmod.
    cbn [disk files set_disk set_files nochmod nospace].
    destruct (nochmod (disk env)); [reflexivity|].
    unfold bind. unfold File_Write.
    cbn [disk files set_disk set_files nochmod nospace].
    assert (Hch : alter (fun f0 : File => {| perm := mode_0600; content := content f0 |}) p
                    (<[p := {| perm := N.ldiff mode_0666 (umask (disk env));
                               content := [] |}]> (files (disk env)))
                  = <[p := {| perm := mode_0600; content := [] |}]> (files (disk env))).
    { rewrite alter_insert_eq. reflexivity. }
    rewrite Hch.
    destruct (nospace (disk env)); [reflexivity|].
    rewrite alter_insert_eq. reflexivity.
Qed.


(** X5. [WriteFile] touches one path only: every other file, the keyring
    and the terminal are as before, however the call ends. *)
Theorem WriteFile_touches_only_target (f : PGP) (repoPath filename q : string)
    (env : Env) :
  q <> path_Join repoPath filename ->
  files (disk (final (WriteFile f repoPath filename env))) !! q = files (disk env) !! q
  /\ entityList (final (WriteFile f repoPath filename env)) = entityList env
  /\ tty (final (WriteFile f repoPath filename env)) = tty env.
Proof.
  intros Hq. rewrite WriteFile_run. cbv zeta.
  destruct (decide (length (Message f) = 0)); [repeat split|].
  destruct (negb (Encrypted f)); [repeat split|].
  destruct (files (disk env) !! path_Join repoPath filename) as [file|].
  { destruct (owner_r file); repeat split. }
  destruct (decide (_ ∈ nocreate (disk env))); [repeat split|].
  destruct (nochmod (disk env)).
  { cbn [final disk files set_disk set_files entityList tty].
    rewrite lookup_insert_ne by congruence. repeat split. }
  destruct (nospace (disk env));
    cbn [final disk files set_disk set_files entityList tty];
    rewrite lookup_insert_ne by congruence; repeat split.
Qed.

(** X6. When [WriteFile] reports success the message was encrypted and
    non-empty, nothing existed at the path before, and the file now holds
    exactly the message under mode 0600. *)
Theorem WriteFile_success (f : PGP) (repoPath filename : string) (env env1 : Env) :
  WriteFile f repoPath filename env = Ret None env1 ->
  Encrypted f = true
  /\ Message f <> []
  /\ files (disk env) !! path_Join repoPath filename = None
  /\ files (disk env1) !! path_Join repoPath filename
     = Some {| perm := mode_0600; content := Message f |}.
Proof.
  rewrite WriteFile_run. cbv zeta.
  destruct (decide (length (Message f) = 0)) as [|Hlen]; [discriminate|].
  destruct (Encrypted f); [|discriminate]. cbn [negb].
  destruct (files (disk env) !! path_Join repoPath filename) as [file|].
  { destruct (owner_r file); discriminate. }
  destruct (decide (_ ∈ nocreate (disk env))); [discriminate|].
  destruct (nochmod (disk env)); [discriminate|].
  destruct (nospace (disk env)); [discriminate|].
  intros H. inversion H; subst; clear H.
  split; [reflexivity|].
  split; [intros E; apply Hlen; now rewrite E|].
  split; [reflexivity|].
  cbn [disk files set_disk set_files]. apply lookup_insert_eq.
Qed.

(** X7. A write that fails after the file was created returns the write
    error under "Unable to write to file: " and leaves an empty file
    behind under mode 0600, nothing else being changed; from then on
    every [WriteFile] of any valid content to that path is refused with the
    file-exists error, also once the disk has room again. *)
Theorem WriteFile_failed_write_blocks_retry (f : PGP) (repoPath filename : string)
    (env : Env) :
  Message f <> [] -> Encrypted f = true ->
  files (disk env) !! path_Join repoPath filename = None ->
  path_Join repoPath filename ∉ nocreate (disk env) ->
  nochmod (disk env) = false ->
  nospace (disk env) = true ->
  exists env1,
    env1 = set_disk
             (set_files (<[path_Join repoPath filename
                           := {| perm := mode_0600; content := [] |}]>
                           (files (disk env))) (disk env)) env
    /\ WriteFile f repoPath filename env
       = Ret (Some (Errorf "Unable to write to file: "
                      ("write " +:+ path_Join repoPath filename
                       +:+ ": no space left on device"))) env1
    /\ files (disk env1) !! path_Join repoPath filename
       = Some {| perm := mode_0600; content := [] |}
    /\ forall (f' : PGP) (env2 : Env),
         Message f' <> [] -> Encrypted f' = true ->
         files (disk env2) !! path_Join repoPath filename
         = files (disk env1) !! path_Join repoPath filename ->
         WriteFile f' repoPath filename env2 = Ret (Some FileExists) env2.
Proof.
  intros Hm He Hfresh Hdir Hch Hsp.
  assert (Hlen : length (Message f) <> 0).
  { intros E. now apply length_zero_iff_nil in E. }
  eexists. split; [reflexivity|].
  rewrite WriteFile_run. cbv zeta.
  destruct (decide (length (Message f) = 0)); [contradiction|].
  rewrite He, Hfresh, Hch, Hsp. cbn [negb].
  destruct (decide (_ ∈ nocreate (disk env))); [contradiction|].
  split; [reflexivity|].
  cbn [disk files set_disk set_files].
  split; [apply lookup_insert_eq|].
  intros f' env2 Hm' He' H2. rewrite lookup_insert_eq in H2.
  rewrite WriteFile_run. cbv zeta.
  destruct (decide (length (Message f') = 0)) as [E|_].
  { now apply length_zero_iff_nil in E. }
  rewrite He', H2. reflexivity.
Qed.

Lemma decryptSubkeys_nil_key (p : bytes) (subkeys : list Subkey) :
  Exists (fun s => sub_PrivateKey s = None) subkeys ->
  decryptSubkeys subkeys p = None.
Proof.
  induction 1 as [s rest Hs|s rest _ IH]; simpl.
  - now rewrite Hs.
  - rewrite IH. now destruct (sub_PrivateKey s).
Qed.

(** X8. A key that is not passphrase-protected is taken whatever is typed
    at the prompt, end of input included: [Keyring] succeeds and appends
    the entity with its primary key as parsed. *)
Theorem Keyring_unprotected_key (f : PGP) (env : Env) (block : Block)
    (entity : Entity) (pk : packet_PrivateKey) :
  armor_Decode (PrivateKey f) = Ok block ->
  Type_ block = PrivateKeyType ->
  openpgp_ReadEntity (Body block) = Ok entity ->
  ent_PrivateKey entity = Some pk ->
  pk_Encrypted pk = false ->
  Forall (fun s => is_Some (sub_PrivateKey s)) (ent_Subkeys entity) ->
  exists env' ent',
    Keyring f env = Ret None env'
    /\ entityList env' = entityList env ++ [ent']
    /\ ent_PrivateKey ent' = Some pk
    /\ length (ent_Subkeys ent') = length (ent_Subkeys entity).
Proof.
  intros Hb Ht He Hpk Henc Hsub.
  rewrite Keyring_run. cbv zeta. rewrite Hb, Ht, String.eqb_refl, He. cbn [negb].
  unfold decryptMain. rewrite Hpk, Henc.
  rewrite (decryptSubkeys_total _ _ Hsub).
  eexists _, _. split; [reflexivity|]. cbn [entityList set_entityList set_tty].
  split; [reflexivity|]. split; [reflexivity|].
  cbn [ent_Subkeys]. apply length_fmap.
Qed.

(** X9. Subkey failures are dropped: once the typed passphrase opens the
    primary key, [Keyring] succeeds even if subkeys are locked with
    another passphrase, and each such subkey enters the keyring still
    encrypted, exactly as parsed. *)
Theorem Keyring_tolerates_locked_subkeys (f : PGP) (env : Env) (block : Block)
    (entity : Entity) (pk : packet_PrivateKey) :
  armor_Decode (PrivateKey f) = Ok block ->
  Type_ block = PrivateKeyType ->
  openpgp_ReadEntity (Body block) = Ok entity ->
  ent_PrivateKey entity = Some pk ->
  pk_Encrypted pk = true ->
  fst (next_read (tty env)) = pk_lock pk ->
  Forall (fun s => is_Some (sub_PrivateKey s)) (ent_Subkeys entity) ->
  exists env' ent',
    Keyring f env = Ret None env'
    /\ entityList env' = entityList env ++ [ent']
    /\ (exists pk', ent_PrivateKey ent' = Some pk' /\ pk_Encrypted pk' = false)
    /\ forall i s sk,
         ent_Subkeys entity !! i = Some s ->
         sub_PrivateKey s = Some sk ->
         pk_Encrypted sk = true ->
         pk_lock sk <> pk_lock pk ->
         ent_Subkeys ent' !! i = Some s.
Proof.
  intros Hb Ht He Hpk Henc Hp Hsub.
  rewrite Keyring_run. cbv zeta. rewrite Hb, Ht, String.eqb_refl, He. cbn [negb].
  rewrite Hp.
  unfold decryptMain, PrivateKey_Decrypt. rewrite Hpk, Henc. cbn [negb].
  destruct (decide (pk_lock pk = pk_lock pk)); [|contradiction].
  rewrite (decryptSubkeys_total _ _ Hsub).
  eexists _, _. split; [reflexivity|]. cbn [entityList set_entityList set_tty].
  split; [reflexivity|].
  split; [eexists; split; reflexivity|].
  intros i s sk Hi Hs Hsenc Hlock. cbn [ent_Subkeys].
  rewrite list_lookup_fmap, Hi. cbn. rewrite Hs. cbn.
  unfold offer, PrivateKey_Decrypt. rewrite Hsenc. cbn [negb].
  destruct (decide (pk_lock pk = pk_lock sk)) as [E|_]; [now elim Hlock|].
  cbn [fst]. destruct s as [o]. cbn in Hs. now subst o.
Qed.

(** X10. A subkey that carries no private key is dereferenced all the same:
    once the primary key has been dealt with, [Keyring] panics, after its
    prompt and with the keyring as it was. *)
Theorem Keyring_panics_on_keyless_subkey (f : PGP) (env : Env) (block : Block)
    (entity : Entity) (main : option packet_PrivateKey) :
  armor_Decode (PrivateKey f) = Ok block ->
  Type_ block = PrivateKeyType ->
  openpgp_ReadEntity (Body block) = Ok entity ->
  decryptMain entity (fst (next_read (tty env))) = Ok main ->
  Exists (fun s => sub_PrivateKey s = None) (ent_Subkeys entity) ->
  Keyring f env = Crash (set_tty (prompted_once (tty env)) env).
Proof.
  intros Hb Ht He Hmain Hsub.
  rewrite Keyring_run. cbv zeta. rewrite Hb, Ht, String.eqb_refl, He, Hmain. cbn [negb].
  now rewrite (decryptSubkeys_nil_key _ _ Hsub).
Qed.


End WithLibraries.

(** Storing a key where a prompt's [Key] points and reading it back. *)
Lemma Key_store_lookup (k : Key) (pk pk' : packet_PrivateKey) (l : list Entity) :
  Key_PrivateKey k l = Some pk ->
  Key_PrivateKey k (Key_store k pk' l) = Some pk'.
Proof.
  unfold Key_PrivateKey, Key_store. rewrite list_lookup_alter_eq.
  destruct (l !! key_entity k) as [ent|]; [|discriminate]. cbn.
  destruct (key_subkey k) as [i|]; cbn; [|reflexivity].
  destruct (ent_Subkeys ent !! i) as [s|] eqn:Hi; [|discriminate].
  intros _. rewrite list_lookup_insert_eq; [reflexivity|].
  now apply lookup_lt_Some in Hi.
Qed.

Lemma Key_store_length (k : Key) (pk : packet_PrivateKey) (l : list Entity) :
  length (Key_store k pk l) = length l.
Proof. unfold Key_store. apply length_alter. Qed.

(** X12. The default prompt never reports an error, not even when no typed
    passphrase opened any key: its error result is the named result that
    nothing assigns.  It prompts at most once per key offered, leaves the
    disk alone and neither adds nor removes keyring entries. *)
Theorem passPrompt_never_errors (keys : list Key) (symmetric : bool) (env : Env) :
  match passPrompt keys symmetric env with
  | Ret (_, err) env' =>
      err = None
      /\ disk env' = disk env
      /\ length (entityList env') = length (entityList env)
      /\ exists n, n <= length keys /\ stdin (tty env') = drop n (stdin (tty env))
  | Crash _ => True
  end.
Proof.
  unfold passPrompt. revert env.
  induction keys as [|k keys IH]; intros env.
  { simpl. repeat split. exists 0. split; [lia|reflexivity]. }
  cbn [passPrompt_f]. unfold bind at 1. rewrite shellPrompt_run.
  set (p := fst (next_read (tty env))).
  set (env0 := set_tty (prompted_once (tty env)) env).
  unfold bind at 1. unfold Key_Decrypt.
  destruct (Key_PrivateKey k (entityList env0)) as [pk|]; [|exact I].
  destruct (PrivateKey_Decrypt pk p) as [pk' [err|]].
  - specialize (IH (set_entityList (Key_store k pk' (entityList env0)) env0)).
    destruct (passPrompt_f keys symmetric _) as [[pw e] env'|]; [|exact I].
    destruct IH as (He & Hd & Hl & n & Hn & Hs).
    split; [exact He|]. split; [exact Hd|].
    split.
    { rewrite Hl. cbn [entityList set_entityList]. apply Key_store_length. }
    exists (S n). split; [simpl; lia|].
    rewrite Hs. cbn [tty set_entityList]. unfold env0.
    cbn [tty set_tty prompted_once stdin].
    destruct (stdin (tty env)); simpl; [now rewrite !drop_nil|reflexivity].
  - unfold ret. split; [reflexivity|]. split; [reflexivity|].
    split.
    { cbn [entityList set_entityList]. apply Key_store_length. }
    exists 1. split; [simpl; lia|].
    cbn [tty set_entityList]. unfold env0. cbn [tty set_tty prompted_once stdin].
    now destruct (stdin (tty env)).
Qed.

(** X13. The default prompt stops at the first key the typed passphrase
    opens: it returns that passphrase after a single prompt, and the key
    it was handed, which lives in the session keyring, is left
    decrypted there. *)
Theorem passPrompt_first_key_opens (k : Key) (keys : list Key) (symmetric : bool)
    (env : Env) (pk : packet_PrivateKey) :
  Key_PrivateKey k (entityList env) = Some pk ->
  pk_Encrypted pk = true ->
  fst (next_read (tty env)) = pk_lock pk ->
  exists env',
    passPrompt (k :: keys) symmetric env = Ret (pk_lock pk, None) env'
    /\ tty env' = prompted_once (tty env)
    /\ Key_PrivateKey k (entityList env')
       = Some {| pk_KeyId := pk_KeyId pk; pk_Encrypted := false; pk_lock := pk_lock pk |}.
Proof.
  intros Hk Henc Hp.
  unfold passPrompt. cbn [passPrompt_f]. unfold bind at 1. rewrite shellPrompt_run.
  rewrite Hp. unfold bind at 1. unfold Key_Decrypt.
  cbn [entityList set_tty]. rewrite Hk.
  unfold PrivateKey_Decrypt. rewrite Henc. cbn [negb].
  destruct (decide (pk_lock pk = pk_lock pk)); [|contradiction].
  eexists. split; [reflexivity|].
  cbn [tty set_entityList set_tty entityList].
  split; [reflexivity|]. now apply (Key_store_lookup k pk).
Qed.

End EncryptMore.

(** ** Further properties of package git *)

Module GitMore.
Import Git GitFacts.

Lemma heads_IsBranch (s : string) : IsBranch ("refs/heads/" +:+ s) = true.
Proof. unfold IsBranch. cbn. now destruct s. Qed.

Lemma heads_not_IsTag (s : string) : IsTag ("refs/heads/" +:+ s) = false.
Proof. reflexivity. Qed.

Lemma tags_IsTag (s : string) : IsTag ("refs/tags/" +:+ s) = true.
Proof. unfold IsTag. cbn. now destruct s. Qed.

Lemma heads_nonempty (s : string) : String.eqb ("refs/heads/" +:+ s) "" = false.
Proof. reflexivity. Qed.

Lemma heads_not_HEAD (s : string) : "refs/heads/" +:+ s <> HEAD.
Proof. discriminate. Qed.

Lemma tags_not_heads (s t : string) : "refs/tags/" +:+ s <> "refs/heads/" +:+ t.
Proof. discriminate. Qed.

Lemma tags_not_HEAD (s : string) : "refs/tags/" +:+ s <> HEAD.
Proof. discriminate. Qed.

(** The repository once the worktree is on branch [name] at commit [h]
    with tree [c]: HEAD points at the branch, index and tracked files are
    the commit's, untracked files stay. *)
Definition checked_out (name : string) (h : Hash) (c : object_Commit)
    (g : git_Repository) : git_Repository :=
  set_worktree (Tree c ∪ filter (fun kv => index g !! kv.1 = None) (files g))
    (set_index (Tree c)
       (set_refs (<[name := NewHashReference name h]>
                    (<[HEAD := NewSymbolicReference HEAD name]> (refs g))) g)).

Lemma Head_on_branch (g : git_Repository) (name : string) (h : Hash) :
  refs g !! HEAD = Some (NewSymbolicReference HEAD name) ->
  refs g !! name = Some (NewHashReference name h) ->
  Repository_Head g = Ok (NewHashReference name h).
Proof.
  intros Hhead Hname.
  unfold Repository_Head, Repository_Reference, Storer_Reference.
  rewrite Hhead. unfold MaxResolveRecursion.
  cbn [resolveReference NewSymbolicReference ref_Type ref_Target].
  destruct (decide (SymbolicReference = SymbolicReference)); [|contradiction].
  unfold Storer_Reference. rewrite Hname.
  cbn [resolveReference NewHashReference ref_Type].
  destruct (decide (HashReference = SymbolicReference)); [discriminate|reflexivity].
Qed.

Lemma Head_unborn (g : git_Repository) (name : string) :
  refs g !! HEAD = Some (NewSymbolicReference HEAD name) ->
  refs g !! name = None ->
  Repository_Head g = Fail ErrReferenceNotFound.
Proof.
  intros Hhead Hname.
  unfold Repository_Head, Repository_Reference, Storer_Reference.
  rewrite Hhead. unfold MaxResolveRecursion.
  cbn [resolveReference NewSymbolicReference ref_Type ref_Target].
  destruct (decide (SymbolicReference = SymbolicReference)); [|contradiction].
  unfold Storer_Reference. rewrite Hname. reflexivity.
Qed.

(** [Reset] onto a branch HEAD already points at. *)
Lemma Reset_on_branch (g : git_Repository) (name : string) (h : Hash) (c : object_Commit) :
  readonly g = false ->
  containsUnstagedChanges g = false ->
  IsBranch name = true ->
  refs g !! HEAD = Some (NewSymbolicReference HEAD name) ->
  refs g !! name = Some (NewHashReference name h) ->
  objects g !! h = Some c ->
  Worktree_Reset h g
  = (None,
     set_worktree (Tree c ∪ filter (fun kv => index g !! kv.1 = None) (files g))
       (set_index (Tree c)
          (set_refs (<[name := NewHashReference name h]> (refs g)) g))).
Proof.
  intros Hrw Hclean Hbr Hhead Hname Hobj.
  unfold Worktree_Reset. rewrite Hclean.
  unfold setHEADCommit, Repository_Reference, Storer_Reference.
  rewrite Hhead. cbn [ref_Type ref_Target NewSymbolicReference].
  destruct (decide (SymbolicReference = HashReference)); [discriminate|].
  rewrite Hname. cbn [NewHashReference ref_Name]. rewrite Hbr. cbn [negb].
  unfold Storer_SetReference. rewrite Hrw. cbn [ref_Name].
  unfold Repository_CommitObject. cbn [objects set_refs]. rewrite Hobj.
  reflexivity.
Qed.

(** [Checkout] creating branch [name] at a given commit. *)
Lemma Checkout_create_at (g : git_Repository) (name : string) (h : Hash)
    (c : object_Commit) :
  readonly g = false ->
  containsUnstagedChanges g = false ->
  IsZero h = false ->
  String.eqb name "" = false ->
  IsBranch name = true ->
  name <> HEAD ->
  refs g !! name = None ->
  objects g !! h = Some c ->
  Worktree_Checkout {| co_Hash := h; co_Branch := name;
                       co_Create := true; co_Force := false |} g
  = (None, checked_out name h c g).
Proof.
  intros Hrw Hclean Hnz Hne Hbr Hhd Hfresh Hobj.
  unfold Worktree_Checkout, CheckoutOptions_Validate.
  cbn [co_Create co_Hash co_Branch co_Force negb andb]. rewrite Hne.
  unfold createBranch. cbn [co_Create co_Hash co_Branch co_Force].
  unfold Storer_Reference at 1. rewrite Hfresh, Hnz.
  unfold Storer_SetReference at 1. rewrite Hrw. cbn [ref_Name NewHashReference].
  unfold getCommitFromCheckoutOptions. cbn [co_Hash co_Branch co_Create]. rewrite Hnz.
  cbn [negb andb].
  unfold setHEADToBranch, Storer_Reference. cbn [refs set_refs].
  rewrite lookup_insert_eq. cbn [ref_Name NewHashReference]. rewrite Hbr.
  unfold Storer_SetReference at 1. cbn [readonly set_refs]. rewrite Hrw.
  cbn [ref_Name NewSymbolicReference refs set_refs].
  rewrite (Reset_on_branch _ name h c); try assumption.
  - unfold checked_out. cbn [refs set_refs index files set_index set_worktree].
    do 3 f_equal.
    rewrite (insert_insert_ne _ HEAD name) by congruence.
    now rewrite insert_insert_eq.
  - cbn [refs set_refs]. apply lookup_insert_eq.
  - cbn [refs set_refs]. rewrite lookup_insert_ne by congruence. apply lookup_insert_eq.
Qed.

(** [Checkout] switching onto an existing branch. *)
Lemma Checkout_switch (g : git_Repository) (name : string) (h : Hash)
    (c : object_Commit) :
  readonly g = false ->
  containsUnstagedChanges g = false ->
  String.eqb name "" = false ->
  IsBranch name = true ->
  IsTag name = false ->
  name <> HEAD ->
  refs g !! name = Some (NewHashReference name h) ->
  objects g !! h = Some c ->
  Worktree_Checkout {| co_Hash := ZeroHash; co_Branch := name;
                       co_Create := false; co_Force := false |} g
  = (None, checked_out name h c g).
Proof.
  intros Hrw Hclean Hne Hbr Htag Hhd Hname Hobj.
  unfold Worktree_Checkout, CheckoutOptions_Validate.
  cbn [co_Create co_Hash co_Branch co_Force negb andb].
  change (IsZero ZeroHash) with true. cbn [negb andb]. rewrite Hne.
  unfold getCommitFromCheckoutOptions. cbn [co_Hash co_Branch co_Create].
  change (IsZero ZeroHash) with true. cbn [negb andb].
  unfold Repository_Reference, Storer_Reference at 1. rewrite Hname.
  unfold MaxResolveRecursion. cbn [resolveReference NewHashReference ref_Type].
  destruct (decide (HashReference = SymbolicReference)); [discriminate|].
  cbn [ref_Name ref_Hash NewHashReference]. rewrite Htag. cbn [negb].
  unfold setHEADToBranch, Storer_Reference. rewrite Hname.
  cbn [ref_Name NewHashReference]. rewrite Hbr.
  unfold Storer_SetReference at 1. rewrite Hrw.
  cbn [ref_Name NewSymbolicReference].
  rewrite (Reset_on_branch _ name h c); try assumption.
  - reflexivity.
  - cbn [refs set_refs]. apply lookup_insert_eq.
  - cbn [refs set_refs]. rewrite lookup_insert_ne by congruence. exact Hname.
Qed.

(** [Checkout] asked to create a branch that exists: refused, nothing
    changes. *)
Lemma Checkout_create_existing (g : git_Repository) (name : string) (h : Hash)
    (r : Reference) :
  String.eqb name "" = false ->
  refs g !! name = Some r ->
  Worktree_Checkout {| co_Hash := h; co_Branch := name;
                       co_Create := true; co_Force := false |} g
  = (Some ("a branch named " +:+ quote +:+ name +:+ quote +:+ " already exists"), g).
Proof.
  intros Hne Hname.
  unfold Worktree_Checkout, CheckoutOptions_Validate.
  cbn [co_Create co_Hash co_Branch co_Force negb andb]. rewrite Hne.
  unfold createBranch. cbn [co_Create co_Hash co_Branch co_Force].
  unfold Storer_Reference. rewrite Hname. reflexivity.
Qed.

(** [Checkout] asked to switch onto a branch that does not exist. *)
Lemma Checkout_switch_missing (g : git_Repository) (name : string) :
  String.eqb name "" = false ->
  refs g !! name = None ->
  Worktree_Checkout {| co_Hash := ZeroHash; co_Branch := name;
                       co_Create := false; co_Force := false |} g
  = (Some ErrReferenceNotFound, g).
Proof.
  intros Hne Hname.
  unfold Worktree_Checkout, CheckoutOptions_Validate.
  cbn [co_Create co_Hash co_Branch co_Force negb andb].
  change (IsZero ZeroHash) with true. cbn [negb andb]. rewrite Hne.
  cbn [co_Create co_Hash co_Branch co_Force].
  unfold getCommitFromCheckoutOptions. cbn [co_Hash co_Branch co_Create].
  change (IsZero ZeroHash) with true. cbn [negb andb].
  unfold Repository_Reference, Storer_Reference. rewrite Hname. reflexivity.
Qed.

(** [Checkout] asked to create a branch at HEAD while HEAD points at a
    branch that has no commit yet. *)
Lemma Checkout_create_unborn (g : git_Repository) (name cur : string) :
  String.eqb name "" = false ->
  refs g !! name = None ->
  refs g !! HEAD = Some (NewSymbolicReference HEAD cur) ->
  refs g !! cur = None ->
  Worktree_Checkout {| co_Hash := ZeroHash; co_Branch := name;
                       co_Create := true; co_Force := false |} g
  = (Some ErrReferenceNotFound, g).
Proof.
  intros Hne Hname Hhead Hcur.
  unfold Worktree_Checkout, CheckoutOptions_Validate.
  cbn [co_Create co_Hash co_Branch co_Force negb andb]. rewrite Hne.
  cbn [co_Create co_Hash co_Branch co_Force].
  unfold createBranch. cbn [co_Create co_Hash co_Branch co_Force].
  unfold Storer_Reference at 1. rewrite Hname.
  change (IsZero ZeroHash) with true. cbv iota.
  rewrite (Head_unborn g cur Hhead Hcur). reflexivity.
Qed.

(** The receiver with the repository behind [root] replaced. *)
Definition world_with (w : World) (g : git_Repository) : World :=
  {| this := {| Path := Path (this w); root := Some g |}; clock := clock w |}.

Lemma world_with_same (w : World) (g : git_Repository) :
  root (this w) = Some g -> world_with w g = w.
Proof. destruct w as [[pth rt] clk]. cbn. intros ->. reflexivity. Qed.

Lemma on_root_run {A} (f : git_Repository -> A * git_Repository) (w : World)
    (g : git_Repository) :
  root (this w) = Some g ->
  on_root f w = Ret (fst (f g)) (world_with w (snd (f g))).
Proof. intros H. unfold on_root. rewrite H. now destruct (f g). Qed.

Lemma checked_out_facts (name : string) (h : Hash) (c : object_Commit)
    (g : git_Repository) :
  name <> HEAD ->
  refs (checked_out name h c g) !! name = Some (NewHashReference name h)
  /\ refs (checked_out name h c g) !! HEAD = Some (NewSymbolicReference HEAD name)
  /\ (forall n, n <> name -> n <> HEAD -> refs (checked_out name h c g) !! n = refs g !! n)
  /\ objects (checked_out name h c g) = objects g
  /\ index (checked_out name h c g) = Tree c.
Proof.
  intros Hhd. unfold checked_out. cbn [refs objects index set_refs set_index set_worktree].
  split; [apply lookup_insert_eq|].
  split; [rewrite lookup_insert_ne by congruence; apply lookup_insert_eq|].
  split; [|split; reflexivity].
  intros n Hn Hn'. now rewrite !lookup_insert_ne by congruence.
Qed.

Definition already_exists (name : string) : error :=
  Errorf "Unable to create a new branch: "
    ("a branch named " +:+ quote +:+ name +:+ quote +:+ " already exists").

(** The two folds of [ListBranches] and [BranchExists] over one list of
    references. *)
Lemma foldl_listed (l : list Reference) (acc : list string) (x : string) :
  x ∈ foldl (fun (b : list string) ref =>
               if decide (ref_Type ref = HashReference) then
                 if IsBranch (ref_Name ref) then b ++ [Short (ref_Name ref)] else b
               else b) acc l
  <-> x ∈ acc
      \/ exists ref, ref ∈ l /\ ref_Type ref = HashReference
                     /\ IsBranch (ref_Name ref) = true /\ Short (ref_Name ref) = x.
Proof.
  revert acc. induction l as [|r l IH]; intros acc; simpl.
  - split; [auto|]. intros [H|(ref & Hin & _)]; [exact H|]. now apply elem_of_nil in Hin.
  - rewrite IH. split.
    + intros [H|(ref & Hin & Hrest)].
      * destruct (decide (ref_Type r = HashReference)) as [Ht|]; [|auto].
        destruct (IsBranch (ref_Name r)) eqn:Hb; [|auto].
        apply elem_of_app in H as [H|H]; [auto|].
        apply list_elem_of_singleton in H. right. exists r.
        split; [apply list_elem_of_here|]. auto.
      * right. exists ref. split; [now apply list_elem_of_further|exact Hrest].
    + intros [H|(ref & Hin & Ht & Hb & Hs)].
      * left. destruct (decide (ref_Type r = HashReference)); [|exact H].
        destruct (IsBranch (ref_Name r)); [|exact H]. apply elem_of_app. auto.
      * apply elem_of_cons in Hin as [->|Hin].
        -- left. destruct (decide (ref_Type r = HashReference)); [|contradiction].
           rewrite Hb. apply elem_of_app. right. now apply list_elem_of_singleton.
        -- right. exists ref. auto.
Qed.

Lemma foldl_exists (n : string) (l : list Reference) (b : bool) :
  foldl (fun (b : bool) ref =>
           if decide (ref_Type ref = HashReference) then
             if IsBranch (ref_Name ref) && String.eqb (Short (ref_Name ref)) n
             then true else b
           else b) b l = true
  <-> b = true
      \/ exists ref, ref ∈ l /\ ref_Type ref = HashReference
                     /\ IsBranch (ref_Name ref) = true /\ Short (ref_Name ref) = n.
Proof.
  revert b. induction l as [|r l IH]; intros b; simpl.
  - split; [auto|]. intros [H|(ref & Hin & _)]; [exact H|]. now apply elem_of_nil in Hin.
  - rewrite IH. split.
    + intros [H|(ref & Hin & Hrest)].
      * destruct (decide (ref_Type r = HashReference)) as [Ht|]; [|auto].
        destruct (IsBranch (ref_Name r)) eqn:Hb; [|auto]. cbn [andb] in H.
        destruct (String.eqb (Short (ref_Name r)) n) eqn:Hs; [|auto].
        apply String.eqb_eq in Hs. right. exists r.
        split; [apply list_elem_of_here|]. auto.
      * right. exists ref. split; [now apply list_elem_of_further|exact Hrest].
    + intros [H|(ref & Hin & Ht & Hb & Hs)].
      * left. subst b. destruct (decide (ref_Type r = HashReference)); [|reflexivity].
        now destruct (IsBranch (ref_Name r) && String.eqb (Short (ref_Name r)) n).
      * apply elem_of_cons in Hin as [->|Hin].
        -- left. destruct (decide (ref_Type r = HashReference)); [|contradiction].
           apply String.eqb_eq in Hs. now rewrite Hb, Hs.
        -- right. exists ref. auto.
Qed.

(** A branch name without white space is what [Short] gives back for
    its reference, slashes included. *)
Lemma Short_heads (s : string) :
  s <> "" -> token (skip_space s) = s ->
  Short ("refs/heads/" +:+ s) = s.
Proof.
  intros Hne Htok.
  assert (Hs : token s = s /\ skip_space s = s).
  { destruct s as [|c s']; [now elim Hne|].
    cbn in Htok |- *. destruct (is_space c) eqn:Hc.
    - exfalso. clear Hne.
      assert (Hhead : forall t c', token (skip_space t) = String c' s' ->
                is_space c' = false).
      { induction t as [|d t IH]; intros c' H; cbn in H; [discriminate|].
        destruct (is_space d) eqn:Hd; [now apply IH|].
        cbn in H. rewrite Hd in H. now inversion H; subst. }
      specialize (Hhead s' c Htok). congruence.
    - cbn in Htok. rewrite Hc in Htok. now split. }
  destruct Hs as [Ht Hsk].
  unfold Short, RefRevParseRules. cbn [foldl].
  unfold Sscanf_s, String.append.
  cbn -[token skip_space].
  rewrite Htok.
  destruct s; [now elim Hne|reflexivity].
Qed.

(** X14. [ListBranches] returns exactly the short names of the hash
    references stored under "refs/heads/", and [BranchExists n] is true
    exactly when [n] is one of them; the short name of a branch is its
    reference name without "refs/heads/", slashes kept, so every branch
    stored under its own name is listed under that name. *)
Theorem BranchExists_iff_listed (w : World) (g : git_Repository) (n : string) :
  root (this w) = Some g ->
  refs_unreadable g = false ->
  exists l b,
    ListBranches w = Ret l w
    /\ BranchExists n w = Ret b w
    /\ (b = true <-> n ∈ l)
    /\ (forall x, x ∈ l <->
         exists key ref, refs g !! key = Some ref
                         /\ ref_Type ref = HashReference
                         /\ IsBranch (ref_Name ref) = true
                         /\ Short (ref_Name ref) = x)
    /\ (forall s h,
         s <> "" -> token (skip_space s) = s ->
         refs g !! ("refs/heads/" +:+ s)
         = Some (NewHashReference ("refs/heads/" +:+ s) h) ->
         s ∈ l).
Proof.
  intros Hroot Hok.
  unfold ListBranches, BranchExists, References_ForEach, bind, root_,
    Repository_References, ret.
  rewrite Hroot, Hok. eexists _, _.
  split; [reflexivity|]. split; [reflexivity|].
  set (it := snd <$> map_to_list (refs g)).
  assert (Hit : forall ref, ref ∈ it <-> exists key, refs g !! key = Some ref).
  { intros ref. unfold it. rewrite list_elem_of_fmap. split.
    - intros ([key r] & -> & Hin). exists key. now apply elem_of_map_to_list.
    - intros [key Hk]. exists (key, ref). split; [reflexivity|].
      now apply elem_of_map_to_list. }
  assert (Hall : forall x,
            x ∈ foldl (fun (b : list string) ref =>
                         if decide (ref_Type ref = HashReference) then
                           if IsBranch (ref_Name ref)
                           then b ++ [Short (ref_Name ref)] else b
                         else b) [] it
            <-> exists key ref, refs g !! key = Some ref
                                /\ ref_Type ref = HashReference
                                /\ IsBranch (ref_Name ref) = true
                                /\ Short (ref_Name ref) = x).
  { intros x. rewrite foldl_listed. split.
    + intros [H|(ref & Hin & Hrest)]; [now apply elem_of_nil in H|].
      apply Hit in Hin as [key Hk]. exists key, ref. auto.
    + intros (key & ref & Hk & Hrest). right. exists ref.
      split; [apply Hit; eauto|exact Hrest]. }
  split; [|split; [exact Hall|]].
  - rewrite foldl_exists, foldl_listed. split.
    + intros [H|H]; [discriminate|auto].
    + intros [H|H]; [now apply elem_of_nil in H|auto].
  - intros s h Hne Htok Hs. apply Hall.
    exists ("refs/heads/" +:+ s), (NewHashReference ("refs/heads/" +:+ s) h).
    split; [exact Hs|]. split; [reflexivity|].
    split; [apply heads_IsBranch|]. now apply Short_heads.
Qed.

Section WithHasher.
Context {hasher : ObjectHasher}.

(** X15. No operation that creates a branch overwrites one: when
    "refs/heads/<name>" exists, [CreateBranch], [CreateOrphanBranch] and
    [TagBranch] with [create] each return the already-exists error and
    leave the repository exactly as it was. *)
Theorem create_refuses_existing_branch (w : World) (g : git_Repository)
    (name : string) (r : Reference) :
  root (this w) = Some g ->
  bare g = false ->
  refs g !! ("refs/heads/" +:+ name) = Some r ->
  (forall origin ref,
      refs g !! ("refs/heads/" +:+ origin) = Some ref ->
      CreateBranch origin name w
      = Ret (Some (already_exists ("refs/heads/" +:+ name))) w)
  /\ (forall u,
      CreateOrphanBranch u name w
      = Ret (Some (already_exists ("refs/heads/" +:+ name))) w)
  /\ (forall tagref,
      refs g !! ("refs/tags/" +:+ name) = Some tagref ->
      TagBranch name true w
      = Ret (Some (already_exists ("refs/heads/" +:+ name))) w).
Proof.
  intros Hroot Hbare Hname.
  assert (Hco : forall h,
            on_root (Worktree_Checkout {| co_Hash := h; co_Branch := "refs/heads/" +:+ name;
                                          co_Create := true; co_Force := false |}) w
            = Ret (Some ("a branch named " +:+ quote +:+ ("refs/heads/" +:+ name)
                           +:+ quote +:+ " already exists")) w).
  { intros h. rewrite (on_root_run _ w g Hroot).
    rewrite (Checkout_create_existing g _ h r (heads_nonempty name) Hname).
    cbn [fst snd]. now rewrite (world_with_same w g Hroot). }
  split; [|split].
  - intros origin ref Horigin.
    unfold CreateBranch, bind at 1, root_. rewrite Hroot.
    unfold Repository_Worktree. rewrite Hbare.
    unfold Repository_Reference, Storer_Reference. rewrite Horigin.
    unfold bind. rewrite Hco. reflexivity.
  - intros u.
    unfold CreateOrphanBranch, bind at 1, root_. rewrite Hroot.
    unfold Repository_Worktree. rewrite Hbare.
    unfold bind. rewrite Hco. reflexivity.
  - intros tagref Htag.
    unfold TagBranch, bind at 1, root_. rewrite Hroot.
    unfold Repository_Reference, Storer_Reference. rewrite Htag.
    unfold Repository_Worktree. rewrite Hbare.
    unfold bind. rewrite Hco. reflexivity.
Qed.

(** X16. [CreateBranch] on a clean worktree: the new branch points at the
    tip of the origin branch and is checked out (HEAD is a symbolic
    reference to it, the index holds that commit's tree); every other
    reference, the origin included, and the object store are as
    before. *)
Theorem CreateBranch_creates (w : World) (g : git_Repository) (origin new : string)
    (ref : Reference) (c : object_Commit) :
  root (this w) = Some g ->
  bare g = false ->
  readonly g = false ->
  containsUnstagedChanges g = false ->
  refs g !! ("refs/heads/" +:+ origin) = Some ref ->
  IsZero (ref_Hash ref) = false ->
  objects g !! ref_Hash ref = Some c ->
  refs g !! ("refs/heads/" +:+ new) = None ->
  exists g1,
    CreateBranch origin new w = Ret None (world_with w g1)
    /\ refs g1 !! ("refs/heads/" +:+ new)
       = Some (NewHashReference ("refs/heads/" +:+ new) (ref_Hash ref))
    /\ refs g1 !! HEAD = Some (NewSymbolicReference HEAD ("refs/heads/" +:+ new))
    /\ refs g1 !! ("refs/heads/" +:+ origin) = Some ref
    /\ (forall n, n <> "refs/heads/" +:+ new -> n <> HEAD -> refs g1 !! n = refs g !! n)
    /\ objects g1 = objects g
    /\ index g1 = Tree c.
Proof.
  intros Hroot Hbare Hrw Hclean Horigin Hnz Hobj Hfresh.
  exists (checked_out ("refs/heads/" +:+ new) (ref_Hash ref) c g).
  destruct (checked_out_facts ("refs/heads/" +:+ new) (ref_Hash ref) c g
              (heads_not_HEAD new)) as (F1 & F2 & F3 & F4 & F5).
  split.
  { unfold CreateBranch, bind at 1, root_. rewrite Hroot.
    unfold Repository_Worktree. rewrite Hbare.
    unfold Repository_Reference, Storer_Reference. rewrite Horigin.
    unfold bind. rewrite (on_root_run _ w g Hroot).
    rewrite (Checkout_create_at g _ (ref_Hash ref) c Hrw Hclean Hnz
               (heads_nonempty new) (heads_IsBranch new) (heads_not_HEAD new)
               Hfresh Hobj).
    reflexivity. }
  split; [exact F1|]. split; [exact F2|].
  split; [|split; [exact F3|split; [exact F4|exact F5]]].
  rewrite F3; [exact Horigin| |].
  - intros E. rewrite E, Hfresh in Horigin. discriminate.
  - intros E. apply (heads_not_HEAD origin). exact E.
Qed.

(** [CreateBranch] from a branch that does not exist returns the
    not-found error as it is and changes nothing. *)
Theorem CreateBranch_missing_origin (w : World) (g : git_Repository) (origin new : string) :
  root (this w) = Some g ->
  bare g = false ->
  refs g !! ("refs/heads/" +:+ origin) = None ->
  CreateBranch origin new w = Ret (Some ErrReferenceNotFound) w.
Proof.
  intros Hroot Hbare Horigin.
  unfold CreateBranch, bind at 1, root_. rewrite Hroot.
  unfold Repository_Worktree. rewrite Hbare.
  unfold Repository_Reference, Storer_Reference. rewrite Horigin. reflexivity.
Qed.

(** X17. [TagBranch] with [create] on a tag stored under "refs/tags": the
    branch of the same name is created at the tag's commit and checked
    out; the tag and all other references stay. *)
Theorem TagBranch_promotes_tag (w : World) (g : git_Repository) (s : string)
    (tagref : Reference) (c : object_Commit) :
  root (this w) = Some g ->
  bare g = false ->
  readonly g = false ->
  containsUnstagedChanges g = false ->
  refs g !! ("refs/tags/" +:+ s) = Some tagref ->
  IsZero (ref_Hash tagref) = false ->
  objects g !! ref_Hash tagref = Some c ->
  refs g !! ("refs/heads/" +:+ s) = None ->
  exists g1,
    TagBranch s true w = Ret None (world_with w g1)
    /\ refs g1 !! ("refs/heads/" +:+ s)
       = Some (NewHashReference ("refs/heads/" +:+ s) (ref_Hash tagref))
    /\ refs g1 !! HEAD = Some (NewSymbolicReference HEAD ("refs/heads/" +:+ s))
    /\ refs g1 !! ("refs/tags/" +:+ s) = Some tagref
    /\ (forall n, n <> "refs/heads/" +:+ s -> n <> HEAD -> refs g1 !! n = refs g !! n)
    /\ index g1 = Tree c.
Proof.
  intros Hroot Hbare Hrw Hclean Htag Hnz Hobj Hfresh.
  exists (checked_out ("refs/heads/" +:+ s) (ref_Hash tagref) c g).
  destruct (checked_out_facts ("refs/heads/" +:+ s) (ref_Hash tagref) c g
              (heads_not_HEAD s)) as (F1 & F2 & F3 & F4 & F5).
  split.
  { unfold TagBranch, bind at 1, root_. rewrite Hroot.
    unfold Repository_Reference, Storer_Reference. rewrite Htag.
    unfold Repository_Worktree. rewrite Hbare.
    unfold bind. rewrite (on_root_run _ w g Hroot).
    rewrite (Checkout_create_at g _ (ref_Hash tagref) c Hrw Hclean Hnz
               (heads_nonempty s) (heads_IsBranch s) (heads_not_HEAD s)
               Hfresh Hobj).
    reflexivity. }
  split; [exact F1|]. split; [exact F2|].
  split; [|split; [exact F3|exact F5]].
  rewrite F3; [exact Htag|apply tags_not_heads|apply tags_not_HEAD].
Qed.

(** X18. [TagBranch] without [create] cannot switch onto anything: it hands
    [Checkout] both the tag's hash and the branch name, which [Checkout]
    rejects as mutually exclusive, so for every stored tag the call fails
    and the repository is untouched. *)
Theorem TagBranch_switch_always_fails (w : World) (g : git_Repository) (s : string)
    (tagref : Reference) :
  root (this w) = Some g ->
  bare g = false ->
  refs g !! ("refs/tags/" +:+ s) = Some tagref ->
  IsZero (ref_Hash tagref) = false ->
  TagBranch s false w
  = Ret (Some (Errorf "Unable to create a new branch: " ErrBranchHashExclusive)) w.
Proof.
  intros Hroot Hbare Htag Hnz.
  unfold TagBranch, bind at 1, root_. rewrite Hroot.
  unfold Repository_Reference, Storer_Reference. rewrite Htag.
  unfold Repository_Worktree. rewrite Hbare.
  unfold bind. rewrite (on_root_run _ w g Hroot).
  unfold Worktree_Checkout, CheckoutOptions_Validate.
  cbn [co_Create co_Hash co_Branch co_Force negb andb]. rewrite Hnz.
  rewrite heads_nonempty. cbn [negb andb fst snd].
  now rewrite (world_with_same w g Hroot).
Qed.

(** X19. Tag promotion as the code supports it: when [AddTagBranch] is given
    the full reference name "refs/tags/<s>", a following [TagBranch s]
    with [create] finds the tag and yields branch <s> at the tip of the
    tagged branch, which itself is unchanged. *)
Theorem AddTagBranch_full_name_then_TagBranch (w : World) (g : git_Repository)
    (s b : string) (ref : Reference) (c : object_Commit) :
  root (this w) = Some g ->
  bare g = false ->
  readonly g = false ->
  containsUnstagedChanges g = false ->
  refs g !! ("refs/heads/" +:+ b) = Some ref ->
  IsZero (ref_Hash ref) = false ->
  objects g !! ref_Hash ref = Some c ->
  refs g !! ("refs/heads/" +:+ s) = None ->
  exists w1 g2,
    AddTagBranch ("refs/tags/" +:+ s) b w = Ret None w1
    /\ TagBranch s true w1 = Ret None (world_with w g2)
    /\ refs g2 !! ("refs/heads/" +:+ s)
       = Some (NewHashReference ("refs/heads/" +:+ s) (ref_Hash ref))
    /\ refs g2 !! ("refs/tags/" +:+ s)
       = Some (NewHashReference ("refs/tags/" +:+ s) (ref_Hash ref))
    /\ refs g2 !! ("refs/heads/" +:+ b) = Some ref
    /\ refs g2 !! HEAD = Some (NewSymbolicReference HEAD ("refs/heads/" +:+ s)).
Proof.
  intros Hroot Hbare Hrw Hclean Hb Hnz Hobj Hfresh.
  set (tag := "refs/tags/" +:+ s).
  set (g1 := set_refs (<[tag := NewHashReference tag (ref_Hash ref)]> (refs g)) g).
  assert (Htag : refs g1 !! tag = Some (NewHashReference tag (ref_Hash ref)))
    by apply lookup_insert_eq.
  assert (Hfresh1 : refs g1 !! ("refs/heads/" +:+ s) = None).
  { unfold g1. cbn [refs set_refs].
    rewrite lookup_insert_ne by apply tags_not_heads. exact Hfresh. }
  destruct (checked_out_facts ("refs/heads/" +:+ s) (ref_Hash ref) c g1
              (heads_not_HEAD s)) as (F1 & F2 & F3 & F4 & F5).
  exists (world_with w g1), (checked_out ("refs/heads/" +:+ s) (ref_Hash ref) c g1).
  split; [exact (AddTagBranch_run tag b w g ref c Hroot Hb Hobj Hrw)|].
  split.
  { unfold TagBranch, bind at 1, root_. cbn [world_with this root].
    unfold Repository_Reference, Storer_Reference. fold tag. rewrite Htag.
    unfold Repository_Worktree. change (bare g1) with (bare g). rewrite Hbare.
    unfold bind. rewrite (on_root_run _ (world_with w g1) g1 eq_refl).
    cbn [NewHashReference ref_Hash].
    rewrite (Checkout_create_at g1 _ (ref_Hash ref) c Hrw Hclean Hnz
               (heads_nonempty s) (heads_IsBranch s) (heads_not_HEAD s)
               Hfresh1 Hobj).
    reflexivity. }
  split; [exact F1|].
  split; [rewrite F3; [exact Htag|apply tags_not_heads|apply tags_not_HEAD]|].
  split; [|exact F2].
  rewrite F3.
  - unfold g1. cbn [refs set_refs].
    rewrite lookup_insert_ne; [exact Hb|apply tags_not_heads].
  - intros E. rewrite E, Hfresh in Hb. discriminate.
  - apply heads_not_HEAD.
Qed.

(** X20. [CheckoutBranch] does not create: for a branch that does not exist
    it returns the wrapped not-found error and leaves the repository,
    HEAD included, as it was. *)
Theorem CheckoutBranch_missing_branch (w : World) (g : git_Repository) (s : string) :
  root (this w) = Some g ->
  bare g = false ->
  refs g !! ("refs/heads/" +:+ s) = None ->
  CheckoutBranch s w
  = Ret (Some (Errorf "Unable to checkout branch: " ErrReferenceNotFound)) w.
Proof.
  intros Hroot Hbare Hname.
  unfold CheckoutBranch, bind at 1, root_. rewrite Hroot.
  unfold Repository_Worktree. rewrite Hbare.
  unfold bind. rewrite (on_root_run _ w g Hroot).
  rewrite (Checkout_switch_missing g _ (heads_nonempty s) Hname).
  cbn [fst snd]. now rewrite (world_with_same w g Hroot).
Qed.

(** X21. [CheckoutBranch] on an existing branch and a clean worktree moves
    HEAD onto the branch and loads its tree into the index; the branch
    keeps its tip, and no other reference or object changes. *)
Theorem CheckoutBranch_switches (w : World) (g : git_Repository) (s : string)
    (h : Hash) (c : object_Commit) :
  root (this w) = Some g ->
  bare g = false ->
  readonly g = false ->
  containsUnstagedChanges g = false ->
  refs g !! ("refs/heads/" +:+ s)
  = Some (NewHashReference ("refs/heads/" +:+ s) h) ->
  objects g !! h = Some c ->
  exists g1,
    CheckoutBranch s w = Ret None (world_with w g1)
    /\ refs g1 !! HEAD = Some (NewSymbolicReference HEAD ("refs/heads/" +:+ s))
    /\ (forall n, n <> HEAD -> refs g1 !! n = refs g !! n)
    /\ objects g1 = objects g
    /\ index g1 = Tree c.
Proof.
  intros Hroot Hbare Hrw Hclean Hname Hobj.
  exists (checked_out ("refs/heads/" +:+ s) h c g).
  destruct (checked_out_facts ("refs/heads/" +:+ s) h c g (heads_not_HEAD s))
    as (F1 & F2 & F3 & F4 & F5).
  split.
  { unfold CheckoutBranch, bind at 1, root_. rewrite Hroot.
    unfold Repository_Worktree. rewrite Hbare.
    unfold bind. rewrite (on_root_run _ w g Hroot).
    rewrite (Checkout_switch g _ h c Hrw Hclean (heads_nonempty s) (heads_IsBranch s)
               (heads_not_IsTag s) (heads_not_HEAD s) Hname Hobj).
    reflexivity. }
  split; [exact F2|]. split; [|split; [exact F4|exact F5]].
  intros n Hn. destruct (decide (n = "refs/heads/" +:+ s)) as [->|Hne].
  - now rewrite F1, Hname.
  - now apply F3.
Qed.

(** X22. In a repository without any commit (HEAD points at a branch that
    does not exist yet) [CreateOrphanBranch] cannot start a history: the
    checkout it begins with needs the hash of HEAD, so the call fails with
    the not-found error and creates neither branch nor commit. *)
Theorem CreateOrphanBranch_fails_on_unborn_HEAD (u : User) (w : World)
    (g : git_Repository) (s cur : string) :
  root (this w) = Some g ->
  bare g = false ->
  refs g !! HEAD = Some (NewSymbolicReference HEAD cur) ->
  refs g !! cur = None ->
  refs g !! ("refs/heads/" +:+ s) = None ->
  CreateOrphanBranch u s w
  = Ret (Some (Errorf "Unable to create a new branch: " ErrReferenceNotFound)) w.
Proof.
  intros Hroot Hbare Hhead Hcur Hfresh.
  unfold CreateOrphanBranch, bind at 1, root_. rewrite Hroot.
  unfold Repository_Worktree. rewrite Hbare.
  unfold bind. rewrite (on_root_run _ w g Hroot).
  rewrite (Checkout_create_unborn g _ cur (heads_nonempty s) Hfresh Hhead Hcur).
  cbn [fst snd]. now rewrite (world_with_same w g Hroot).
Qed.

(** [Worktree.Commit] with HEAD on branch [b], the branch existing at
    [c0] or not yet born. *)
Lemma Worktree_Commit_on_HEAD_branch (g : git_Repository) (b msg : string)
    (all : bool) (a : Signature) (tip : option Hash) :
  readonly g = false ->
  refs g !! HEAD = Some (NewSymbolicReference HEAD b) ->
  refs g !! b = (NewHashReference b) <$> tip ->
  Worktree_Commit msg {| cm_All := all; cm_Author := Some a;
                         cm_Committer := None; cm_Parents := [] |} g
  = (let g1 := if all then autoAddModifiedAndDeleted g else g in
     let c := {| Author := a; Committer := a; Message := msg; Tree := index g1;
                 ParentHashes := match tip with Some c0 => [c0] | None => [] end |} in
     (Ok (hashCommit c),
      set_refs (<[b := NewHashReference b (hashCommit c)]> (refs g))
        (set_objects (<[hashCommit c := c]> (objects g)) g1))).
Proof.
  intros Hrw Hhead Hb. cbv zeta.
  unfold Worktree_Commit, CommitOptions_Validate.
  cbn [cm_All cm_Author cm_Committer cm_Parents length].
  destruct (decide (0 = 0)); [|contradiction].
  assert (Hval :
    match Repository_Head g with
    | Ok head => Ok (a, a, [ref_Hash head])
    | Fail err => if String.eqb err ErrReferenceNotFound then Ok (a, a, [])
                  else Fail err
    end = Ok (a, a, match tip with Some c0 => [c0] | None => [] end)).
  { destruct tip as [c0|]; cbn in Hb.
    - now rewrite (Head_on_branch g b c0 Hhead Hb).
    - now rewrite (Head_unborn g b Hhead Hb). }
  rewrite Hval.
  assert (Hro : readonly (if all then autoAddModifiedAndDeleted g else g) = false)
    by (destruct all; exact Hrw).
  rewrite Hro.
  unfold updateHEAD, Storer_Reference. cbn [refs set_objects].
  assert (Hrefs : refs (if all then autoAddModifiedAndDeleted g else g) = refs g)
    by (destruct all; reflexivity).
  rewrite Hrefs, Hhead. cbn [NewSymbolicReference ref_Type ref_Target].
  destruct (decide (SymbolicReference = HashReference)); [discriminate|].
  unfold Storer_SetReference. cbn [readonly set_objects]. rewrite Hro.
  cbn [ref_Name NewHashReference refs set_objects]. rewrite Hrefs.
  assert (Hobjs : objects (if all then autoAddModifiedAndDeleted g else g) = objects g)
    by (destruct all; reflexivity).
  rewrite Hobjs. reflexivity.
Qed.

(** X23. [Commit] with HEAD on a branch: the branch moves to a new commit
    whose only parent is the previous tip, authored by the given user at
    the current time; HEAD, every other reference and the worktree files
    are unchanged. *)
Theorem Commit_advances_branch (u : User) (filename msg : string) (w : World)
    (g : git_Repository) (b : string) (c0 : Hash) :
  root (this w) = Some g ->
  bare g = false ->
  readonly g = false ->
  refs g !! HEAD = Some (NewSymbolicReference HEAD b) ->
  refs g !! b = Some (NewHashReference b c0) ->
  exists g1 c,
    Commit u filename msg w = Ret None (world_with w g1)
    /\ refs g1 !! b = Some (NewHashReference b (hashCommit c))
    /\ objects g1 !! hashCommit c = Some c
    /\ ParentHashes c = [c0]
    /\ Author c = {| sig_Name := Name u; sig_Email := Email u; sig_When := clock w |}
    /\ Message c = msg
    /\ (forall n, n <> b -> refs g1 !! n = refs g !! n)
    /\ files g1 = files g.
Proof.
  intros Hroot Hbare Hrw Hhead Hb.
  eexists _, _. split.
  { unfold Commit, bind at 1, root_. rewrite Hroot.
    unfold Repository_Worktree. rewrite Hbare.
    unfold bind at 1, time_Now. unfold bind.
    rewrite (on_root_run _ w g Hroot).
    rewrite (Worktree_Commit_on_HEAD_branch g b msg true _ (Some c0) Hrw Hhead Hb).
    cbv zeta. cbn [fst snd]. reflexivity. }
  cbn [refs objects files set_refs set_objects autoAddModifiedAndDeleted set_index].
  split; [apply lookup_insert_eq|].
  split; [apply lookup_insert_eq|].
  split; [reflexivity|]. split; [reflexivity|]. split; [reflexivity|].
  split; [|reflexivity].
  intros n Hn. now rewrite lookup_insert_ne by congruence.
Qed.

(** X24. The first commit of a history: with HEAD on a branch that does not
    exist yet, [Commit] makes a commit without parents and creates the
    branch at it. *)
Theorem Commit_on_unborn_branch_is_root (u : User) (filename msg : string) (w : World)
    (g : git_Repository) (b : string) :
  root (this w) = Some g ->
  bare g = false ->
  readonly g = false ->
  refs g !! HEAD = Some (NewSymbolicReference HEAD b) ->
  refs g !! b = None ->
  exists g1 c,
    Commit u filename msg w = Ret None (world_with w g1)
    /\ refs g1 !! b = Some (NewHashReference b (hashCommit c))
    /\ objects g1 !! hashCommit c = Some c
    /\ ParentHashes c = []
    /\ (forall n, n <> b -> refs g1 !! n = refs g !! n).
Proof.
  intros Hroot Hbare Hrw Hhead Hb.
  eexists _, _. split.
  { unfold Commit, bind at 1, root_. rewrite Hroot.
    unfold Repository_Worktree. rewrite Hbare.
    unfold bind at 1, time_Now. unfold bind.
    rewrite (on_root_run _ w g Hroot).
    rewrite (Worktree_Commit_on_HEAD_branch g b msg true _ None Hrw Hhead Hb).
    cbv zeta. cbn [fst snd]. reflexivity. }
  cbn [refs objects files set_refs set_objects autoAddModifiedAndDeleted set_index].
  split; [apply lookup_insert_eq|].
  split; [apply lookup_insert_eq|].
  split; [reflexivity|].
  intros n Hn. now rewrite lookup_insert_ne by congruence.
Qed.

(** C10. [Commit] ignores its filename argument: two calls that differ
    only in the filename return the same result and leave the same
    repository, whatever the state.  With a repository loaded that has a
    worktree, is writable and has HEAD on a branch, born or not, the call
    succeeds under either filename and commits all the modified content
    of tracked files: the one commit added has as its tree every tracked
    path with the content its file has now, the branch moves to it, the
    index follows and the files stay; nothing is staged by path, so a
    filename the index does not know is absent from the tree.  A bare
    repository is refused and an unloaded one is a nil dereference, under
    either filename. *)
Theorem Commit_ignores_filename (u : User) (filename1 filename2 msg : string) (w : World) :
  Commit u filename1 msg w = Commit u filename2 msg w
  /\ (forall g w1,
       root (this w) = Some g ->
       Commit u filename1 msg w = Ret None w1 ->
       exists g1 c,
         root (this w1) = Some g1
         /\ objects g1 = <[hashCommit c := c]> (objects g)
         /\ (forall p, Tree c !! p = index g !! p ≫= (fun _ => files g !! p))
         /\ (index g !! filename1 = None -> Tree c !! filename1 = None))
  /\ (forall g b tip,
       root (this w) = Some g ->
       bare g = false ->
       readonly g = false ->
       refs g !! HEAD = Some (NewSymbolicReference HEAD b) ->
       refs g !! b = NewHashReference b <$> tip ->
       exists g1 c,
         Commit u filename1 msg w = Ret None (world_with w g1)
         /\ Commit u filename2 msg w = Ret None (world_with w g1)
         /\ c = {| Author := {| sig_Name := Name u; sig_Email := Email u;
                                sig_When := clock w |};
                   Committer := {| sig_Name := Name u; sig_Email := Email u;
                                   sig_When := clock w |};
                   Message := msg;
                   Tree := map_imap (fun p _ => files g !! p) (index g);
                   ParentHashes := match tip with Some c0 => [c0] | None => [] end |}
         /\ g1 = set_refs (<[b := NewHashReference b (hashCommit c)]> (refs g))
                   (set_objects (<[hashCommit c := c]> (objects g))
                      (set_index (Tree c) g))
         /\ (forall p, Tree c !! p = index g !! p ≫= (fun _ => files g !! p))
         /\ (index g !! filename1 = None -> Tree c !! filename1 = None)
         /\ (index g !! filename2 = None -> Tree c !! filename2 = None)
         /\ files g1 = files g)
  /\ (forall g,
       root (this w) = Some g ->
       bare g = true ->
       Commit u filename1 msg w
       = Ret (Some (Errorf "Unable to load the work tree: " ErrIsBareRepository)) w)
  /\ (root (this w) = None -> Commit u filename1 msg w = Crash w).
Proof.
  split; [reflexivity|]. split; [|split; [|split]].
  - intros g w1 Hroot Hret.
    destruct (Commit_records_tracked_files u filename1 msg w w1 g Hroot Hret)
      as (g1 & c & Hg1 & Hobj & _ & Htree).
    exists g1, c. split; [exact Hg1|]. split; [exact Hobj|]. split; [exact Htree|].
    intros Hun. rewrite Htree, Hun. reflexivity.
  - intros g b tip Hroot Hbare Hrw Hhead Hb.
    assert (Hrun : forall filename,
      Commit u filename msg w
      = Ret None
          (world_with w
             (set_refs
                (<[b := NewHashReference b
                          (hashCommit
                             {| Author := {| sig_Name := Name u; sig_Email := Email u;
                                             sig_When := clock w |};
                                Committer := {| sig_Name := Name u; sig_Email := Email u;
                                                sig_When := clock w |};
                                Message := msg;
                                Tree := map_imap (fun p _ => files g !! p) (index g);
                                ParentHashes :=
                                  match tip with Some c0 => [c0] | None => [] end |})]>
                   (refs g))
                (set_objects
                   (<[hashCommit
                        {| Author := {| sig_Name := Name u; sig_Email := Email u;
                                        sig_When := clock w |};
                           Committer := {| sig_Name := Name u; sig_Email := Email u;
                                           sig_When := clock w |};
                           Message := msg;
                           Tree := map_imap (fun p _ => files g !! p) (index g);
                           ParentHashes :=
                             match tip with Some c0 => [c0] | None => [] end |}
                      := {| Author := {| sig_Name := Name u; sig_Email := Email u;
                                         sig_When := clock w |};
                            Committer := {| sig_Name := Name u; sig_Email := Email u;
                                            sig_When := clock w |};
                            Message := msg;
                            Tree := map_imap (fun p _ => files g !! p) (index g);
                            ParentHashes :=
                              match tip with Some c0 => [c0] | None => [] end |}]>
                      (objects g))
                   (set_index (map_imap (fun p _ => files g !! p) (index g)) g))))).
    { intros filename.
      unfold Commit, bind at 1, root_. rewrite Hroot.
      unfold Repository_Worktree. rewrite Hbare.
      unfold bind at 1, time_Now. unfold bind.
      rewrite (on_root_run _ w g Hroot).
      rewrite (Worktree_Commit_on_HEAD_branch g b msg true _ tip Hrw Hhead Hb).
      cbv zeta. cbn [fst snd]. reflexivity. }
    eexists _, _.
    split; [apply Hrun|]. split; [apply Hrun|].
    split; [reflexivity|]. split; [reflexivity|].
    cbn [Tree files set_refs set_objects set_index].
    assert (Htree : forall p,
              map_imap (fun p0 (_ : bytes) => files g !! p0) (index g) !! p
              = index g !! p ≫= (fun _ => files g !! p))
      by (intros p0; apply map_lookup_imap).
    split; [exact Htree|].
    split; [intros Hun; rewrite Htree, Hun; reflexivity|].
    split; [intros Hun; rewrite Htree, Hun; reflexivity|reflexivity].
  - intros g Hroot Hbare.
    unfold Commit, bind, root_. rewrite Hroot.
    unfold Repository_Worktree. rewrite Hbare. reflexivity.
  - intros Hroot. unfold Commit, bind, root_. rewrite Hroot. reflexivity.
Qed.

(** X25. [RemoveBranch] has no guard for the branch that is checked out:
    removing it succeeds and leaves HEAD pointing at a name that no
    longer exists, so the next [Commit] starts a new history there, a
    commit without parents on a re-created branch. *)
Theorem RemoveBranch_of_current_then_Commit (u : User) (filename msg n : string)
    (w : World) (g : git_Repository) :
  root (this w) = Some g ->
  bare g = false ->
  readonly g = false ->
  refs g !! HEAD = Some (NewSymbolicReference HEAD ("refs/heads/" +:+ n)) ->
  exists g1 g2 c,
    RemoveBranch n w = Ret None (world_with w g1)
    /\ refs g1 !! ("refs/heads/" +:+ n) = None
    /\ Repository_Head g1 = Fail ErrReferenceNotFound
    /\ Commit u filename msg (world_with w g1) = Ret None (world_with w g2)
    /\ refs g2 !! ("refs/heads/" +:+ n)
       = Some (NewHashReference ("refs/heads/" +:+ n) (hashCommit c))
    /\ objects g2 !! hashCommit c = Some c
    /\ ParentHashes c = [].
Proof.
  intros Hroot Hbare Hrw Hhead.
  set (name := "refs/heads/" +:+ n) in *.
  set (g1 := set_refs (delete name (refs g)) g).
  assert (Hhead1 : refs g1 !! HEAD = Some (NewSymbolicReference HEAD name)).
  { unfold g1. cbn [refs set_refs]. rewrite lookup_delete_ne; [exact Hhead|].
    apply heads_not_HEAD. }
  assert (Hgone : refs g1 !! name = None) by apply lookup_delete_eq.
  exists g1. eexists _, _.
  split.
  { unfold RemoveBranch, bind. rewrite (on_root_run _ w g Hroot).
    unfold Storer_RemoveReference. rewrite Hrw. reflexivity. }
  split; [exact Hgone|].
  split; [exact (Head_unborn g1 name Hhead1 Hgone)|].
  split.
  { unfold Commit, bind at 1, root_. cbn [world_with this root].
    unfold Repository_Worktree. change (bare g1) with (bare g). rewrite Hbare.
    unfold bind at 1, time_Now. unfold bind.
    rewrite (on_root_run _ (world_with w g1) g1 eq_refl).
    rewrite (Worktree_Commit_on_HEAD_branch g1 name msg true _ None Hrw Hhead1 Hgone).
    cbv zeta. cbn [fst snd]. reflexivity. }
  cbn [refs objects set_refs set_objects autoAddModifiedAndDeleted set_index].
  split; [apply lookup_insert_eq|]. split; [apply lookup_insert_eq|reflexivity].
Qed.

(** X26. [RemoveBranch] deletes exactly the reference "refs/heads/<n>": all
    other references and all objects stay, and a following
    [CheckoutBranch n] fails with the not-found error. *)
Theorem RemoveBranch_then_CheckoutBranch (n : string) (w : World) (g : git_Repository) :
  root (this w) = Some g ->
  bare g = false ->
  readonly g = false ->
  exists g1,
    RemoveBranch n w = Ret None (world_with w g1)
    /\ refs g1 !! ("refs/heads/" +:+ n) = None
    /\ (forall m, m <> "refs/heads/" +:+ n -> refs g1 !! m = refs g !! m)
    /\ objects g1 = objects g
    /\ CheckoutBranch n (world_with w g1)
       = Ret (Some (Errorf "Unable to checkout branch: " ErrReferenceNotFound))
           (world_with w g1).
Proof.
  intros Hroot Hbare Hrw.
  set (g1 := set_refs (delete ("refs/heads/" +:+ n) (refs g)) g).
  assert (Hgone : refs g1 !! ("refs/heads/" +:+ n) = None) by apply lookup_delete_eq.
  exists g1. split.
  { unfold RemoveBranch, bind. rewrite (on_root_run _ w g Hroot).
    unfold Storer_RemoveReference. rewrite Hrw. reflexivity. }
  split; [exact Hgone|].
  split; [intros m Hm; unfold g1; cbn [refs set_refs];
          now rewrite lookup_delete_ne by congruence|].
  split; [reflexivity|].
  unfold CheckoutBranch, bind at 1, root_. cbn [world_with this root].
  unfold Repository_Worktree. change (bare g1) with (bare g). rewrite Hbare.
  unfold bind. rewrite (on_root_run _ (world_with w g1) g1 eq_refl).
  rewrite (Checkout_switch_missing g1 _ (heads_nonempty n) Hgone).
  reflexivity.
Qed.

End WithHasher.

End GitMore.

(** ** The committing user (package git, [User]) *)

Module GitUser.
Import Git.

(** [config.Option] and [config.Section] of go-git's config format, as
    far as [load] reads them. *)
Record config_Option := {
  Key : string;
  Value : string;
}.

Record config_Section := {
  sec_Name : string;
  Options : list config_Option;
}.

(** The decoder of the config format: the sections of a file. *)
Class ConfigLib := {
  config_Decode : bytes -> result (list config_Section);
}.

(** The machine [Init] runs on: what [homedir.Dir] answers and the files
    [ioutil.ReadFile] can read. *)
Record Host := {
  home : result string;
  hostfiles : gmap string bytes;
}.

Definition ioutil_ReadFile (host : Host) (file : string) : result bytes :=
  match hostfiles host !! file with
  | Some f => Ok f
  | None => Fail ("open " +:+ file +:+ ": no such file or directory")
  end.

(** The inner loop of [load] over the options of a "user" section. *)
Definition scan_options (options : list config_Option) (ne : string * string)
  : string * string :=
  foldl (fun '(name, email) option =>
           if String.eqb (Key option) "name" then (Value option, email)
           else if String.eqb (Key option) "email" then (name, Value option)
           else (name, email)) ne options.

(** The outer loop of [load] over the sections. *)
Definition scan_sections (sections : list config_Section) (ne : string * string)
  : string * string :=
  foldl (fun ne section =>
           if negb (String.eqb (sec_Name section) "user") then ne
           else scan_options (Options section) ne) ne sections.

Section WithLibraries.
Context {pathlib : Encrypt.PathLib} {configlib : ConfigLib}.

(** [load] (encrypt.go:261); the receiver is returned with the error. *)
Definition load (u : User) (host : Host) : User * option error :=
  let p := ".gitconfig" in
  let file := Encrypt.path_Join (HomeFolder u) p in
  match ioutil_ReadFile host file with
  | Fail err => (u, Some (Errorf "Git config could not be read: " err))
  | Ok f =>
      match config_Decode f with
      | Fail err => (u, Some err)
      | Ok sections =>
          let '(name, email) := scan_sections sections ("", "") in
          ({| Name := name; Email := email; HomeFolder := HomeFolder u |}, None)
      end
  end.

(** [Init] (encrypt.go:245). *)
Definition Init (u : User) (host : Host) : User * option error :=
  match home host with
  | Fail err => (u, Some err)
  | Ok folder =>
      let u := {| Name := Name u; Email := Email u; HomeFolder := folder |} in
      match load u host with
      | (u, Some err) => (u, Some err)
      | (u, None) => (u, None)
      end
  end.

End WithLibraries.

(** The options of all "user" sections, in file order, and the last
    value given to a key among them (empty when there is none). *)
Definition user_options (sections : list config_Section) : list config_Option :=
  sections ≫= (fun section =>
    if String.eqb (sec_Name section) "user" then Options section else []).

Definition last_value (k : string) (options : list config_Option) : string :=
  default "" (last (Value <$> filter (fun o => Key o = k) options)).

Lemma scan_sections_flat (sections : list config_Section) (ne : string * string) :
  scan_sections sections ne = scan_options (user_options sections) ne.
Proof.
  unfold scan_sections, user_options. revert ne.
  induction sections as [|s rest IH]; intros ne; [reflexivity|].
  rewrite bind_cons. cbn [foldl]. rewrite IH.
  unfold scan_options. rewrite foldl_app.
  destruct (String.eqb (sec_Name s) "user"); reflexivity.
Qed.

Lemma scan_options_last (options : list config_Option) (name email : string) :
  scan_options options (name, email)
  = (default name (last (Value <$> filter (fun o => Key o = "name") options)),
     default email (last (Value <$> filter (fun o => Key o = "email") options))).
Proof.
  induction options as [|o options IH] using rev_ind; [reflexivity|].
  unfold scan_options in *. rewrite foldl_snoc, IH.
  rewrite !filter_app, !fmap_app. cbn [filter list_filter].
  destruct (String.eqb (Key o) "name") eqn:Hn.
  - apply String.eqb_eq in Hn.
    destruct (decide (Key o = "name")); [|contradiction].
    destruct (decide (Key o = "email")) as [E|_]; [rewrite Hn in E; discriminate|].
    cbn. rewrite last_snoc, app_nil_r. reflexivity.
  - apply String.eqb_neq in Hn.
    destruct (decide (Key o = "name")); [contradiction|].
    destruct (String.eqb (Key o) "email") eqn:He.
    + apply String.eqb_eq in He.
      destruct (decide (Key o = "email")); [|contradiction].
      cbn. rewrite last_snoc, app_nil_r. reflexivity.
    + apply String.eqb_neq in He.
      destruct (decide (Key o = "email")); [contradiction|].
      cbn. rewrite !app_nil_r. reflexivity.
Qed.

Section Facts.
Context {pathlib : Encrypt.PathLib} {configlib : ConfigLib}.

(** X27. [load] on a readable, well-formed config: name and email become the
    last values given to the keys "name" and "email" in the sections
    called "user", in file order, and the empty string when the key does
    not occur, whatever the user held before; the home folder stays. *)
Theorem load_takes_last_values (u : User) (host : Host) (f : bytes)
    (sections : list config_Section) :
  hostfiles host !! Encrypt.path_Join (HomeFolder u) ".gitconfig" = Some f ->
  config_Decode f = Ok sections ->
  load u host
  = ({| Name := last_value "name" (user_options sections);
        Email := last_value "email" (user_options sections);
        HomeFolder := HomeFolder u |}, None).
Proof.
  intros Hfile Hdec. unfold load, ioutil_ReadFile. rewrite Hfile, Hdec.
  rewrite scan_sections_flat, scan_options_last. reflexivity.
Qed.

(** X28. Whenever [Init] reports an error, name and email of the user are
    the ones it had; the home folder is already overwritten when the
    failure comes from reading or decoding the config. *)
Theorem Init_error_keeps_identity (u u' : User) (host : Host) (err : error) :
  Init u host = (u', Some err) ->
  Name u' = Name u
  /\ Email u' = Email u
  /\ (forall folder, home host = Ok folder -> HomeFolder u' = folder)
  /\ (forall e, home host = Fail e -> u' = u /\ err = e).
Proof.
  unfold Init, load.
  destruct (home host) as [folder|e].
  - assert (Hfail : forall (v : User) (x : error),
              Name v = Name u -> Email v = Email u -> HomeFolder v = folder ->
              (v, Some x) = (u', Some err) ->
              Name u' = Name u /\ Email u' = Email u
              /\ (forall folder', Ok folder = Ok folder' -> HomeFolder u' = folder')
              /\ (forall e : error, @Ok string folder = Fail e -> u' = u /\ err = e)).
    { intros v x Hn He Hh H. inversion H; subst.
      split; [exact Hn|]. split; [exact He|].
      split; [intros folder' H'; now inversion H'|intros e' H'; discriminate]. }
    cbn [HomeFolder]. destruct (ioutil_ReadFile host _) as [f|e].
    + destruct (config_Decode f) as [sections|e].
      * destruct (scan_sections sections ("", "")). discriminate.
      * now apply Hfail.
    + now apply Hfail.
  - intros H; inversion H; subst.
    split; [reflexivity|]. split; [reflexivity|].
    split; [intros folder H'; discriminate|].
    intros e' H'. inversion H'. split; reflexivity.
Qed.

End Facts.

End GitUser.

(** ** More sample states, for the further properties *)

Module Sample2.
Import Encrypt.

(** A second key reader: the first byte of the body picks the shape of
    the entity, the rest is the passphrase of its primary key. *)
Definition shaped_entity (body : bytes) : result Entity :=
  match body with
  | x00 :: _ =>
      Ok {| ent_PrivateKey :=
              Some {| pk_KeyId := 1; pk_Encrypted := false; pk_lock := [] |};
            ent_Subkeys :=
              [ {| sub_PrivateKey :=
                     Some {| pk_KeyId := 2; pk_Encrypted := false; pk_lock := [] |} |} ] |}
  | x01 :: lock =>
      Ok {| ent_PrivateKey :=
              Some {| pk_KeyId := 1; pk_Encrypted := true; pk_lock := lock |};
            ent_Subkeys :=
              [ {| sub_PrivateKey :=
                     Some {| pk_KeyId := 2; pk_Encrypted := true;
                             pk_lock := x00 :: lock |} |} ] |}
  | x02 :: lock =>
      Ok {| ent_PrivateKey :=
              Some {| pk_KeyId := 1; pk_Encrypted := true; pk_lock := lock |};
            ent_Subkeys := [ {| sub_PrivateKey := None |} ] |}
  | _ => Fail "openpgp: invalid data: no packets"
  end.

Definition shaped_pgp : OpenPGP := {|
  armor_Decode := Sample.sample_Decode;
  armor_Encode := fun t body => Sample.header t ++ body;
  openpgp_ReadEntity := shaped_entity;
  Writer := bytes;
  openpgp_Encrypt := fun to =>
    match to with
    | [] => Fail "openpgp: invalid argument: no recipients"
    | _ => Ok []
    end;
  wr_Write := fun w b => (Z.of_nat (length b), Ok (w ++ b));
  wr_Close := fun w => Ok (rev w);
  MessageDetails := bytes;
  openpgp_ReadMessage := fun packets keyring prompt => ret (Ok (rev packets));
  md_ReadAll := fun md => Ok md;
|}.

Definition shaped_key (shape : byte) : PGP :=
  NewPGP (Sample.header PrivateKeyType ++ shape :: Sample.good) None [] true.

Definition typing (lines : list bytes) : Env :=
  {| entityList := [];
     tty := {| stdin := (fun l => (l, None)) <$> lines; stdout := [] |};
     disk := Sample.empty_disk |}.

Definition locked_entity : Entity :=
  {| ent_PrivateKey :=
       Some {| pk_KeyId := 1; pk_Encrypted := true; pk_lock := Sample.good |};
     ent_Subkeys := [] |}.

Definition locked_session : Env :=
  {| entityList := [locked_entity];
     tty := {| stdin := [(Sample.good, None)]; stdout := [] |};
     disk := Sample.empty_disk |}.

Definition wrong_session : Env :=
  {| entityList := [locked_entity];
     tty := {| stdin := [(Sample.bad, None); (Sample.bad, None)]; stdout := [] |};
     disk := Sample.empty_disk |}.

Definition main_key : Key := {| key_entity := 0; key_subkey := None |}.

Definition on_disk (d : FS) : Env :=
  {| entityList := []; tty := Sample.quiet_tty; disk := d |}.

Definition disk_with_secret : FS :=
  {| files := {[ "repo/secret.gpg" := {| perm := mode_0600; content := Sample.secret |} ]};
     umask := 2 * 8 + 2; nocreate := ∅; nochmod := false; nospace := false |}.

Definition full_disk : FS :=
  {| files := ∅; umask := 2 * 8 + 2; nocreate := ∅; nochmod := false; nospace := true |}.

Definition written_disk : FS :=
  {| files := {[ "repo/secret.gpg" :=
                   {| perm := mode_0600; content := Message Sample.cipher_msg |} ]};
     umask := 2 * 8 + 2; nocreate := ∅; nochmod := false; nospace := false |}.

(** Git: a repository with a tag stored under "refs/tags", and one
    without any commit. *)
Definition repo_tagged : Git.git_Repository :=
  Git.set_refs
    (<["refs/tags/v1" := Git.NewHashReference "refs/tags/v1" Sample.C]>
       (Git.refs Sample.repo_main)) Sample.repo_main.

(** The tagged repository with a branch "v1" already there. *)
Definition repo_tag_and_branch : Git.git_Repository :=
  Git.set_refs
    (<["refs/heads/v1" := Git.NewHashReference "refs/heads/v1" Sample.C]>
       (Git.refs repo_tagged)) repo_tagged.

(** The sample repository with a branch whose name has a slash. *)
Definition repo_feature : Git.git_Repository :=
  Git.set_refs
    (<["refs/heads/feature/x" := Git.NewHashReference "refs/heads/feature/x" Sample.C]>
       (Git.refs Sample.repo_main)) Sample.repo_main.

Definition repo_empty : Git.git_Repository :=
  {| Git.refs := {[ "HEAD" := Git.NewSymbolicReference "HEAD" "refs/heads/master" ]};
     Git.objects := ∅;
     Git.index := ∅;
     Git.files := Sample.readme;
     Git.bare := false;
     Git.readonly := false;
     Git.refs_unreadable := false |}.

(** The user: a config with two "user" sections, and the machine holding
    it. *)
Definition gitconfig : list GitUser.config_Section :=
  [ {| GitUser.sec_Name := "core";
       GitUser.Options := [ {| GitUser.Key := "name"; GitUser.Value := "ignored" |} ] |};
    {| GitUser.sec_Name := "user";
       GitUser.Options := [ {| GitUser.Key := "name"; GitUser.Value := "Al" |};
                            {| GitUser.Key := "email"; GitUser.Value := "alice@example.org" |};
                            {| GitUser.Key := "signingkey"; GitUser.Value := "ABCD" |} ] |};
    {| GitUser.sec_Name := "user";
       GitUser.Options := [ {| GitUser.Key := "name"; GitUser.Value := "Alice" |} ] |} ].

Definition sample_config : GitUser.ConfigLib := {|
  GitUser.config_Decode := fun b =>
    match b with
    | [] => Fail "config: unexpected end of file"
    | _ => Ok gitconfig
    end;
|}.

Definition alice_host : GitUser.Host :=
  {| GitUser.home := Ok "/home/alice";
     GitUser.hostfiles := {[ "/home/alice/.gitconfig" := Sample.secret ]} |}.

Definition lost_host : GitUser.Host :=
  {| GitUser.home := Ok "/home/nobody"; GitUser.hostfiles := ∅ |}.

Definition nobody : Git.User :=
  {| Git.Name := "Old"; Git.Email := "old@example.org"; Git.HomeFolder := "" |}.

End Sample2.

(** ** The further properties on the sample states *)

Module EncryptRuns.
Import Encrypt EncryptFacts EncryptMore.

Lemma Encrypt_leaves_state_witness :
  exists f' err,
    Encrypt Sample.cipher_msg Sample.session = Ret (f', err) Sample.session
    /\ (err <> None -> f' = Sample.cipher_msg)
    /\ PrivateKey f' = PrivateKey Sample.cipher_msg.
Proof. exact (Encrypt_leaves_state Sample.cipher_msg Sample.session). Defined.

Lemma Encrypt_again_rejected_witness :
  Encrypted Sample.plain_msg = false
  /\ Encrypted Sample.cipher_msg = true
  /\ Encrypt Sample.cipher_msg Sample.session
     = Ret (Sample.cipher_msg, Some AlreadyEncrypted) Sample.session.
Proof.
  apply (Encrypt_again_rejected Sample.plain_msg Sample.cipher_msg
           Sample.session Sample.session).
  reflexivity.
Defined.

Lemma Decrypt_outcomes_witness :
  match Decrypt Sample.cipher_msg Sample.session with
  | Ret (f', Some _) _ => f' = Sample.cipher_msg
  | Ret (f', None) env' =>
      Encrypted Sample.cipher_msg = true
      /\ Encrypted f' = false
      /\ PrivateKey f' = PrivateKey Sample.cipher_msg
      /\ Decrypt f' env' = Ret (f', Some NotEncrypted) env'
  | Crash _ => True
  end.
Proof. exact (Decrypt_outcomes Sample.cipher_msg Sample.session). Defined.


Lemma WriteFile_touches_only_target_witness :
  files (disk (final (WriteFile Sample.cipher_msg "repo" "other.gpg"
                        (Sample2.on_disk Sample2.disk_with_secret)))) !! "repo/secret.gpg"
  = files (disk (Sample2.on_disk Sample2.disk_with_secret)) !! "repo/secret.gpg"
  /\ entityList (final (WriteFile Sample.cipher_msg "repo" "other.gpg"
                          (Sample2.on_disk Sample2.disk_with_secret)))
     = entityList (Sample2.on_disk Sample2.disk_with_secret)
  /\ tty (final (WriteFile Sample.cipher_msg "repo" "other.gpg"
                   (Sample2.on_disk Sample2.disk_with_secret)))
     = tty (Sample2.on_disk Sample2.disk_with_secret).
Proof.
  apply (WriteFile_touches_only_target Sample.cipher_msg "repo" "other.gpg"
           "repo/secret.gpg" (Sample2.on_disk Sample2.disk_with_secret)).
  discriminate.
Defined.

Lemma WriteFile_success_witness :
  Encrypted Sample.cipher_msg = true
  /\ Message Sample.cipher_msg <> []
  /\ files (disk Sample.session) !! path_Join "repo" "secret.gpg" = None
  /\ files (disk (Sample2.on_disk Sample2.written_disk)) !! path_Join "repo" "secret.gpg"
     = Some {| perm := mode_0600; content := Message Sample.cipher_msg |}.
Proof.
  apply (WriteFile_success Sample.cipher_msg "repo" "secret.gpg"
           (Sample2.on_disk Sample.empty_disk) (Sample2.on_disk Sample2.written_disk)).
  vm_compute. reflexivity.
Defined.

Lemma WriteFile_failed_write_blocks_retry_witness :
  exists env1,
    env1 = set_disk
             (set_files (<[path_Join "repo" "secret.gpg"
                           := {| perm := mode_0600; content := [] |}]>
                           (files (disk (Sample2.on_disk Sample2.full_disk))))
                (disk (Sample2.on_disk Sample2.full_disk)))
             (Sample2.on_disk Sample2.full_disk)
    /\ WriteFile Sample.cipher_msg "repo" "secret.gpg" (Sample2.on_disk Sample2.full_disk)
       = Ret (Some (Errorf "Unable to write to file: "
                      ("write " +:+ path_Join "repo" "secret.gpg"
                       +:+ ": no space left on device"))) env1
    /\ files (disk env1) !! path_Join "repo" "secret.gpg"
       = Some {| perm := mode_0600; content := [] |}
    /\ forall (f' : PGP) (env2 : Env),
         Message f' <> [] -> Encrypted f' = true ->
         files (disk env2) !! path_Join "repo" "secret.gpg"
         = files (disk env1) !! path_Join "repo" "secret.gpg" ->
         WriteFile f' "repo" "secret.gpg" env2 = Ret (Some FileExists) env2.
Proof.
  apply (WriteFile_failed_write_blocks_retry Sample.cipher_msg "repo" "secret.gpg"
           (Sample2.on_disk Sample2.full_disk));
    try reflexivity; try discriminate.
Defined.

(** The failed write and the retry on the sample disk: the error text,
    the empty file left behind, and a different valid message refused
    once the disk has room. *)
Example WriteFile_retry_refused :
  WriteFile Sample.cipher_msg "repo" "secret.gpg" (Sample2.on_disk Sample2.full_disk)
  = Ret (Some "Unable to write to file: write repo/secret.gpg: no space left on device")
      (Sample2.on_disk
         {| files := {[ "repo/secret.gpg" := {| perm := mode_0600; content := [] |} ]};
            umask := umask Sample2.full_disk; nocreate := nocreate Sample2.full_disk;
            nochmod := false; nospace := true |})
  /\ WriteFile (set_Message (String.list_byte_of_string "other") true Sample.cipher_msg)
       "repo" "secret.gpg"
       (Sample2.on_disk
          {| files := {[ "repo/secret.gpg" := {| perm := mode_0600; content := [] |} ]};
             umask := umask Sample2.full_disk; nocreate := nocreate Sample2.full_disk;
             nochmod := false; nospace := false |})
     = Ret (Some FileExists)
         (Sample2.on_disk
            {| files := {[ "repo/secret.gpg" := {| perm := mode_0600; content := [] |} ]};
               umask := umask Sample2.full_disk; nocreate := nocreate Sample2.full_disk;
               nochmod := false; nospace := false |}).
Proof. split; vm_compute; reflexivity. Qed.

Lemma Keyring_unprotected_key_witness :
  exists env' ent',
    Keyring (pgp := Sample2.shaped_pgp) (Sample2.shaped_key x00) (Sample2.typing [])
    = Ret None env'
    /\ entityList env' = entityList (Sample2.typing []) ++ [ent']
    /\ ent_PrivateKey ent'
       = Some {| pk_KeyId := 1; pk_Encrypted := false; pk_lock := [] |}
    /\ length (ent_Subkeys ent') = 1.
Proof.
  apply (Keyring_unprotected_key (pgp := Sample2.shaped_pgp)
           (Sample2.shaped_key x00) (Sample2.typing [])
           {| Type_ := PrivateKeyType; Body := x00 :: Sample.good |}
           {| ent_PrivateKey :=
                Some {| pk_KeyId := 1; pk_Encrypted := false; pk_lock := [] |};
              ent_Subkeys :=
                [ {| sub_PrivateKey :=
                       Some {| pk_KeyId := 2; pk_Encrypted := false; pk_lock := [] |} |} ] |});
    try reflexivity.
  repeat constructor. eexists; reflexivity.
Defined.

Lemma Keyring_tolerates_locked_subkeys_witness :
  exists env' ent',
    Keyring (pgp := Sample2.shaped_pgp) (Sample2.shaped_key x01)
      (Sample2.typing [Sample.good]) = Ret None env'
    /\ entityList env' = entityList (Sample2.typing [Sample.good]) ++ [ent']
    /\ (exists pk', ent_PrivateKey ent' = Some pk' /\ pk_Encrypted pk' = false)
    /\ forall i s sk,
         [ {| sub_PrivateKey :=
                Some {| pk_KeyId := 2; pk_Encrypted := true;
                        pk_lock := x00 :: Sample.good |} |} ] !! i = Some s ->
         sub_PrivateKey s = Some sk ->
         pk_Encrypted sk = true ->
         pk_lock sk <> Sample.good ->
         ent_Subkeys ent' !! i = Some s.
Proof.
  apply (Keyring_tolerates_locked_subkeys (pgp := Sample2.shaped_pgp)
           (Sample2.shaped_key x01) (Sample2.typing [Sample.good])
           {| Type_ := PrivateKeyType; Body := x01 :: Sample.good |}
           {| ent_PrivateKey :=
                Some {| pk_KeyId := 1; pk_Encrypted := true; pk_lock := Sample.good |};
              ent_Subkeys :=
                [ {| sub_PrivateKey :=
                       Some {| pk_KeyId := 2; pk_Encrypted := true;
                               pk_lock := x00 :: Sample.good |} |} ] |}
           {| pk_KeyId := 1; pk_Encrypted := true; pk_lock := Sample.good |});
    try reflexivity.
  repeat constructor. eexists; reflexivity.
Defined.

Lemma Keyring_panics_on_keyless_subkey_witness :
  Keyring (pgp := Sample2.shaped_pgp) (Sample2.shaped_key x02)
    (Sample2.typing [Sample.good])
  = Crash (set_tty (prompted_once (tty (Sample2.typing [Sample.good])))
             (Sample2.typing [Sample.good])).
Proof.
  apply (Keyring_panics_on_keyless_subkey (pgp := Sample2.shaped_pgp)
           (Sample2.shaped_key x02) (Sample2.typing [Sample.good])
           {| Type_ := PrivateKeyType; Body := x02 :: Sample.good |}
           {| ent_PrivateKey :=
                Some {| pk_KeyId := 1; pk_Encrypted := true; pk_lock := Sample.good |};
              ent_Subkeys := [ {| sub_PrivateKey := None |} ] |}
           (Some {| pk_KeyId := 1; pk_Encrypted := false; pk_lock := Sample.good |}));
    try reflexivity.
  constructor. reflexivity.
Defined.


Lemma passPrompt_never_errors_witness :
  match passPrompt [Sample2.main_key; Sample2.main_key] false Sample2.wrong_session with
  | Ret (_, err) env' =>
      err = None
      /\ disk env' = disk Sample2.wrong_session
      /\ length (entityList env') = length (entityList Sample2.wrong_session)
      /\ exists n, n <= 2 /\ stdin (tty env') = drop n (stdin (tty Sample2.wrong_session))
  | Crash _ => True
  end.
Proof.
  exact (passPrompt_never_errors [Sample2.main_key; Sample2.main_key] false
           Sample2.wrong_session).
Defined.

(** On that session both typed passphrases are wrong, and the prompt
    still ends without an error, handing back no passphrase. *)
Example passPrompt_all_wrong :
  exists env',
    passPrompt [Sample2.main_key; Sample2.main_key] false Sample2.wrong_session
    = Ret ([], None) env'
    /\ stdin (tty env') = [].
Proof. eexists. split; [vm_compute; reflexivity|reflexivity]. Qed.

Lemma passPrompt_first_key_opens_witness :
  exists env',
    passPrompt [Sample2.main_key] false Sample2.locked_session
    = Ret (Sample.good, None) env'
    /\ tty env' = prompted_once (tty Sample2.locked_session)
    /\ Key_PrivateKey Sample2.main_key (entityList env')
       = Some {| pk_KeyId := 1; pk_Encrypted := false; pk_lock := Sample.good |}.
Proof.
  apply (passPrompt_first_key_opens Sample2.main_key [] false Sample2.locked_session
           {| pk_KeyId := 1; pk_Encrypted := true; pk_lock := Sample.good |});
    reflexivity.
Defined.

End EncryptRuns.

Module GitRuns.
Import Git GitFacts GitMore.

Lemma BranchExists_iff_listed_witness :
  exists l b,
    ListBranches (Sample.world_of Sample2.repo_feature)
    = Ret l (Sample.world_of Sample2.repo_feature)
    /\ BranchExists "feature/x" (Sample.world_of Sample2.repo_feature)
       = Ret b (Sample.world_of Sample2.repo_feature)
    /\ (b = true <-> "feature/x" ∈ l)
    /\ (forall x, x ∈ l <->
         exists key ref, refs Sample2.repo_feature !! key = Some ref
                         /\ ref_Type ref = HashReference
                         /\ IsBranch (ref_Name ref) = true
                         /\ Short (ref_Name ref) = x)
    /\ (forall s h,
         s <> "" -> token (skip_space s) = s ->
         refs Sample2.repo_feature !! ("refs/heads/" +:+ s)
         = Some (NewHashReference ("refs/heads/" +:+ s) h) ->
         s ∈ l).
Proof.
  apply (BranchExists_iff_listed (Sample.world_of Sample2.repo_feature)
           Sample2.repo_feature "feature/x"); reflexivity.
Defined.

(** On that repository the branch is listed and found under its whole
    name, "feature/x", and not under its last component. *)
Example ListBranches_keeps_slashes :
  ListBranches (Sample.world_of Sample2.repo_feature)
  = Ret ["main"; "feature/x"] (Sample.world_of Sample2.repo_feature)
  /\ BranchExists "feature/x" (Sample.world_of Sample2.repo_feature)
     = Ret true (Sample.world_of Sample2.repo_feature)
  /\ BranchExists "x" (Sample.world_of Sample2.repo_feature)
     = Ret false (Sample.world_of Sample2.repo_feature)
  /\ Short "refs/heads/feature/x" = "feature/x"
  /\ Short "refs/tags/v1" = "v1".
Proof. repeat split; vm_compute; reflexivity. Qed.

Lemma Commit_ignores_filename_witness :
  exists g1 c,
    Commit Sample.alice "new.gpg" "add secret" (Sample.world_of Sample.repo_edited)
    = Ret None (world_with (Sample.world_of Sample.repo_edited) g1)
    /\ Commit Sample.alice "README" "add secret" (Sample.world_of Sample.repo_edited)
       = Ret None (world_with (Sample.world_of Sample.repo_edited) g1)
    /\ objects g1 !! hashCommit c = Some c
    /\ refs g1 !! "refs/heads/main"
       = Some (NewHashReference "refs/heads/main" (hashCommit c))
    /\ Tree c !! "README" = Some (String.list_byte_of_string "secrets moved")
    /\ Tree c !! "new.gpg" = None
    /\ ParentHashes c = [Sample.C]
    /\ Message c = "add secret"
    /\ files g1 = files Sample.repo_edited.
Proof.
  destruct (Commit_ignores_filename Sample.alice "new.gpg" "README" "add secret"
              (Sample.world_of Sample.repo_edited))
    as (_ & _ & Hrun & _).
  destruct (Hrun Sample.repo_edited "refs/heads/main" (Some Sample.C)
              eq_refl eq_refl eq_refl eq_refl eq_refl)
    as (g1 & c & H1 & H2 & Hc & Hg & _ & _ & _ & Hfiles).
  exists g1, c.
  split; [exact H1|]. split; [exact H2|].
  rewrite Hg, Hc.
  repeat split; vm_compute; reflexivity.
Defined.

Lemma create_refuses_existing_branch_witness :
  (forall origin ref,
      refs Sample2.repo_tag_and_branch !! ("refs/heads/" +:+ origin) = Some ref ->
      CreateBranch origin "v1" (Sample.world_of Sample2.repo_tag_and_branch)
      = Ret (Some (already_exists "refs/heads/v1"))
          (Sample.world_of Sample2.repo_tag_and_branch))
  /\ (forall u,
      CreateOrphanBranch u "v1" (Sample.world_of Sample2.repo_tag_and_branch)
      = Ret (Some (already_exists "refs/heads/v1"))
          (Sample.world_of Sample2.repo_tag_and_branch))
  /\ (forall tagref,
      refs Sample2.repo_tag_and_branch !! ("refs/tags/" +:+ "v1") = Some tagref ->
      TagBranch "v1" true (Sample.world_of Sample2.repo_tag_and_branch)
      = Ret (Some (already_exists "refs/heads/v1"))
          (Sample.world_of Sample2.repo_tag_and_branch)).
Proof.
  apply (create_refuses_existing_branch (Sample.world_of Sample2.repo_tag_and_branch)
           Sample2.repo_tag_and_branch "v1" (NewHashReference "refs/heads/v1" Sample.C));
    reflexivity.
Defined.

(** On that repository the three calls are indeed refused. *)
Example create_refused_on_sample :
  CreateBranch "main" "v1" (Sample.world_of Sample2.repo_tag_and_branch)
  = Ret (Some (already_exists "refs/heads/v1")) (Sample.world_of Sample2.repo_tag_and_branch)
  /\ TagBranch "v1" true (Sample.world_of Sample2.repo_tag_and_branch)
     = Ret (Some (already_exists "refs/heads/v1"))
         (Sample.world_of Sample2.repo_tag_and_branch).
Proof. split; vm_compute; reflexivity. Qed.

Lemma CreateBranch_creates_witness :
  exists g1,
    CreateBranch "main" "beta" (Sample.world_of Sample.repo_main)
    = Ret None (world_with (Sample.world_of Sample.repo_main) g1)
    /\ refs g1 !! "refs/heads/beta" = Some (NewHashReference "refs/heads/beta" Sample.C)
    /\ refs g1 !! HEAD = Some (NewSymbolicReference HEAD "refs/heads/beta")
    /\ refs g1 !! "refs/heads/main" = Some (NewHashReference "refs/heads/main" Sample.C)
    /\ (forall n, n <> "refs/heads/beta" -> n <> HEAD ->
                  refs g1 !! n = refs Sample.repo_main !! n)
    /\ objects g1 = objects Sample.repo_main
    /\ index g1 = Tree Sample.first_commit.
Proof.
  apply (CreateBranch_creates (Sample.world_of Sample.repo_main) Sample.repo_main
           "main" "beta" (NewHashReference "refs/heads/main" Sample.C)
           Sample.first_commit); reflexivity.
Defined.

Lemma TagBranch_promotes_tag_witness :
  exists g1,
    TagBranch "v1" true (Sample.world_of Sample2.repo_tagged)
    = Ret None (world_with (Sample.world_of Sample2.repo_tagged) g1)
    /\ refs g1 !! "refs/heads/v1" = Some (NewHashReference "refs/heads/v1" Sample.C)
    /\ refs g1 !! HEAD = Some (NewSymbolicReference HEAD "refs/heads/v1")
    /\ refs g1 !! "refs/tags/v1" = Some (NewHashReference "refs/tags/v1" Sample.C)
    /\ (forall n, n <> "refs/heads/v1" -> n <> HEAD ->
                  refs g1 !! n = refs Sample2.repo_tagged !! n)
    /\ index g1 = Tree Sample.first_commit.
Proof.
  apply (TagBranch_promotes_tag (Sample.world_of Sample2.repo_tagged) Sample2.repo_tagged
           "v1" (NewHashReference "refs/tags/v1" Sample.C) Sample.first_commit);
    reflexivity.
Defined.

Lemma TagBranch_switch_always_fails_witness :
  TagBranch "v1" false (Sample.world_of Sample2.repo_tagged)
  = Ret (Some (Errorf "Unable to create a new branch: " ErrBranchHashExclusive))
      (Sample.world_of Sample2.repo_tagged).
Proof.
  apply (TagBranch_switch_always_fails (Sample.world_of Sample2.repo_tagged)
           Sample2.repo_tagged "v1" (NewHashReference "refs/tags/v1" Sample.C));
    reflexivity.
Defined.

Lemma AddTagBranch_full_name_then_TagBranch_witness :
  exists w1 g2,
    AddTagBranch "refs/tags/v1" "alpha" (Sample.world_of Sample.repo_alpha) = Ret None w1
    /\ TagBranch "v1" true w1
       = Ret None (world_with (Sample.world_of Sample.repo_alpha) g2)
    /\ refs g2 !! "refs/heads/v1" = Some (NewHashReference "refs/heads/v1" Sample.C)
    /\ refs g2 !! "refs/tags/v1" = Some (NewHashReference "refs/tags/v1" Sample.C)
    /\ refs g2 !! "refs/heads/alpha" = Some (NewHashReference "refs/heads/alpha" Sample.C)
    /\ refs g2 !! HEAD = Some (NewSymbolicReference HEAD "refs/heads/v1").
Proof.
  apply (AddTagBranch_full_name_then_TagBranch (Sample.world_of Sample.repo_alpha)
           Sample.repo_alpha "v1" "alpha" (NewHashReference "refs/heads/alpha" Sample.C)
           Sample.first_commit); reflexivity.
Defined.

Lemma CheckoutBranch_missing_branch_witness :
  CheckoutBranch "alpha" (Sample.world_of Sample.repo_main)
  = Ret (Some (Errorf "Unable to checkout branch: " ErrReferenceNotFound))
      (Sample.world_of Sample.repo_main).
Proof.
  apply (CheckoutBranch_missing_branch (Sample.world_of Sample.repo_main)
           Sample.repo_main "alpha"); reflexivity.
Defined.

Lemma CheckoutBranch_switches_witness :
  exists g1,
    CheckoutBranch "alpha" (Sample.world_of Sample.repo_alpha)
    = Ret None (world_with (Sample.world_of Sample.repo_alpha) g1)
    /\ refs g1 !! HEAD = Some (NewSymbolicReference HEAD "refs/heads/alpha")
    /\ (forall n, n <> HEAD -> refs g1 !! n = refs Sample.repo_alpha !! n)
    /\ objects g1 = objects Sample.repo_alpha
    /\ index g1 = Tree Sample.first_commit.
Proof.
  apply (CheckoutBranch_switches (Sample.world_of Sample.repo_alpha) Sample.repo_alpha
           "alpha" Sample.C Sample.first_commit); reflexivity.
Defined.

Lemma CreateOrphanBranch_fails_on_unborn_HEAD_witness :
  CreateOrphanBranch Sample.alice "alpha" (Sample.world_of Sample2.repo_empty)
  = Ret (Some (Errorf "Unable to create a new branch: " ErrReferenceNotFound))
      (Sample.world_of Sample2.repo_empty).
Proof.
  apply (CreateOrphanBranch_fails_on_unborn_HEAD Sample.alice
           (Sample.world_of Sample2.repo_empty) Sample2.repo_empty
           "alpha" "refs/heads/master"); reflexivity.
Defined.

Lemma Commit_advances_branch_witness :
  exists g1 c,
    Commit Sample.alice "new.gpg" "edit" (Sample.world_of Sample.repo_edited)
    = Ret None (world_with (Sample.world_of Sample.repo_edited) g1)
    /\ refs g1 !! "refs/heads/main"
       = Some (NewHashReference "refs/heads/main" (hashCommit c))
    /\ objects g1 !! hashCommit c = Some c
    /\ ParentHashes c = [Sample.C]
    /\ Author c = {| sig_Name := "Alice"; sig_Email := "alice@example.org";
                     sig_When := 50 |}
    /\ Message c = "edit"
    /\ (forall n, n <> "refs/heads/main" -> refs g1 !! n = refs Sample.repo_edited !! n)
    /\ files g1 = files Sample.repo_edited.
Proof.
  apply (Commit_advances_branch Sample.alice "new.gpg" "edit"
           (Sample.world_of Sample.repo_edited) Sample.repo_edited
           "refs/heads/main" Sample.C); reflexivity.
Defined.

Lemma Commit_on_unborn_branch_is_root_witness :
  exists g1 c,
    Commit Sample.alice "README" "first" (Sample.world_of Sample2.repo_empty)
    = Ret None (world_with (Sample.world_of Sample2.repo_empty) g1)
    /\ refs g1 !! "refs/heads/master"
       = Some (NewHashReference "refs/heads/master" (hashCommit c))
    /\ objects g1 !! hashCommit c = Some c
    /\ ParentHashes c = []
    /\ (forall n, n <> "refs/heads/master" -> refs g1 !! n = refs Sample2.repo_empty !! n).
Proof.
  apply (Commit_on_unborn_branch_is_root Sample.alice "README" "first"
           (Sample.world_of Sample2.repo_empty) Sample2.repo_empty
           "refs/heads/master"); reflexivity.
Defined.

Lemma RemoveBranch_of_current_then_Commit_witness :
  exists g1 g2 c,
    RemoveBranch "main" (Sample.world_of Sample.repo_main)
    = Ret None (world_with (Sample.world_of Sample.repo_main) g1)
    /\ refs g1 !! "refs/heads/main" = None
    /\ Repository_Head g1 = Fail ErrReferenceNotFound
    /\ Commit Sample.alice "README" "again" (world_with (Sample.world_of Sample.repo_main) g1)
       = Ret None (world_with (Sample.world_of Sample.repo_main) g2)
    /\ refs g2 !! "refs/heads/main"
       = Some (NewHashReference "refs/heads/main" (hashCommit c))
    /\ objects g2 !! hashCommit c = Some c
    /\ ParentHashes c = [].
Proof.
  apply (RemoveBranch_of_current_then_Commit Sample.alice "README" "again" "main"
           (Sample.world_of Sample.repo_main) Sample.repo_main); reflexivity.
Defined.

Lemma RemoveBranch_then_CheckoutBranch_witness :
  exists g1,
    RemoveBranch "alpha" (Sample.world_of Sample.repo_alpha)
    = Ret None (world_with (Sample.world_of Sample.repo_alpha) g1)
    /\ refs g1 !! "refs/heads/alpha" = None
    /\ (forall m, m <> "refs/heads/alpha" -> refs g1 !! m = refs Sample.repo_alpha !! m)
    /\ objects g1 = objects Sample.repo_alpha
    /\ CheckoutBranch "alpha" (world_with (Sample.world_of Sample.repo_alpha) g1)
       = Ret (Some (Errorf "Unable to checkout branch: " ErrReferenceNotFound))
           (world_with (Sample.world_of Sample.repo_alpha) g1).
Proof.
  apply (RemoveBranch_then_CheckoutBranch "alpha" (Sample.world_of Sample.repo_alpha)
           Sample.repo_alpha); reflexivity.
Defined.

End GitRuns.

Module UserRuns.
Import Git GitUser.

Lemma load_takes_last_values_witness :
  load (configlib := Sample2.sample_config)
    {| Name := "Old"; Email := "old@example.org"; HomeFolder := "/home/alice" |}
    Sample2.alice_host
  = ({| Name := "Alice"; Email := "alice@example.org"; HomeFolder := "/home/alice" |},
     None).
Proof.
  apply (load_takes_last_values (configlib := Sample2.sample_config)
           {| Name := "Old"; Email := "old@example.org"; HomeFolder := "/home/alice" |}
           Sample2.alice_host Sample.secret Sample2.gitconfig); reflexivity.
Defined.

Lemma Init_error_keeps_identity_witness :
  exists u' err,
    Init (configlib := Sample2.sample_config) Sample2.nobody Sample2.lost_host
    = (u', Some err)
    /\ Name u' = "Old"
    /\ Email u' = "old@example.org"
    /\ (forall folder, home Sample2.lost_host = Ok folder -> HomeFolder u' = folder)
    /\ (forall e, home Sample2.lost_host = Fail e -> u' = Sample2.nobody /\ err = e).
Proof.
  eexists _, _. split; [vm_compute; reflexivity|].
  eapply (Init_error_keeps_identity (configlib := Sample2.sample_config)
            Sample2.nobody _ Sample2.lost_host).
  vm_compute. reflexivity.
Defined.

End UserRuns.
